(** * AIChaos chat listeners: moderation, gating, cooldown and dispatch

    A shallow embedding of [twitch_listener.py] and [youtube_listener.py]:
    the URL filter, the per-author cooldown map, the payment threshold,
    the call to the brain and the two event handlers that thread them.

    Conventions of the embedding.
    - A Python [str] is a [string] of 8-bit characters (the UTF-8 bytes of
      the text).  Every character class of the URL pattern is a range of
      ASCII code points, so bytes above 127 behave like the code points
      they encode: they never belong to a URL.  Where the code goes
      through a text character by character (the amount filter, [float],
      [strip]) the characters are the UTF-8 sequences of the text
      ([Py.chars]), and what the Unicode database says of a code point is
      taken from the interpreter ([PyRuntime]).
    - [time.time()] readings are rationals ([Q]); a parsed amount is the
      binary64 value that [float] rounds the decimal text to, or infinity
      ([PyFloat]).
    - The dictionary [user_cooldowns] and a JSON object are [gmap]s.
    - Console output, chat replies and the HTTP POST are recorded in a
      trace of [Effect]s, in program order.
    - The exceptions the code catches are modelled ([ValueError] of
      [urlparse] and of [float], [RequestException] of [requests.post]);
      a reply whose body is no JSON object, and a tag that is no number,
      are outside the model. *)

From Stdlib Require Import String Ascii List Bool ZArith QArith Lqa.
From stdpp Require Import gmap strings.

Local Open Scope string_scope.
Local Open Scope bool_scope.

(** ** What the interpreter decides *)

(** What the standard library decides, the listeners rely on and the
    interpreter's version changes.
    - [urlparse] validates a network location that holds both brackets
      as an IP literal; whether and how strictly depends on the version,
      so the verdict is a parameter ([true]: accepted).
    - The Unicode database, by code point: whether [str.isdigit] holds
      ([Py_UNICODE_ISDIGIT]), the value of a decimal digit, which is
      what [float] reads ([Py_UNICODE_TODECIMAL]), and whether
      [str.isspace] holds ([Py_UNICODE_ISSPACE]). *)
Record PyRuntime := {
  check_bracketed_netloc : string -> bool;
  unicode_isdigit : N -> bool;
  unicode_todecimal : N -> option N;
  unicode_isspace : N -> bool
}.

(** A Python [float] as far as reading an amount can give one: a finite
    value or positive infinity *)
Inductive PyFloat :=
| Finite (q : Q)
| Infinity.

(** ** Python string primitives *)

Module Py.

(** [s.startswith(p)] *)
Fixpoint startswith (p s : string) : bool :=
  match p with
  | EmptyString => true
  | String a p' =>
      match s with
      | EmptyString => false
      | String b s' => Ascii.eqb a b && startswith p' s'
      end
  end.

(** [sub in s] *)
Fixpoint str_in (sub s : string) : bool :=
  startswith sub s
  || match s with
     | EmptyString => false
     | String _ s' => str_in sub s'
     end.

(** [s[n:]] *)
Fixpoint drop (n : nat) (s : string) : string :=
  match n with
  | O => s
  | S n' => match s with
            | EmptyString => EmptyString
            | String _ s' => drop n' s'
            end
  end.

Definition code (c : ascii) : nat := nat_of_ascii c.

Definition in_range (lo hi : ascii) (c : ascii) : bool :=
  Nat.leb (code lo) (code c) && Nat.leb (code c) (code hi).

Definition is_upper (c : ascii) : bool := in_range "A" "Z" c.

(** [c.lower()] on an ASCII character *)
Definition lower_char (c : ascii) : ascii :=
  if is_upper c then ascii_of_nat (code c + 32) else c.

(** [s.lower()] *)
Fixpoint lower (s : string) : string :=
  match s with
  | EmptyString => EmptyString
  | String c s' => String (lower_char c) (lower s')
  end.

(** [s.replace(old, new)] for a non-empty [old]: occurrences are taken
    leftmost first and do not overlap.  [skip] counts the characters of
    the occurrence just replaced that are still to be passed over. *)
Fixpoint replace_from (skip : nat) (old new s : string) : string :=
  match s with
  | EmptyString => EmptyString
  | String c s' =>
      match skip with
      | S k => replace_from k old new s'
      | O =>
          if startswith old s
          then new ++ replace_from (String.length old - 1) old new s'
          else String c (replace_from 0 old new s')
      end
  end.

(** With an empty [old], Python puts [new] before every character and
    at the end. *)
Fixpoint intersperse (new s : string) : string :=
  match s with
  | EmptyString => new
  | String c s' => new ++ String c (intersperse new s')
  end.

Definition replace (old new s : string) : string :=
  match old with
  | EmptyString => intersperse new s
  | _ => replace_from 0 old new s
  end.

(** [s] without the bytes that [keep] refuses *)
Fixpoint filter_chars (keep : ascii -> bool) (s : string) : string :=
  match s with
  | EmptyString => EmptyString
  | String c s' =>
      if keep c then String c (filter_chars keep s') else filter_chars keep s'
  end.

(** *** Characters *)

Definition is_ascii (c : ascii) : bool := Nat.ltb (code c) 128.

(** A continuation byte of UTF-8: [10xxxxxx] *)
Definition is_continuation (c : ascii) : bool := in_range "128" "191" c.

Definition starts_with_continuation (u : string) : bool :=
  match u with
  | EmptyString => false
  | String c _ => is_continuation c
  end.

(** The characters of a text, in order, each as its UTF-8 sequence: a
    byte above 127 takes the continuation bytes that follow it along,
    an ASCII byte stands alone. *)
Fixpoint chars (s : string) : list string :=
  match s with
  | EmptyString => []
  | String b s' =>
      match chars s' with
      | u :: us =>
          if negb (is_ascii b) && starts_with_continuation u
          then String b u :: us
          else String b EmptyString :: u :: us
      | [] => [String b EmptyString]
      end
  end.

(** [''.join(l)] *)
Definition join (l : list string) : string :=
  fold_right append EmptyString l.

Definition byte (c : ascii) : N := N_of_ascii c.

(** The payload of a continuation byte *)
Definition continuation (c : ascii) : option N :=
  if is_continuation c then Some (byte c - 128)%N else None.

(** [ord(u)] of a character given as its UTF-8 sequence; [None] when
    the bytes are no well-formed sequence *)
Definition ord (u : string) : option N :=
  match u with
  | String a EmptyString => if is_ascii a then Some (byte a) else None
  | String a (String b EmptyString) =>
      if in_range "194" "223" a then
        match continuation b with
        | Some x => Some ((byte a - 192) * 64 + x)%N
        | None => None
        end
      else None
  | String a (String b (String c EmptyString)) =>
      if in_range "224" "239" a then
        match continuation b, continuation c with
        | Some x, Some y =>
            let v := ((byte a - 224) * 4096 + x * 64 + y)%N in
            if (2048 <=? v)%N && negb ((55296 <=? v)%N && (v <=? 57343)%N)
            then Some v else None
        | _, _ => None
        end
      else None
  | String a (String b (String c (String d EmptyString))) =>
      if in_range "240" "244" a then
        match continuation b, continuation c, continuation d with
        | Some x, Some y, Some z =>
            let v := ((byte a - 240) * 262144 + x * 4096 + y * 64 + z)%N in
            if (65536 <=? v)%N && (v <=? 1114111)%N then Some v else None
        | _, _, _ => None
        end
      else None
  | _ => None
  end.

Section Unicode.
Variable rt : PyRuntime.

(** [x.isdigit()] on a character *)
Definition isdigit (x : string) : bool :=
  match ord x with
  | Some cp => unicode_isdigit rt cp
  | None => false
  end.

(** The digit that [float] reads a character as, if any *)
Definition todecimal (x : string) : option N :=
  match ord x with
  | Some cp => unicode_todecimal rt cp
  | None => None
  end.

(** [x.isspace()] on a character *)
Definition isspace (x : string) : bool :=
  match ord x with
  | Some cp => unicode_isspace rt cp
  | None => false
  end.

Fixpoint lstrip (l : list string) : list string :=
  match l with
  | [] => []
  | x :: l' => if isspace x then lstrip l' else l
  end.

Fixpoint rstrip (l : list string) : list string :=
  match l with
  | [] => []
  | x :: l' =>
      match rstrip l' with
      | [] => if isspace x then [] else [x]
      | r => x :: r
      end
  end.

(** [s.strip()]: white space taken off both ends, character by
    character *)
Definition strip (s : string) : string := join (rstrip (lstrip (chars s))).
End Unicode.

(** *** Rounding to a float *)

(** [a / b] rounded to the nearest integer, a tie going to the even
    one; for [0 <= a] and [0 < b] *)
Definition round_half_even (a b : Z) : Z :=
  let q := (a / b)%Z in
  match (2 * (a mod b) ?= b)%Z with
  | Lt => q
  | Gt => (q + 1)%Z
  | Eq => if Z.even q then q else (q + 1)%Z
  end.

(** The binary64 value nearest to [num / den], for [0 <= num] and
    [0 < den]: 53 significant bits, the unit in the last place no
    finer than [2^-1074], infinity from [2^1024] on.  [float] rounds a
    decimal text so. *)
Definition nearest_double (num den : Z) : PyFloat :=
  if (num =? 0)%Z then Finite 0
  else
    let e0 := (Z.log2 num - Z.log2 den)%Z in
    let below :=
      if (0 <=? e0)%Z then (num <? den * 2 ^ e0)%Z
      else (num * 2 ^ (- e0) <? den)%Z in
    let e := if below then (e0 - 1)%Z else e0 in
    let p := Z.max (e - 52) (-1074) in
    if (0 <=? p)%Z then
      let v := (round_half_even num (den * 2 ^ p) * 2 ^ p)%Z in
      if (2 ^ 1024 <=? v)%Z then Infinity else Finite (inject_Z v)
    else
      Finite (Qred (Qmake (round_half_even (num * 2 ^ (- p)) den)
                      (Z.to_pos (2 ^ (- p))))).

End Py.

(** ** The URL pattern and [urllib.parse.urlparse] *)

Module Url.
Import Py.

Definition alt_letter (c : ascii) : bool :=
  in_range "a" "z" c || in_range "A" "Z" c.

Definition alt_digit (c : ascii) : bool := in_range "0" "9" c.

(** [[$-_@.&+]]: the range from [$] to [_] and four more characters *)
Definition alt_symbol (c : ascii) : bool :=
  in_range "$" "_" c || Ascii.eqb c "@" || Ascii.eqb c "."
  || Ascii.eqb c "&" || Ascii.eqb c "+".

Definition is_hex (c : ascii) : bool :=
  in_range "0" "9" c || in_range "a" "f" c || in_range "A" "F" c.

Section Pattern.
(** The fourth alternative of the pattern: the two listeners spell it
    differently. *)
Variable punct : ascii -> bool.

Definition single (c : ascii) : bool :=
  alt_letter c || alt_digit c || alt_symbol c || punct c.

(** [(?:[a-zA-Z]|[0-9]|[$-_@.&+]|punct|(?:%[0-9a-fA-F][0-9a-fA-F]))+],
    greedy, alternatives tried in order; the empty result stands for
    no iteration at all. *)
Fixpoint body (s : string) : string :=
  match s with
  | EmptyString => EmptyString
  | String c s' =>
      if single c then String c (body s')
      else
        match s with
        | String "%" (String a (String b s'')) =>
            if is_hex a && is_hex b
            then String "%" (String a (String b (body s'')))
            else EmptyString
        | _ => EmptyString
        end
  end.

(** [://] and at least one iteration of the body *)
Definition after_scheme (scheme r : string) : option string :=
  if startswith "://" r then
    match body (drop 3 r) with
    | EmptyString => None
    | b => Some (scheme ++ "://" ++ b)
    end
  else None.

(** A match of the whole pattern anchored at the start of [s];
    [[s]?] first takes the [s], then gives it back. *)
Definition match_at (s : string) : option string :=
  if startswith "http" s then
    let r := drop 4 s in
    match (if startswith "s" r then after_scheme "https" (drop 1 r)
           else None) with
    | Some u => Some u
    | None => after_scheme "http" r
    end
  else None.

(** [re.findall(url_pattern, text)]: matches left to right, the scan
    resuming after each match. *)
Fixpoint findall_from (skip : nat) (s : string) : list string :=
  match s with
  | EmptyString => []
  | String _ s' =>
      match skip with
      | S k => findall_from k s'
      | O =>
          match match_at s with
          | Some u => u :: findall_from (String.length u - 1) s'
          | None => findall_from 0 s'
          end
      end
  end.

Definition findall (text : string) : list string := findall_from 0 text.
End Pattern.

(** *** [urlparse(url).netloc] *)

Definition scheme_char (c : ascii) : bool :=
  alt_letter c || alt_digit c || Ascii.eqb c "+" || Ascii.eqb c "-"
  || Ascii.eqb c ".".

(** [url.find(':')], as the text before the colon and the text after *)
Fixpoint split_colon (s : string) : option (string * string) :=
  match s with
  | EmptyString => None
  | String c s' =>
      if Ascii.eqb c ":" then Some (EmptyString, s')
      else match split_colon s' with
           | Some (a, b) => Some (String c a, b)
           | None => None
           end
  end.

Fixpoint all_chars (p : ascii -> bool) (s : string) : bool :=
  match s with
  | EmptyString => true
  | String c s' => p c && all_chars p s'
  end.

(** The text left once a leading scheme is cut off *)
Definition strip_scheme (url : string) : string :=
  match split_colon url with
  | Some (String c sch, rest) =>
      if alt_letter c && all_chars scheme_char (String c sch)
      then rest else url
  | _ => url
  end.

(** [_splitnetloc]: up to the first of [/], [?], [#] *)
Fixpoint netloc_of (s : string) : string :=
  match s with
  | EmptyString => EmptyString
  | String c s' =>
      if Ascii.eqb c "/" || Ascii.eqb c "?" || Ascii.eqb c "#"
      then EmptyString else String c (netloc_of s')
  end.

Definition c0_or_space (c : ascii) : bool := Nat.leb (code c) 32.

Fixpoint lstrip_c0 (s : string) : string :=
  match s with
  | EmptyString => EmptyString
  | String c s' => if c0_or_space c then lstrip_c0 s' else s
  end.

Definition unsafe_byte (c : ascii) : bool :=
  Ascii.eqb c "009" || Ascii.eqb c "010" || Ascii.eqb c "013".

(** [urlparse(url).netloc]; [None] stands for the [ValueError] that
    [urlsplit] raises on a malformed bracketed host. *)
Definition urlparse_netloc (rt : PyRuntime) (url : string) : option string :=
  let url := filter_chars (fun c => negb (unsafe_byte c)) (lstrip_c0 url) in
  let url := strip_scheme url in
  if startswith "//" url then
    let netloc := netloc_of (drop 2 url) in
    let lb := str_in "[" netloc in
    let rb := str_in "]" netloc in
    if (lb && negb rb) || (rb && negb lb) then None
    else if lb && rb then
      if check_bracketed_netloc rt netloc then Some netloc else None
    else Some netloc
  else Some EmptyString.

End Url.

(** ** An interpreter *)

(** The tables of Unicode 14.0, the database of CPython 3.11 *)
Module Unicode14.

(** Code points for which [str.isdigit] holds, as inclusive ranges *)
Definition digit_ranges : list (N * N) := [
  (48, 57); (178, 179); (185, 185); (1632, 1641); (1776, 1785);
  (1984, 1993); (2406, 2415); (2534, 2543); (2662, 2671); (2790, 2799);
  (2918, 2927); (3046, 3055); (3174, 3183); (3302, 3311); (3430, 3439);
  (3558, 3567); (3664, 3673); (3792, 3801); (3872, 3881); (4160, 4169);
  (4240, 4249); (4969, 4977); (6112, 6121); (6160, 6169); (6470, 6479);
  (6608, 6618); (6784, 6793); (6800, 6809); (6992, 7001); (7088, 7097);
  (7232, 7241); (7248, 7257); (8304, 8304); (8308, 8313); (8320, 8329);
  (9312, 9320); (9332, 9340); (9352, 9360); (9450, 9450); (9461, 9469);
  (9471, 9471); (10102, 10110); (10112, 10120); (10122, 10130);
  (42528, 42537); (43216, 43225); (43264, 43273); (43472, 43481);
  (43504, 43513); (43600, 43609); (44016, 44025); (65296, 65305);
  (66720, 66729); (68160, 68163); (68912, 68921); (69216, 69224);
  (69714, 69722); (69734, 69743); (69872, 69881); (69942, 69951);
  (70096, 70105); (70384, 70393); (70736, 70745); (70864, 70873);
  (71248, 71257); (71360, 71369); (71472, 71481); (71904, 71913);
  (72016, 72025); (72784, 72793); (73040, 73049); (73120, 73129);
  (92768, 92777); (92864, 92873); (93008, 93017); (120782, 120831);
  (123200, 123209); (123632, 123641); (125264, 125273); (127232, 127242);
  (130032, 130041)
]%N.

(** Code points of the decimal digits, the ones [float] reads; every
    range is made of runs of ten, from the digit zero to the digit nine *)
Definition decimal_ranges : list (N * N) := [
  (48, 57); (1632, 1641); (1776, 1785); (1984, 1993); (2406, 2415);
  (2534, 2543); (2662, 2671); (2790, 2799); (2918, 2927); (3046, 3055);
  (3174, 3183); (3302, 3311); (3430, 3439); (3558, 3567); (3664, 3673);
  (3792, 3801); (3872, 3881); (4160, 4169); (4240, 4249); (6112, 6121);
  (6160, 6169); (6470, 6479); (6608, 6617); (6784, 6793); (6800, 6809);
  (6992, 7001); (7088, 7097); (7232, 7241); (7248, 7257); (42528, 42537);
  (43216, 43225); (43264, 43273); (43472, 43481); (43504, 43513);
  (43600, 43609); (44016, 44025); (65296, 65305); (66720, 66729);
  (68912, 68921); (69734, 69743); (69872, 69881); (69942, 69951);
  (70096, 70105); (70384, 70393); (70736, 70745); (70864, 70873);
  (71248, 71257); (71360, 71369); (71472, 71481); (71904, 71913);
  (72016, 72025); (72784, 72793); (73040, 73049); (73120, 73129);
  (92768, 92777); (92864, 92873); (93008, 93017); (120782, 120831);
  (123200, 123209); (123632, 123641); (125264, 125273); (130032, 130041)
]%N.

(** Code points for which [str.isspace] holds; [str.strip] removes them *)
Definition space_ranges : list (N * N) := [
  (9, 13); (28, 32); (133, 133); (160, 160); (5760, 5760); (8192, 8202);
  (8232, 8233); (8239, 8239); (8287, 8287); (12288, 12288)
]%N.

Definition in_ranges (ranges : list (N * N)) (cp : N) : bool :=
  existsb (fun r => (fst r <=? cp)%N && (cp <=? snd r)%N) ranges.

Definition isdigit (cp : N) : bool := in_ranges digit_ranges cp.

Definition todecimal (cp : N) : option N :=
  match List.find (fun r => (fst r <=? cp)%N && (cp <=? snd r)%N)
          decimal_ranges with
  | Some r => Some ((cp - fst r) mod 10)%N
  | None => None
  end.

Definition isspace (cp : N) : bool := in_ranges space_ranges cp.

End Unicode14.

(** An interpreter whose [urlparse] accepts every balanced bracketed
    host (CPython before the bracketed-host validation was added), with
    the character tables of CPython 3.11. *)
Definition lenient : PyRuntime := {|
  check_bracketed_netloc := fun _ => true;
  unicode_isdigit := Unicode14.isdigit;
  unicode_todecimal := Unicode14.todecimal;
  unicode_isspace := Unicode14.isspace
|}.

(** ** Values exchanged with the world *)

(** A JSON value as far as the listeners look into it *)
Inductive json :=
| JNull
| JBool (b : bool)
| JNum (q : Q)
| JStr (s : string).

(** What [requests.post] produces: a [RequestException], or a response
    with its status code and the object that [response.json()] yields. *)
Inductive Reply :=
| RequestException
| Response (status_code : Z) (data : gmap string json).

(** The three values [send_to_brain] can return *)
Inductive PyValue := PyTrue | PyFalse | PyNone.

(** Truth value of a [PyValue] in an [if] *)
Definition truthy (v : PyValue) : bool :=
  match v with PyTrue => true | _ => false end.

(** The payment shown in the console line of a queued command *)
Inductive PaidInfo :=
| NoInfo
| BitsInfo (bits : Z)
| SuperChatInfo (amount : string).

(** Lines printed on the operator's console (time stamps left out) *)
Inductive LogLine :=
| LogQueued (info : PaidInfo) (prompt : string)
| LogBlockedBySafety (message : option json)
| LogBrainError (status_code : Z)
| LogConnectFailed
| LogBits (author : string) (bits : Z)
| LogChat (author : string)
| LogSuperChat (author amount_str currency : string)
| LogRegularChat (author prompt : string)
| LogMessage (text : string)
| LogInsufficientBits (minimum : Z)
| LogAmountTooLow (minimum : Q)
| LogOnCooldown
| LogUrlsRemoved
| LogFiltered (text : string)
| LogActivated
| LogFailed
| LogBlank.

(** Replies written to the chat with [ctx.send], each addressed
    [@author] *)
Inductive ChatMsg :=
| MsgUsage (command : string)
| MsgNeedBits (minimum : Z)
| MsgWait (seconds : Q)
| MsgUrlsFiltered
| MsgProcessing
| MsgUnleashed
| MsgFailedOffline.

Inductive Effect :=
| Print (line : LogLine)
| Post (prompt : string)
| Send (author : string) (msg : ChatMsg).

(** One handler run sees one brain and two clock readings: the one of
    [is_on_cooldown] and the later one of [set_cooldown]. *)
Record World := {
  brain : string -> Reply;
  now_check : Q;
  now_set : Q
}.

(** Chat messages of a trace, in order *)
Definition sent (tr : list Effect) : list (string * ChatMsg) :=
  flat_map (fun e => match e with Send a m => [(a, m)] | _ => [] end) tr.

(** Prompts posted to the brain, in order *)
Definition posted (tr : list Effect) : list string :=
  flat_map (fun e => match e with Post p => [p] | _ => [] end) tr.

(** [x < y] on rationals *)
Definition Qlt_bool (x y : Q) : bool := negb (Qle_bool y x).

(** ** Code the two listeners share word for word *)

Module Listener.
Import Py.

Section Cooldown.
Variable COOLDOWN_SECONDS : Q.

(** [is_on_cooldown(author)], reading the clock as [now] *)
Definition is_on_cooldown (now : Q) (author : string)
    (user_cooldowns : gmap string Q) : bool :=
  match user_cooldowns !! author with
  | Some last =>
      let elapsed := (now - last)%Q in
      if Qlt_bool elapsed COOLDOWN_SECONDS then true else false
  | None => false
  end.
End Cooldown.

(** [set_cooldown(author)], reading the clock as [now] *)
Definition set_cooldown (now : Q) (author : string)
    (user_cooldowns : gmap string Q) : gmap string Q :=
  <[author := now]> user_cooldowns.

Definition REDACTED : string := "[URL REMOVED]".

Section Filter.
Variable rt : PyRuntime.
Variable ALLOWED_DOMAINS : list string.

(** [any(allowed in domain for allowed in ALLOWED_DOMAINS)] *)
Definition is_allowed (domain : string) : bool :=
  existsb (fun allowed => str_in allowed domain) ALLOWED_DOMAINS.

(** Whether the loop body redacts [url]: the host is not allowed, or
    [urlparse] raised. *)
Definition redacts (url : string) : bool :=
  match Url.urlparse_netloc rt url with
  | Some netloc => negb (is_allowed (lower netloc))
  | None => true
  end.

(** One turn of [for url in urls], on
    [(filtered_message, filtered)] *)
Definition filter_step (acc : string * bool) (url : string)
    : string * bool :=
  let '(filtered_message, filtered) := acc in
  match Url.urlparse_netloc rt url with
  | Some netloc =>
      let domain := lower netloc in
      if negb (is_allowed domain)
      then (replace url REDACTED filtered_message, true)
      else (filtered_message, filtered)
  | None => (replace url REDACTED filtered_message, true)
  end.

(** [filter_urls] past its two early returns, [urls] being
    [contains_url(message)] *)
Definition filter_found (urls : list string) (message : string)
    : string * bool :=
  match urls with
  | [] => (message, false)
  | _ => fold_left filter_step urls (message, false)
  end.
End Filter.

Definition json_is (o : option json) (s : string) : bool :=
  match o with
  | Some (JStr t) => String.eqb t s
  | _ => false
  end.

(** [send_to_brain], the payment reduced to what the console line
    shows of it *)
Definition send_to_brain (w : World) (prompt : string) (info : PaidInfo)
    : PyValue * list Effect :=
  match brain w prompt with
  | Response status_code data =>
      if (status_code =? 200)%Z then
        if json_is (data !! "status") "queued" then
          (PyTrue, [Post prompt; Print (LogQueued info prompt)])
        else if json_is (data !! "status") "ignored" then
          (PyFalse,
           [Post prompt; Print (LogBlockedBySafety (data !! "message"))])
        else (PyNone, [Post prompt])
      else (PyFalse, [Post prompt; Print (LogBrainError status_code)])
  | RequestException => (PyFalse, [Post prompt; Print LogConnectFailed])
  end.

End Listener.

(** ** [twitch_listener.py]: the callback-driven listener *)

Module Twitch.
Import Py.

Record Config := {
  CHAT_COMMAND : string;
  REQUIRE_BITS : bool;
  MIN_BITS_AMOUNT : Z;
  BLOCK_URLS : bool;
  MODERATORS : list string;
  ALLOWED_DOMAINS : list string;
  COOLDOWN_SECONDS : Q
}.

(** The settings as the file ships them *)
Definition shipped : Config := {|
  CHAT_COMMAND := "!chaos";
  REQUIRE_BITS := false;
  MIN_BITS_AMOUNT := 100;
  BLOCK_URLS := true;
  MODERATORS := [];
  ALLOWED_DOMAINS := ["i.imgur.com"; "imgur.com"];
  COOLDOWN_SECONDS := 5
|}.

Record Author := {
  name : string;
  is_mod : bool;
  is_broadcaster : bool
}.

(** [ctx]: the author and the message's tags ([None] when the message
    has no [tags] attribute), numeric tags only *)
Record Context := {
  author : Author;
  tags : option (gmap string Z)
}.

(** [[!*\\(\\),]] in a raw string: the class holds the backslash too *)
Definition punct (c : ascii) : bool :=
  Ascii.eqb c "!" || Ascii.eqb c "*" || Ascii.eqb c "\" || Ascii.eqb c "("
  || Ascii.eqb c ")" || Ascii.eqb c ",".

Definition contains_url (text : string) : list string :=
  Url.findall punct text.

Definition is_moderator (cfg : Config) (ctx : Context) : bool :=
  let is_mod := is_mod (author ctx) || is_broadcaster (author ctx) in
  is_mod || existsb (String.eqb (name (author ctx))) (MODERATORS cfg).

Definition filter_urls (cfg : Config) (rt : PyRuntime) (message : string)
    (ctx : Context) : string * bool :=
  if negb (BLOCK_URLS cfg) then (message, false)
  else if is_moderator cfg ctx then (message, false)
  else Listener.filter_found rt (ALLOWED_DOMAINS cfg)
         (contains_url message) message.

Definition is_on_cooldown (cfg : Config) :=
  Listener.is_on_cooldown (COOLDOWN_SECONDS cfg).

Definition set_cooldown := Listener.set_cooldown.

(** [send_to_brain(prompt, author, bits)] *)
Definition send_to_brain (w : World) (prompt author : string)
    (bits : option Z) : PyValue * list Effect :=
  Listener.send_to_brain w prompt
    match bits with
    | Some b => if (b =? 0)%Z then NoInfo else BitsInfo b
    | None => NoInfo
    end.

(** [int(ctx.message.tags.get('bits', 0))] when the message has tags
    and they are not empty, else [0] *)
Definition bits_of (ctx : Context) : Z :=
  match tags ctx with
  | Some t =>
      if decide (t = ∅) then 0%Z
      else match t !! "bits" with Some b => b | None => 0%Z end
  | None => 0%Z
  end.

(** [not prompt], for the keyword argument that defaults to [None] *)
Definition no_prompt (prompt : option string) : bool :=
  match prompt with
  | None | Some EmptyString => true
  | Some _ => false
  end.

(** The check at the head of the pipeline: [REQUIRE_BITS and
    bits < MIN_BITS_AMOUNT] rejects. *)
Definition insufficient_bits (cfg : Config) (bits : Z) : bool :=
  REQUIRE_BITS cfg && (bits <? MIN_BITS_AMOUNT cfg)%Z.

(** [Bot.chaos(ctx, prompt)]: the cooldown map afterwards and what the
    handler did *)
Definition chaos (cfg : Config) (rt : PyRuntime) (w : World)
    (ctx : Context) (prompt : option string)
    (user_cooldowns : gmap string Q) : gmap string Q * list Effect :=
  let author := name (author ctx) in
  if no_prompt prompt then
    (user_cooldowns, [Send author (MsgUsage (CHAT_COMMAND cfg))])
  else
    let prompt := default EmptyString prompt in
    let bits := bits_of ctx in
    let heading :=
      [Print (if (0 <? bits)%Z then LogBits author bits else LogChat author);
       Print (LogMessage prompt)] in
    if insufficient_bits cfg bits then
      (user_cooldowns,
       (heading ++ [Print (LogInsufficientBits (MIN_BITS_AMOUNT cfg));
                    Send author (MsgNeedBits (MIN_BITS_AMOUNT cfg))])%list)
    else if is_on_cooldown cfg (now_check w) author user_cooldowns then
      (user_cooldowns,
       (heading ++ [Print LogOnCooldown;
                    Send author (MsgWait (COOLDOWN_SECONDS cfg))])%list)
    else
      let '(filtered_prompt, was_filtered) :=
        filter_urls cfg rt prompt ctx in
      let notice :=
        if was_filtered
        then [Print LogUrlsRemoved; Print (LogFiltered filtered_prompt);
              Send author MsgUrlsFiltered]
        else [] in
      let '(result, call) :=
        send_to_brain w filtered_prompt author
          (if (0 <? bits)%Z then Some bits else None) in
      if truthy result then
        (set_cooldown (now_set w) author user_cooldowns,
         (heading ++ notice ++ [Send author MsgProcessing] ++ call
          ++ [Print LogActivated; Send author MsgUnleashed; Print LogBlank])
         %list)
      else
        (user_cooldowns,
         (heading ++ notice ++ [Send author MsgProcessing] ++ call
          ++ [Print LogFailed; Send author MsgFailedOffline; Print LogBlank])
         %list).

End Twitch.

(** ** [youtube_listener.py]: the polling listener *)

Module YouTube.
Import Py.

Record Config := {
  MIN_SUPER_CHAT_AMOUNT : Q;
  ALLOW_REGULAR_CHAT : bool;
  CHAT_COMMAND : string;
  BLOCK_URLS : bool;
  MODERATORS : list string;
  ALLOWED_DOMAINS : list string;
  COOLDOWN_SECONDS : Q
}.

(** The settings as the file ships them *)
Definition shipped : Config := {|
  MIN_SUPER_CHAT_AMOUNT := 1;
  ALLOW_REGULAR_CHAT := false;
  CHAT_COMMAND := "!chaos";
  BLOCK_URLS := true;
  MODERATORS := [];
  ALLOWED_DOMAINS := ["i.imgur.com"; "imgur.com"];
  COOLDOWN_SECONDS := 5
|}.

(** A chat item as [pytchat] hands it over; an attribute that
    [hasattr] may find missing is an [option]. *)
Record ChatItem := {
  author_name : string;
  isChatModerator : option bool;
  message : string;
  type : string;
  amountString : option string;
  currency : option string
}.

(** [[!*\(\),]] *)
Definition punct (c : ascii) : bool :=
  Ascii.eqb c "!" || Ascii.eqb c "*" || Ascii.eqb c "(" || Ascii.eqb c ")"
  || Ascii.eqb c ",".

Definition contains_url (text : string) : list string :=
  Url.findall punct text.

Definition is_moderator (cfg : Config) (author : string)
    (is_mod_flag : bool) : bool :=
  existsb (String.eqb author) (MODERATORS cfg) || is_mod_flag.

Definition filter_urls (cfg : Config) (rt : PyRuntime) (message : string)
    (author : string) (is_mod : bool) : string * bool :=
  if negb (BLOCK_URLS cfg) then (message, false)
  else if is_moderator cfg author is_mod then (message, false)
  else Listener.filter_found rt (ALLOWED_DOMAINS cfg)
         (contains_url message) message.

Definition is_on_cooldown (cfg : Config) :=
  Listener.is_on_cooldown (COOLDOWN_SECONDS cfg).

Definition set_cooldown := Listener.set_cooldown.

(** [send_to_brain(prompt, author, amount)] *)
Definition send_to_brain (w : World) (prompt author : string)
    (amount : option string) : PyValue * list Effect :=
  Listener.send_to_brain w prompt
    match amount with
    | Some EmptyString | None => NoInfo
    | Some a => SuperChatInfo a
    end.

Definition format_super_chat_message (c : ChatItem) : string * string :=
  (default "Unknown" (amountString c), default EmptyString (currency c)).

(** *** Reading the amount *)

Section Amount.
Variable rt : PyRuntime.

(** The lambda of the amount filter: [x.isdigit() or x == '.'] *)
Definition amount_char (x : string) : bool := isdigit rt x || String.eqb x ".".

(** [''.join(filter(lambda x: x.isdigit() or x == '.', amount_str))] *)
Definition amount_text (amount_str : string) : string :=
  join (List.filter amount_char (chars amount_str)).

(** The characters of [l] read as decimal digits in base ten onto
    [acc]; [None] at a point and at a character that is no decimal
    digit *)
Fixpoint digits_value (acc : N) (l : list string) : option N :=
  match l with
  | [] => Some acc
  | x :: l' =>
      if String.eqb x "." then None
      else
        match todecimal rt x with
        | Some d => digits_value (10 * acc + d) l'
        | None => None
        end
  end.

(** The characters before the first point and, when there is a point,
    the characters after it *)
Fixpoint split_point (l : list string) : list string * option (list string) :=
  match l with
  | [] => ([], None)
  | x :: l' =>
      if String.eqb x "." then ([], Some l')
      else let '(a, b) := split_point l' in (x :: a, b)
  end.

(** [float] on the characters of its argument, for a text of digit
    characters and points, the only texts the listener passes: it takes
    decimal digits with at most one point among them, and at least one
    digit, and rounds the decimal to the nearest float.  [None] stands
    for the [ValueError]. *)
Definition float_of_chars (text : list string) : option PyFloat :=
  let '(whole, frac) := split_point text in
  let frac := default [] frac in
  match (List.length whole + List.length frac)%nat with
  | O => None
  | _ =>
      match digits_value 0 (whole ++ frac)%list with
      | Some n =>
          Some (nearest_double (Z.of_N n) (10 ^ Z.of_nat (List.length frac)))
      | None => None
      end
  end.

(** [float(s)] *)
Definition float_of (s : string) : option PyFloat := float_of_chars (chars s).

(** The [try] around the parse: a failure gives [0]. *)
Definition parse_amount (amount_str : string) : PyFloat :=
  match float_of (amount_text amount_str) with
  | Some v => v
  | None => Finite 0
  end.
End Amount.

(** [amount_value >= MIN_SUPER_CHAT_AMOUNT] *)
Definition amount_suffices (cfg : Config) (amount_value : PyFloat) : bool :=
  match amount_value with
  | Finite v => Qle_bool (MIN_SUPER_CHAT_AMOUNT cfg) v
  | Infinity => true
  end.

(** *** The body of the polling loop *)

(** One turn of [for c in chat.get().sync_items()]: the cooldown map
    afterwards and what the turn did *)
Definition process_item (cfg : Config) (rt : PyRuntime) (w : World)
    (c : ChatItem) (user_cooldowns : gmap string Q)
    : gmap string Q * list Effect :=
  let author := author_name c in
  let message := message c in
  if String.eqb (type c) "superChat" then
    let '(amount_str, currency) := format_super_chat_message c in
    let amount_value := parse_amount rt amount_str in
    let heading :=
      [Print (LogSuperChat author amount_str currency);
       Print (LogMessage message)] in
    if amount_suffices cfg amount_value then
      let is_mod := default false (isChatModerator c) in
      let '(filtered_message, was_filtered) :=
        filter_urls cfg rt message author is_mod in
      let notice :=
        if was_filtered
        then [Print LogUrlsRemoved; Print (LogFiltered filtered_message)]
        else [] in
      if is_on_cooldown cfg (now_check w) author user_cooldowns then
        (user_cooldowns, (heading ++ notice ++ [Print LogOnCooldown])%list)
      else
        let '(result, call) :=
          send_to_brain w filtered_message author (Some amount_str) in
        if truthy result then
          (set_cooldown (now_set w) author user_cooldowns,
           (heading ++ notice ++ call
            ++ [Print LogActivated; Print LogBlank])%list)
        else
          (user_cooldowns,
           (heading ++ notice ++ call
            ++ [Print LogFailed; Print LogBlank])%list)
    else
      (user_cooldowns,
       (heading ++ [Print (LogAmountTooLow (MIN_SUPER_CHAT_AMOUNT cfg));
                    Print LogBlank])%list)
  else if ALLOW_REGULAR_CHAT cfg && startswith (CHAT_COMMAND cfg) message
  then
    let prompt :=
      strip rt (drop (String.length (CHAT_COMMAND cfg)) message) in
    match prompt with
    | EmptyString => (user_cooldowns, [])
    | _ =>
        let heading := [Print (LogRegularChat author prompt)] in
        let is_mod := default false (isChatModerator c) in
        let '(filtered_prompt, was_filtered) :=
          filter_urls cfg rt prompt author is_mod in
        let notice :=
          if was_filtered
          then [Print LogUrlsRemoved; Print (LogFiltered filtered_prompt)]
          else [] in
        if is_on_cooldown cfg (now_check w) author user_cooldowns then
          (user_cooldowns,
           (heading ++ notice ++ [Print LogOnCooldown])%list)
        else
          let '(result, call) :=
            send_to_brain w filtered_prompt author None in
          if truthy result then
            (set_cooldown (now_set w) author user_cooldowns,
             (heading ++ notice ++ call
              ++ [Print LogActivated; Print LogBlank])%list)
          else
            (user_cooldowns,
             (heading ++ notice ++ call
              ++ [Print LogFailed; Print LogBlank])%list)
    end
  else (user_cooldowns, []).

(** The items the loop of [main] meets, each with the world it meets
    it in, handled one after the other *)
Fixpoint run_items (cfg : Config) (rt : PyRuntime)
    (items : list (World * ChatItem)) (user_cooldowns : gmap string Q)
    : gmap string Q * list Effect :=
  match items with
  | [] => (user_cooldowns, [])
  | (w, c) :: rest =>
      let '(cd, tr) := process_item cfg rt w c user_cooldowns in
      let '(cd', tr') := run_items cfg rt rest cd in
      (cd', (tr ++ tr')%list)
  end.

End YouTube.

(** ** Inputs and predicates of the statements *)

(** A viewer without any role *)
Definition viewer (name : string) : Twitch.Context :=
  {| Twitch.author :=
       {| Twitch.name := name; Twitch.is_mod := false;
          Twitch.is_broadcaster := false |};
     Twitch.tags := None |}.

(** The broadcaster of the channel *)
Definition broadcaster (name : string) : Twitch.Context :=
  {| Twitch.author :=
       {| Twitch.name := name; Twitch.is_mod := false;
          Twitch.is_broadcaster := true |};
     Twitch.tags := None |}.

(** A cheer: a command with a bits tag *)
Definition cheer (name : string) (bits : Z) : Twitch.Context :=
  {| Twitch.author :=
       {| Twitch.name := name; Twitch.is_mod := false;
          Twitch.is_broadcaster := false |};
     Twitch.tags := Some {["bits" := bits]} |}.

(** The shipped settings with bits required *)
Definition bits_required : Twitch.Config := {|
  Twitch.CHAT_COMMAND := "!chaos";
  Twitch.REQUIRE_BITS := true;
  Twitch.MIN_BITS_AMOUNT := 100;
  Twitch.BLOCK_URLS := true;
  Twitch.MODERATORS := [];
  Twitch.ALLOWED_DOMAINS := ["i.imgur.com"; "imgur.com"];
  Twitch.COOLDOWN_SECONDS := 5
|}.

(** A super chat with the given amount text *)
Definition super_chat (name text : string) (amount : option string)
    : YouTube.ChatItem :=
  {| YouTube.author_name := name;
     YouTube.isChatModerator := None;
     YouTube.message := text;
     YouTube.type := "superChat";
     YouTube.amountString := amount;
     YouTube.currency := Some "USD" |}.

(** A world whose brain gives the same reply to every prompt *)
Definition world (r : Reply) (t_check t_set : Q) : World :=
  {| brain := fun _ => r; now_check := t_check; now_set := t_set |}.

(** The reply of a brain that queues *)
Definition queued_reply : Reply :=
  Response 200 {["status" := JStr "queued"]}.

(** The reply of a brain whose safety check declines *)
Definition ignored_reply : Reply :=
  Response 200 {["status" := JStr "ignored"; "message" := JStr "too violent"]}.

(** Texts with one URL each, on hosts that merely contain [imgur.com] *)
Definition lookalike_text : string := "look http://notimgur.com/pic.png".
Definition embedded_text : string := "look https://imgur.com.attacker.net/x".

(** A text whose URL names [imgur.com] as the user, on the host
    [evil.com] *)
Definition user_name_text : string := "look http://imgur.com@evil.com/x".

(** A text whose URL spells its host in capital letters *)
Definition capital_text : string := "pic http://I.IMGUR.COM/a.png".

(** A text whose URL holds [imgur.com] in its path only *)
Definition path_text : string := "see http://evil.com/imgur.com".

(** What stands after the last [@] of a text, the whole text when it
    holds none *)
Fixpoint after_last_at (s : string) : string :=
  match s with
  | EmptyString => EmptyString
  | String c s' =>
      if Py.str_in "@" s' then after_last_at s'
      else if Ascii.eqb c "@" then s' else s
  end.

(** What stands before the first [:] of a text *)
Fixpoint before_colon (s : string) : string :=
  match s with
  | EmptyString => EmptyString
  | String c s' =>
      if Ascii.eqb c ":" then EmptyString else String c (before_colon s')
  end.

(** The host of a URL in the sense of the claim, read off a network
    location without brackets: the user name and the password end at
    the last [@], the port begins at the next [:], and what stands
    between is the host, put in small letters. *)
Definition host_of (netloc : string) : string :=
  Py.lower (before_colon (after_last_at netloc)).

(** Two URLs, the first of which ends in a bracket and occurs again at
    the end of the second *)
Definition leak_text : string := "http://x/[ http://x/http://x/[".

(** Two URLs, the first of which occurs again inside the second *)
Definition nested_text : string := "http://a.b http://c.d/http://a.b".

(** The one reply that counts as success: HTTP 200 with status
    [queued] *)
Definition queued (r : Reply) : Prop :=
  exists data, r = Response 200 data /\ data !! "status" = Some (JStr "queued").

(** HTTP 200 with status [ignored]: the brain's safety check declined *)
Definition ignored (r : Reply) : Prop :=
  exists data, r = Response 200 data /\ data !! "status" = Some (JStr "ignored").

(** The replies that are failures by name: declined by the safety
    check, no connection, or a status code other than 200 *)
Definition failed (r : Reply) : Prop :=
  ignored r \/ r = RequestException
  \/ exists code data, r = Response code data /\ code <> 200%Z.

(** HTTP 200 with a body whose status is neither [queued] nor
    [ignored]; a body without a status is one of them *)
Definition unrecognised (r : Reply) : Prop :=
  exists data,
    r = Response 200 data
    /\ data !! "status" <> Some (JStr "queued")
    /\ data !! "status" <> Some (JStr "ignored").

(** The prompt [chaos] hands to the brain *)
Definition twitch_prompt (cfg : Twitch.Config) (rt : PyRuntime)
    (ctx : Twitch.Context) (prompt : option string) : string :=
  fst (Twitch.filter_urls cfg rt (default EmptyString prompt) ctx).

(** The text the polling loop filters: a super chat's whole message, a
    chat command's text after the command *)
Definition youtube_text (cfg : YouTube.Config) (rt : PyRuntime)
    (c : YouTube.ChatItem) : string :=
  if String.eqb (YouTube.type c) "superChat" then YouTube.message c
  else Py.strip rt (Py.drop (String.length (YouTube.CHAT_COMMAND cfg))
                      (YouTube.message c)).

(** The prompt the polling loop hands to the brain *)
Definition youtube_prompt (cfg : YouTube.Config) (rt : PyRuntime)
    (c : YouTube.ChatItem) : string :=
  fst (YouTube.filter_urls cfg rt (youtube_text cfg rt c)
         (YouTube.author_name c)
         (default false (YouTube.isChatModerator c))).

(** Whether the polling loop takes an item up and lets it past the
    amount check: a super chat of a sufficient amount, or, where plain
    chat is enabled, a message that starts with the command and goes on *)
Definition youtube_admits (cfg : YouTube.Config) (rt : PyRuntime)
    (c : YouTube.ChatItem) : bool :=
  if String.eqb (YouTube.type c) "superChat" then
    YouTube.amount_suffices cfg
      (YouTube.parse_amount rt (fst (YouTube.format_super_chat_message c)))
  else
    YouTube.ALLOW_REGULAR_CHAT cfg
    && Py.startswith (YouTube.CHAT_COMMAND cfg) (YouTube.message c)
    && negb (String.eqb (youtube_text cfg rt c) EmptyString).

(** The characters a URL found by the scan is made of: [!], the range
    from [$] to [_] and the small letters *)
Definition url_char (c : ascii) : bool :=
  Nat.eqb (Py.code c) 33
  || (Nat.leb 36 (Py.code c) && Nat.leb (Py.code c) 95)
  || (Nat.leb 97 (Py.code c) && Nat.leb (Py.code c) 122).

(** The URLs the loop can deal with for good: they begin with [h] and
    hold no opening bracket *)
Definition plain_url (u : string) : Prop :=
  Py.startswith "h" u = true /\ Py.str_in "[" u = false.

(** Characters of a network location: those of the pattern but the
    delimiters *)
Definition netloc_char (c : ascii) : bool :=
  url_char c
  && negb (Ascii.eqb c "/" || Ascii.eqb c "?" || Ascii.eqb c "#").

(** Characters of a host: those of a network location but the
    brackets *)
Definition host_char (c : ascii) : bool :=
  netloc_char c && negb (Ascii.eqb c "[" || Ascii.eqb c "]").

(** The settings with another [CHAT_COMMAND] *)
Definition with_command (cfg : Twitch.Config) (command : string)
    : Twitch.Config := {|
  Twitch.CHAT_COMMAND := command;
  Twitch.REQUIRE_BITS := Twitch.REQUIRE_BITS cfg;
  Twitch.MIN_BITS_AMOUNT := Twitch.MIN_BITS_AMOUNT cfg;
  Twitch.BLOCK_URLS := Twitch.BLOCK_URLS cfg;
  Twitch.MODERATORS := Twitch.MODERATORS cfg;
  Twitch.ALLOWED_DOMAINS := Twitch.ALLOWED_DOMAINS cfg;
  Twitch.COOLDOWN_SECONDS := Twitch.COOLDOWN_SECONDS cfg
|}.

(** The amounts that are not negative *)
Definition not_negative (v : PyFloat) : Prop :=
  match v with
  | Finite q => (0 <= q)%Q
  | Infinity => True
  end.

(** A character as a well-formed text has them: a byte that is no
    continuation byte, then continuation bytes only, and none of them
    after an ASCII byte *)
Definition utf8_char (u : string) : bool :=
  match u with
  | EmptyString => false
  | String b r =>
      negb (Py.is_continuation b) && Url.all_chars Py.is_continuation r
      && (negb (Py.is_ascii b) || String.eqb r EmptyString)
  end.

(** Whether an item is a super chat *)
Definition is_super_chat (item : World * YouTube.ChatItem) : bool :=
  String.eqb (YouTube.type (snd item)) "superChat".

(** The shipped settings of the polling listener with plain chat
    enabled *)
Definition plain_chat_enabled : YouTube.Config := {|
  YouTube.MIN_SUPER_CHAT_AMOUNT := 1;
  YouTube.ALLOW_REGULAR_CHAT := true;
  YouTube.CHAT_COMMAND := "!chaos";
  YouTube.BLOCK_URLS := true;
  YouTube.MODERATORS := [];
  YouTube.ALLOWED_DOMAINS := ["i.imgur.com"; "imgur.com"];
  YouTube.COOLDOWN_SECONDS := 5
|}.

(** A plain chat message *)
Definition chat_message (name text : string) : YouTube.ChatItem :=
  {| YouTube.author_name := name;
     YouTube.isChatModerator := None;
     YouTube.message := text;
     YouTube.type := "textMessage";
     YouTube.amountString := None;
     YouTube.currency := None |}.

(** * Properties *)

(** ** Strings *)

Example replace_ex1 : Py.replace "aa" "b" "aaa" = "ba".
Proof. reflexivity. Qed.
Example replace_ex2 : Py.replace "" "-" "abc" = "-a-b-c-".
Proof. reflexivity. Qed.
Example strip_ex : Py.strip lenient "  a b  " = "a b".
Proof. vm_compute. reflexivity. Qed.
Example lower_ex : Py.lower "ImgUr.COM[" = "imgur.com[".
Proof. reflexivity. Qed.

Lemma startswith_spec (p s : string) :
  Py.startswith p s = true <-> exists t, s = p ++ t.
Proof.
  revert s. induction p as [|a p IH]; intros s; simpl.
  - split; [intros _; exists s; reflexivity | reflexivity].
  - destruct s as [|b s]; simpl.
    + split; [discriminate | intros [t Ht]; discriminate].
    + rewrite andb_true_iff, Ascii.eqb_eq, IH. split.
      * intros [-> [t ->]]. exists t. reflexivity.
      * intros [t Ht]. injection Ht as -> ->. split; [reflexivity | eauto].
Qed.

Lemma str_in_spec (sub s : string) :
  Py.str_in sub s = true <-> exists pre post, s = pre ++ sub ++ post.
Proof.
  induction s as [|c s IH]; simpl.
  - rewrite orb_false_r, startswith_spec. split.
    + intros [t Ht]. exists EmptyString, t. exact Ht.
    + intros [pre [post H]]. destruct pre; [eauto | discriminate].
  - rewrite orb_true_iff, startswith_spec, IH. split.
    + intros [[t Ht] | [pre [post Hs]]].
      * exists EmptyString, t. exact Ht.
      * exists (String c pre), post. subst s. reflexivity.
    + intros [pre [post H]]. destruct pre as [|d pre].
      * left. eauto.
      * right. change (String c s = String d (pre ++ sub ++ post)) in H.
        injection H as _ H. eauto.
Qed.

Lemma is_allowed_spec (allowed_domains : list string) (domain : string) :
  Listener.is_allowed allowed_domains domain = true
  <-> exists allowed pre post,
        In allowed allowed_domains /\ domain = pre ++ allowed ++ post.
Proof.
  unfold Listener.is_allowed. rewrite existsb_exists. split.
  - intros [a [Hin Ha]]. apply str_in_spec in Ha as [pre [post H]]. eauto.
  - intros [a [pre [post [Hin H]]]]. exists a. split; [exact Hin |].
    apply str_in_spec. eauto.
Qed.

(** ** The loop of [filter_urls] *)

(** A turn of the loop redacts exactly the URLs that [redacts] names. *)
Lemma filter_step_redacts rt allowed (acc : string * bool) (url : string) :
  Listener.filter_step rt allowed acc url =
    if Listener.redacts rt allowed url
    then (Py.replace url Listener.REDACTED (fst acc), true)
    else acc.
Proof.
  destruct acc as [m f]. unfold Listener.filter_step, Listener.redacts.
  destruct (Url.urlparse_netloc rt url) as [netloc|]; [|reflexivity].
  destruct (Listener.is_allowed allowed (Py.lower netloc)); reflexivity.
Qed.

Lemma fold_filter_step_flag rt allowed (urls : list string) (m : string)
    (f : bool) :
  snd (fold_left (Listener.filter_step rt allowed) urls (m, f)) =
    f || existsb (Listener.redacts rt allowed) urls.
Proof.
  revert m f. induction urls as [|u urls IH]; intros m f;
    cbn [fold_left existsb].
  - now rewrite orb_false_r.
  - rewrite filter_step_redacts.
    destruct (Listener.redacts rt allowed u); rewrite IH.
    + now rewrite orb_true_r.
    + reflexivity.
Qed.

(** The flag that [filter_urls] returns past its early returns: some
    URL found was redacted. *)
Lemma filter_found_flag rt allowed (urls : list string) (m : string) :
  snd (Listener.filter_found rt allowed urls m) =
    existsb (Listener.redacts rt allowed) urls.
Proof.
  destruct urls as [|u urls]; [reflexivity |].
  unfold Listener.filter_found. now rewrite fold_filter_step_flag.
Qed.

(** A text none of whose URLs is redacted comes back as it is. *)
Lemma filter_found_clean rt allowed (urls : list string) (m : string) :
  existsb (Listener.redacts rt allowed) urls = false ->
  Listener.filter_found rt allowed urls m = (m, false).
Proof.
  intros H. destruct urls as [|u urls]; [reflexivity |].
  unfold Listener.filter_found. revert H.
  generalize (u :: urls) as l.
  induction l as [|v l IH]; cbn [fold_left existsb]; intros H.
  - reflexivity.
  - apply orb_false_iff in H as [Hv Hl].
    rewrite filter_step_redacts, Hv. now apply IH.
Qed.

Lemma existsb_eqb_In (x : string) (l : list string) :
  existsb (String.eqb x) l = true <-> In x l.
Proof.
  rewrite existsb_exists. split.
  - intros [y [Hin Hy]]. apply String.eqb_eq in Hy. now subst.
  - intros Hin. exists x. split; [exact Hin | apply String.eqb_refl].
Qed.

(** ** The network location of a URL *)

Lemma all_chars_app (p : ascii -> bool) (a b : string) :
  Url.all_chars p (a ++ b) = Url.all_chars p a && Url.all_chars p b.
Proof.
  induction a as [|c a IH]; [reflexivity |].
  change (String c a ++ b) with (String c (a ++ b)).
  cbn [Url.all_chars]. now rewrite IH, andb_assoc.
Qed.

Lemma lower_char_not_upper (c : ascii) :
  Py.is_upper (Py.lower_char c) = false.
Proof. destruct c as [[] [] [] [] [] [] [] []]; reflexivity. Qed.

Lemma lower_no_upper (s : string) :
  Url.all_chars (fun c => negb (Py.is_upper c)) (Py.lower s) = true.
Proof.
  induction s as [|c s IH]; [reflexivity |].
  cbn [Py.lower Url.all_chars]. now rewrite lower_char_not_upper, IH.
Qed.

Lemma str_in_char_cons (c d : ascii) (s : string) :
  Py.str_in (String c EmptyString) (String d s)
  = Ascii.eqb c d || Py.str_in (String c EmptyString) s.
Proof. cbn [Py.str_in Py.startswith]. now rewrite andb_true_r. Qed.

Lemma netloc_char_facts (c : ascii) :
  netloc_char c = true ->
  negb (Url.unsafe_byte c) = true
  /\ Ascii.eqb c "/" || Ascii.eqb c "?" || Ascii.eqb c "#" = false.
Proof.
  destruct c as [[] [] [] [] [] [] [] []]; cbv; intros H;
    try discriminate; split; reflexivity.
Qed.

Lemma host_char_facts (c : ascii) :
  host_char c = true ->
  netloc_char c = true /\ Ascii.eqb "[" c = false /\ Ascii.eqb "]" c = false.
Proof.
  destruct c as [[] [] [] [] [] [] [] []]; cbv; intros H;
    try discriminate; repeat split; reflexivity.
Qed.

Lemma filter_chars_app (p : ascii -> bool) (a b : string) :
  Py.filter_chars p (a ++ b) = Py.filter_chars p a ++ Py.filter_chars p b.
Proof.
  induction a as [|c a IH]; [reflexivity |].
  change (String c a ++ b) with (String c (a ++ b)).
  cbn [Py.filter_chars]. destruct (p c); [|exact IH].
  change (String c (Py.filter_chars p a) ++ Py.filter_chars p b)
    with (String c (Py.filter_chars p a ++ Py.filter_chars p b)).
  now rewrite IH.
Qed.

Lemma filter_chars_all (p : ascii -> bool) (s : string) :
  Url.all_chars p s = true -> Py.filter_chars p s = s.
Proof.
  induction s as [|c s IH]; [reflexivity |].
  cbn [Url.all_chars Py.filter_chars]. intros H.
  apply andb_true_iff in H as [Hc Hs]. now rewrite Hc, IH.
Qed.

Lemma all_chars_impl (p q : ascii -> bool) (s : string) :
  (forall c, p c = true -> q c = true) ->
  Url.all_chars p s = true -> Url.all_chars q s = true.
Proof.
  intros H. induction s as [|c s IH]; [reflexivity |].
  cbn [Url.all_chars]. intros Hs. apply andb_true_iff in Hs as [Hc Hs].
  now rewrite (H c Hc), IH.
Qed.

Lemma netloc_of_host (host rest : string) :
  Url.all_chars netloc_char host = true ->
  Url.netloc_of rest = EmptyString ->
  Url.netloc_of (host ++ rest) = host.
Proof.
  intros Hh Hr. induction host as [|c host IH]; [exact Hr |].
  cbn [Url.all_chars] in Hh. apply andb_true_iff in Hh as [Hc Hh].
  change (String c host ++ rest) with (String c (host ++ rest)).
  cbn [Url.netloc_of].
  destruct (netloc_char_facts c Hc) as [_ ->]. now rewrite IH.
Qed.

Lemma host_no_bracket (host : string) :
  Url.all_chars host_char host = true ->
  Py.str_in "[" host = false /\ Py.str_in "]" host = false.
Proof.
  induction host as [|c host IH]; [split; reflexivity |].
  cbn [Url.all_chars]. intros H. apply andb_true_iff in H as [Hc Hh].
  destruct (host_char_facts c Hc) as [_ [H1 H2]].
  destruct (IH Hh) as [I1 I2].
  rewrite !str_in_char_cons, H1, H2, I1, I2. split; reflexivity.
Qed.

(** What [urlparse] makes of scheme, [://], network location and a rest
    that is empty or begins with a delimiter *)
Lemma urlparse_netloc_built (rt : PyRuntime) (scheme netloc rest : string) :
  scheme = "http" \/ scheme = "https" ->
  Url.all_chars netloc_char netloc = true ->
  Url.netloc_of rest = EmptyString ->
  Url.urlparse_netloc rt (scheme ++ "://" ++ netloc ++ rest) =
    let lb := Py.str_in "[" netloc in
    let rb := Py.str_in "]" netloc in
    if (lb && negb rb) || (rb && negb lb) then None
    else if lb && rb then
      if check_bracketed_netloc rt netloc then Some netloc else None
    else Some netloc.
Proof.
  intros Hs Hh Hr.
  set (safe := fun c => negb (Url.unsafe_byte c)).
  assert (Hsafe : Py.filter_chars safe netloc = netloc).
  { apply filter_chars_all. revert Hh. apply all_chars_impl.
    intros c Hc. unfold safe. now destruct (netloc_char_facts c Hc) as [-> _]. }
  assert (Hrest : Url.netloc_of (Py.filter_chars safe rest) = EmptyString).
  { destruct rest as [|d rest]; [reflexivity |].
    cbn [Url.netloc_of] in Hr.
    destruct (Ascii.eqb d "/" || Ascii.eqb d "?" || Ascii.eqb d "#") eqn:Hd;
      [|discriminate].
    assert (Hd' : safe d = true).
    { unfold safe. destruct d as [[] [] [] [] [] [] [] []];
        try reflexivity; cbv in Hd; discriminate. }
    cbn [Py.filter_chars]. rewrite Hd'. cbn [Url.netloc_of]. now rewrite Hd. }
  unfold Url.urlparse_netloc. fold safe.
  assert (E : Url.strip_scheme
                (Py.filter_chars safe
                   (Url.lstrip_c0 (scheme ++ "://" ++ netloc ++ rest)))
              = "//" ++ Py.filter_chars safe (netloc ++ rest)).
  { destruct Hs as [-> | ->]; reflexivity. }
  rewrite E.
  change (Py.startswith "//" ("//" ++ ?t)) with true.
  change (Py.drop 2 ("//" ++ ?t)) with t.
  rewrite filter_chars_app, Hsafe, (netloc_of_host _ _ Hh Hrest).
  reflexivity.
Qed.

(** ** The moderation filter *)

(** C7: when URL blocking is switched off, or the sender is a moderator
    (by the platform's role flags or by the configured list of names),
    [filter_urls] returns the text as it came and the flag [False],
    whatever URLs the text holds; in both listeners. *)
Theorem filter_urls_bypass (rt : PyRuntime) (message : string) :
  (forall cfg ctx,
      Twitch.BLOCK_URLS cfg = false
      \/ Twitch.is_mod (Twitch.author ctx) = true
      \/ Twitch.is_broadcaster (Twitch.author ctx) = true
      \/ In (Twitch.name (Twitch.author ctx)) (Twitch.MODERATORS cfg) ->
      Twitch.filter_urls cfg rt message ctx = (message, false))
  /\ (forall cfg author is_mod,
      YouTube.BLOCK_URLS cfg = false
      \/ is_mod = true
      \/ In author (YouTube.MODERATORS cfg) ->
      YouTube.filter_urls cfg rt message author is_mod = (message, false)).
Proof.
  split.
  - intros cfg ctx H. unfold Twitch.filter_urls, Twitch.is_moderator.
    destruct (Twitch.BLOCK_URLS cfg); [|reflexivity]. simpl.
    destruct H as [H | [H | [H | H]]]; [discriminate | | |].
    + now rewrite H.
    + rewrite H. now rewrite orb_true_r.
    + apply existsb_eqb_In in H. rewrite H. now rewrite orb_true_r.
  - intros cfg author is_mod H. unfold YouTube.filter_urls, YouTube.is_moderator.
    destruct (YouTube.BLOCK_URLS cfg); [|reflexivity]. simpl.
    destruct H as [H | [H | H]]; [discriminate | |].
    + rewrite H. now rewrite orb_true_r.
    + apply existsb_eqb_In in H. now rewrite H.
Qed.

Lemma filter_urls_bypass_witness :
  Twitch.is_broadcaster (Twitch.author (broadcaster "host")) = true
  /\ Twitch.filter_urls Twitch.shipped lenient "see http://evil.com"
       (broadcaster "host") = ("see http://evil.com", false).
Proof.
  split; [reflexivity |].
  apply (proj1 (filter_urls_bypass lenient "see http://evil.com")).
  right; right; left; reflexivity.
Defined.

(** A text whose only URL has an allowed host passes unchanged. *)
Lemma filter_found_single_allowed rt allowed (url netloc m : string) :
  Url.urlparse_netloc rt url = Some netloc ->
  Listener.is_allowed allowed (Py.lower netloc) = true ->
  Listener.filter_found rt allowed [url] m = (m, false).
Proof.
  intros Hp Ha. apply filter_found_clean. simpl.
  unfold Listener.redacts. now rewrite Hp, Ha.
Qed.

Lemma lower_without_capitals (s : string) :
  Url.all_chars (fun c => negb (Py.is_upper c)) s = true -> Py.lower s = s.
Proof.
  induction s as [|c s IH]; [reflexivity |].
  cbn [Url.all_chars Py.lower]. intros H.
  apply andb_true_iff in H as [Hc Hs]. apply negb_true_iff in Hc.
  unfold Py.lower_char. now rewrite Hc, IH.
Qed.

(** C6, refuted as stated: the URL [http://imgur.com@evil.com/x] has the
    host [evil.com], in which no entry of the shipped allow list occurs,
    and yet both listeners leave it in.  The loop searches the network
    location, and there the user name [imgur.com] stands. *)
Lemma host_not_what_is_searched :
  Url.urlparse_netloc lenient "http://imgur.com@evil.com/x"
  = Some "imgur.com@evil.com"
  /\ host_of "imgur.com@evil.com" = "evil.com"
  /\ Listener.is_allowed (Twitch.ALLOWED_DOMAINS Twitch.shipped) "evil.com"
     = false
  /\ Listener.is_allowed (YouTube.ALLOWED_DOMAINS YouTube.shipped) "evil.com"
     = false
  /\ Twitch.filter_urls Twitch.shipped lenient user_name_text (viewer "X")
     = (user_name_text, false)
  /\ YouTube.filter_urls YouTube.shipped lenient user_name_text "Y" false
     = (user_name_text, false).
Proof. vm_compute. repeat split; reflexivity. Qed.

(** C6, as the code has it: the loop of [filter_urls] leaves a URL alone
    exactly when some entry of [ALLOWED_DOMAINS] occurs as a substring
    of the lower-cased network location that [urlparse] gives, and
    redacts it otherwise, as it does when [urlparse] raises.  For a URL
    made of [http://] or [https://], a network location without
    brackets and a rest that is empty or begins with [/], [?] or [#],
    the network location is the text between [//] and the rest, user
    name and port included.  Putting it in small letters leaves no
    capital letter and changes nothing in a text that has none.  So with [imgur.com] allowed, a URL on
    [notimgur.com] or on [imgur.com.attacker.net], one whose host is
    spelt in capitals and one that names [imgur.com] as the user all
    come through unredacted, in both listeners; a URL that holds
    [imgur.com] in its path only is redacted. *)
Theorem allowlist_is_netloc_containment (rt : PyRuntime) :
  (forall allowed url netloc m f,
      Url.urlparse_netloc rt url = Some netloc ->
      ((exists entry pre post,
           In entry allowed /\ Py.lower netloc = pre ++ entry ++ post) ->
       Listener.filter_step rt allowed (m, f) url = (m, f))
      /\ (~ (exists entry pre post,
                In entry allowed /\ Py.lower netloc = pre ++ entry ++ post) ->
          Listener.filter_step rt allowed (m, f) url =
            (Py.replace url "[URL REMOVED]" m, true)))
  /\ (forall allowed url m f,
      Url.urlparse_netloc rt url = None ->
      Listener.filter_step rt allowed (m, f) url =
        (Py.replace url "[URL REMOVED]" m, true))
  /\ (forall allowed scheme netloc rest,
      scheme = "http" \/ scheme = "https" ->
      Url.all_chars host_char netloc = true ->
      Url.netloc_of rest = EmptyString ->
      Url.urlparse_netloc rt (scheme ++ "://" ++ netloc ++ rest) = Some netloc
      /\ (Listener.redacts rt allowed (scheme ++ "://" ++ netloc ++ rest)
          = false
          <-> exists entry pre post,
                In entry allowed /\ Py.lower netloc = pre ++ entry ++ post))
  /\ (forall s,
      Url.all_chars (fun c => negb (Py.is_upper c)) (Py.lower s) = true
      /\ (Url.all_chars (fun c => negb (Py.is_upper c)) s = true ->
          Py.lower s = s))
  /\ (forall cfg ctx,
      In "imgur.com" (Twitch.ALLOWED_DOMAINS cfg) ->
      Twitch.filter_urls cfg rt lookalike_text ctx = (lookalike_text, false)
      /\ Twitch.filter_urls cfg rt embedded_text ctx = (embedded_text, false)
      /\ Twitch.filter_urls cfg rt capital_text ctx = (capital_text, false)
      /\ Twitch.filter_urls cfg rt user_name_text ctx
         = (user_name_text, false))
  /\ (forall cfg author is_mod,
      In "imgur.com" (YouTube.ALLOWED_DOMAINS cfg) ->
      YouTube.filter_urls cfg rt lookalike_text author is_mod
        = (lookalike_text, false)
      /\ YouTube.filter_urls cfg rt embedded_text author is_mod
        = (embedded_text, false)
      /\ YouTube.filter_urls cfg rt capital_text author is_mod
        = (capital_text, false)
      /\ YouTube.filter_urls cfg rt user_name_text author is_mod
        = (user_name_text, false))
  /\ (forall ctx,
      Twitch.is_moderator Twitch.shipped ctx = false ->
      Twitch.filter_urls Twitch.shipped rt path_text ctx
      = ("see [URL REMOVED]", true))
  /\ (forall author,
      YouTube.filter_urls YouTube.shipped rt path_text author false
      = ("see [URL REMOVED]", true)).
Proof.
  assert (Hlook : forall allowed, In "imgur.com" allowed ->
            Listener.is_allowed allowed (Py.lower "notimgur.com") = true).
  { intros allowed Hin. apply is_allowed_spec.
    exists "imgur.com", "not", "". split; [exact Hin | reflexivity]. }
  assert (Hemb : forall allowed, In "imgur.com" allowed ->
            Listener.is_allowed allowed (Py.lower "imgur.com.attacker.net")
              = true).
  { intros allowed Hin. apply is_allowed_spec.
    exists "imgur.com", "", ".attacker.net". split; [exact Hin | reflexivity]. }
  assert (Hcap : forall allowed, In "imgur.com" allowed ->
            Listener.is_allowed allowed (Py.lower "I.IMGUR.COM") = true).
  { intros allowed Hin. apply is_allowed_spec.
    exists "imgur.com", "i.", "". split; [exact Hin | reflexivity]. }
  assert (Husr : forall allowed, In "imgur.com" allowed ->
            Listener.is_allowed allowed (Py.lower "imgur.com@evil.com") = true).
  { intros allowed Hin. apply is_allowed_spec.
    exists "imgur.com", "", "@evil.com". split; [exact Hin | reflexivity]. }
  split; [|split; [|split; [|split; [|split; [|split; [|split]]]]]].
  - intros allowed url netloc m f Hp.
    rewrite filter_step_redacts. unfold Listener.redacts. rewrite Hp.
    rewrite <- is_allowed_spec. simpl.
    destruct (Listener.is_allowed allowed (Py.lower netloc)); simpl.
    + split; [reflexivity | intros H; now destruct H].
    + split; [discriminate | reflexivity].
  - intros allowed url m f Hp.
    rewrite filter_step_redacts. unfold Listener.redacts. now rewrite Hp.
  - intros allowed scheme netloc rest Hs Hh Hr.
    destruct (host_no_bracket netloc Hh) as [Hl Hb].
    assert (Hn : Url.all_chars netloc_char netloc = true).
    { revert Hh. apply all_chars_impl. intros c Hc.
      now destruct (host_char_facts c Hc). }
    pose proof (urlparse_netloc_built rt scheme netloc rest Hs Hn Hr) as H.
    cbv zeta in H. rewrite Hl, Hb in H. cbn [andb orb negb] in H.
    split; [exact H |].
    unfold Listener.redacts. rewrite H, negb_false_iff.
    apply is_allowed_spec.
  - intros s. split; [apply lower_no_upper | apply lower_without_capitals].
  - intros cfg ctx Hin. unfold Twitch.filter_urls.
    destruct (negb (Twitch.BLOCK_URLS cfg)); [repeat split; reflexivity |].
    destruct (Twitch.is_moderator cfg ctx); [repeat split; reflexivity |].
    split; [|split; [|split]].
    + apply (filter_found_single_allowed rt _ _ "notimgur.com");
        [reflexivity | now apply Hlook].
    + apply (filter_found_single_allowed rt _ _ "imgur.com.attacker.net");
        [reflexivity | now apply Hemb].
    + apply (filter_found_single_allowed rt _ _ "I.IMGUR.COM");
        [reflexivity | now apply Hcap].
    + apply (filter_found_single_allowed rt _ _ "imgur.com@evil.com");
        [reflexivity | now apply Husr].
  - intros cfg author is_mod Hin. unfold YouTube.filter_urls.
    destruct (negb (YouTube.BLOCK_URLS cfg)); [repeat split; reflexivity |].
    destruct (YouTube.is_moderator cfg author is_mod);
      [repeat split; reflexivity |].
    split; [|split; [|split]].
    + apply (filter_found_single_allowed rt _ _ "notimgur.com");
        [reflexivity | now apply Hlook].
    + apply (filter_found_single_allowed rt _ _ "imgur.com.attacker.net");
        [reflexivity | now apply Hemb].
    + apply (filter_found_single_allowed rt _ _ "I.IMGUR.COM");
        [reflexivity | now apply Hcap].
    + apply (filter_found_single_allowed rt _ _ "imgur.com@evil.com");
        [reflexivity | now apply Husr].
  - intros ctx Hm. unfold Twitch.filter_urls. rewrite Hm. reflexivity.
  - intros author. reflexivity.
Qed.

Lemma allowlist_is_netloc_containment_witness :
  Url.all_chars host_char "imgur.com@evil.com:80" = true
  /\ Url.netloc_of "/x" = EmptyString
  /\ Url.urlparse_netloc lenient "https://imgur.com@evil.com:80/x"
     = Some "imgur.com@evil.com:80"
  /\ Listener.redacts lenient ["imgur.com"] "https://imgur.com@evil.com:80/x"
     = false.
Proof.
  split; [reflexivity |]. split; [reflexivity |].
  destruct (proj1 (proj2 (proj2 (allowlist_is_netloc_containment lenient)))
              ["imgur.com"] "https" "imgur.com@evil.com:80" "/x"
              (or_intror eq_refl) eq_refl eq_refl) as [Hn Hr].
  split; [exact Hn |].
  apply Hr. exists "imgur.com", "", "@evil.com:80".
  split; [now left | reflexivity].
Defined.

(** When blocking is on and the sender is no moderator, the flag is
    raised as soon as one URL found in the text is redacted. *)
Lemma filter_urls_flags_redaction rt (message url : string) :
  (forall cfg ctx,
      Twitch.BLOCK_URLS cfg = true ->
      Twitch.is_moderator cfg ctx = false ->
      In url (Twitch.contains_url message) ->
      Listener.redacts rt (Twitch.ALLOWED_DOMAINS cfg) url = true ->
      snd (Twitch.filter_urls cfg rt message ctx) = true)
  /\ (forall cfg author is_mod,
      YouTube.BLOCK_URLS cfg = true ->
      YouTube.is_moderator cfg author is_mod = false ->
      In url (YouTube.contains_url message) ->
      Listener.redacts rt (YouTube.ALLOWED_DOMAINS cfg) url = true ->
      snd (YouTube.filter_urls cfg rt message author is_mod) = true).
Proof.
  split.
  - intros cfg ctx Hb Hm Hin Hr. unfold Twitch.filter_urls.
    rewrite Hb, Hm. simpl. rewrite filter_found_flag.
    apply existsb_exists. eauto.
  - intros cfg author is_mod Hb Hm Hin Hr. unfold YouTube.filter_urls.
    rewrite Hb, Hm. simpl. rewrite filter_found_flag.
    apply existsb_exists. eauto.
Qed.

(** Scenario of a plain command with one foreign URL *)
Example filter_urls_plain :
  Twitch.filter_urls Twitch.shipped lenient "spawn zombies http://evil.com"
    (viewer "X") = ("spawn zombies [URL REMOVED]", true).
Proof. reflexivity. Qed.

(** C1, at [leak_text] with the shipped settings and a sender without
    any role: the scan finds the URLs [http://x/[] and
    [http://x/http://x/[], both on a host that is not allowed; the flag
    comes back [True], but the text returned is
    [[URL REMOVED] http://x/[URL REMOVED]], in which the first URL
    occurs again, the marker's bracket closing it.  In both listeners. *)
Theorem redacted_url_occurs_in_output (rt : PyRuntime) :
  Twitch.contains_url leak_text = ["http://x/["; "http://x/http://x/["]
  /\ Listener.redacts rt (Twitch.ALLOWED_DOMAINS Twitch.shipped)
       "http://x/[" = true
  /\ Twitch.filter_urls Twitch.shipped rt leak_text (viewer "X")
     = ("[URL REMOVED] http://x/[URL REMOVED]", true)
  /\ Py.str_in "http://x/["
       (fst (Twitch.filter_urls Twitch.shipped rt leak_text (viewer "X")))
     = true
  /\ YouTube.contains_url leak_text = ["http://x/["; "http://x/http://x/["]
  /\ YouTube.filter_urls YouTube.shipped rt leak_text "X" false
     = ("[URL REMOVED] http://x/[URL REMOVED]", true)
  /\ Py.str_in "http://x/["
       (fst (YouTube.filter_urls YouTube.shipped rt leak_text "X" false))
     = true.
Proof. repeat split; reflexivity. Qed.

(** C9, at [nested_text] with the shipped settings and a sender without
    any role: the first pass returns
    [[URL REMOVED] http://c.d/[URL REMOVED]]; filtering that text again
    changes it to [[URL REMOVED] [URL REMOVED] REMOVED]] and raises the
    flag, so the second pass is no identity.  In both listeners. *)
Theorem filter_urls_twice_differs (rt : PyRuntime) :
  Twitch.filter_urls Twitch.shipped rt nested_text (viewer "X")
    = ("[URL REMOVED] http://c.d/[URL REMOVED]", true)
  /\ Twitch.filter_urls Twitch.shipped rt
       (fst (Twitch.filter_urls Twitch.shipped rt nested_text (viewer "X")))
       (viewer "X")
     = ("[URL REMOVED] [URL REMOVED] REMOVED]", true)
  /\ YouTube.filter_urls YouTube.shipped rt nested_text "X" false
     = ("[URL REMOVED] http://c.d/[URL REMOVED]", true)
  /\ YouTube.filter_urls YouTube.shipped rt
       (fst (YouTube.filter_urls YouTube.shipped rt nested_text "X" false))
       "X" false
     = ("[URL REMOVED] [URL REMOVED] REMOVED]", true).
Proof. repeat split; reflexivity. Qed.

(** What does hold of a second pass: a text in which the scan finds no
    URL to redact is returned as it is, with the flag [False]. *)
Lemma filter_urls_clean_text rt (message : string) :
  (forall cfg ctx,
      existsb (Listener.redacts rt (Twitch.ALLOWED_DOMAINS cfg))
        (Twitch.contains_url message) = false ->
      Twitch.filter_urls cfg rt message ctx = (message, false))
  /\ (forall cfg author is_mod,
      existsb (Listener.redacts rt (YouTube.ALLOWED_DOMAINS cfg))
        (YouTube.contains_url message) = false ->
      YouTube.filter_urls cfg rt message author is_mod = (message, false)).
Proof.
  split.
  - intros cfg ctx H. unfold Twitch.filter_urls.
    destruct (negb (Twitch.BLOCK_URLS cfg)); [reflexivity |].
    destruct (Twitch.is_moderator cfg ctx); [reflexivity |].
    now apply filter_found_clean.
  - intros cfg author is_mod H. unfold YouTube.filter_urls.
    destruct (negb (YouTube.BLOCK_URLS cfg)); [reflexivity |].
    destruct (YouTube.is_moderator cfg author is_mod); [reflexivity |].
    now apply filter_found_clean.
Qed.

(** ** The call to the brain *)

Lemma json_is_spec (o : option json) (s : string) :
  Listener.json_is o s = true <-> o = Some (JStr s).
Proof.
  unfold Listener.json_is. destruct o as [[| | |t]|]; try (split; discriminate).
  rewrite String.eqb_eq. split; [now intros -> | now intros [= ->]].
Qed.

Lemma send_to_brain_truthy (w : World) (prompt : string) (info : PaidInfo) :
  truthy (fst (Listener.send_to_brain w prompt info)) = true
  <-> queued (brain w prompt).
Proof.
  unfold Listener.send_to_brain, queued.
  destruct (brain w prompt) as [|code data].
  - simpl. split; [discriminate | intros [d [H _]]; discriminate].
  - destruct (code =? 200)%Z eqn:Hc.
    + apply Z.eqb_eq in Hc. subst code.
      destruct (Listener.json_is (data !! "status") "queued") eqn:Hq.
      * simpl. split; [intros _ | reflexivity].
        exists data. split; [reflexivity | now apply json_is_spec].
      * assert (Hn : ~ data !! "status" = Some (JStr "queued")).
        { intros H. apply json_is_spec in H. congruence. }
        destruct (Listener.json_is (data !! "status") "ignored"); simpl;
          (split; [discriminate | intros [d [[= <-] H]]; contradiction]).
    + simpl. split; [discriminate |].
      intros [d [[= -> _] _]]. discriminate.
Qed.

Lemma send_to_brain_trace (w : World) (prompt : string) (info : PaidInfo) :
  posted (snd (Listener.send_to_brain w prompt info)) = [prompt]
  /\ sent (snd (Listener.send_to_brain w prompt info)) = [].
Proof.
  unfold Listener.send_to_brain.
  destruct (brain w prompt) as [|code data]; [split; reflexivity |].
  destruct (code =? 200)%Z; [|split; reflexivity].
  destruct (Listener.json_is (data !! "status") "queued");
    [split; reflexivity |].
  destruct (Listener.json_is (data !! "status") "ignored"); split; reflexivity.
Qed.

Lemma sent_app (a b : list Effect) : sent (a ++ b) = (sent a ++ sent b)%list.
Proof. apply flat_map_app. Qed.

Lemma posted_app (a b : list Effect) :
  posted (a ++ b) = (posted a ++ posted b)%list.
Proof. apply flat_map_app. Qed.

(** ** The handlers, path by path *)

(** [chaos] with its tuple bindings read through projections *)
Lemma chaos_run cfg rt w ctx prompt (cd : gmap string Q) :
  Twitch.chaos cfg rt w ctx prompt cd =
    let a := Twitch.name (Twitch.author ctx) in
    let bits := Twitch.bits_of ctx in
    let heading :=
      [Print (if (0 <? bits)%Z then LogBits a bits else LogChat a);
       Print (LogMessage (default EmptyString prompt))] in
    let f := Twitch.filter_urls cfg rt (default EmptyString prompt) ctx in
    let notice :=
      if snd f
      then [Print LogUrlsRemoved; Print (LogFiltered (fst f));
            Send a MsgUrlsFiltered]
      else [] in
    let s := Twitch.send_to_brain w (fst f) a
               (if (0 <? bits)%Z then Some bits else None) in
    if Twitch.no_prompt prompt then
      (cd, [Send a (MsgUsage (Twitch.CHAT_COMMAND cfg))])
    else if Twitch.insufficient_bits cfg bits then
      (cd, (heading ++ [Print (LogInsufficientBits (Twitch.MIN_BITS_AMOUNT cfg));
                        Send a (MsgNeedBits (Twitch.MIN_BITS_AMOUNT cfg))])%list)
    else if Twitch.is_on_cooldown cfg (now_check w) a cd then
      (cd, (heading ++ [Print LogOnCooldown;
                        Send a (MsgWait (Twitch.COOLDOWN_SECONDS cfg))])%list)
    else if truthy (fst s) then
      (<[a := now_set w]> cd,
       (heading ++ notice ++ [Send a MsgProcessing] ++ snd s
        ++ [Print LogActivated; Send a MsgUnleashed; Print LogBlank])%list)
    else
      (cd,
       (heading ++ notice ++ [Send a MsgProcessing] ++ snd s
        ++ [Print LogFailed; Send a MsgFailedOffline; Print LogBlank])%list).
Proof.
  unfold Twitch.chaos. cbv zeta.
  destruct (Twitch.no_prompt prompt); [reflexivity |].
  destruct (Twitch.insufficient_bits cfg (Twitch.bits_of ctx)); [reflexivity |].
  destruct (Twitch.is_on_cooldown _ _ _ _); [reflexivity |].
  destruct (Twitch.filter_urls _ _ _ _) as [fp wf]. cbn [fst snd].
  destruct (Twitch.send_to_brain _ _ _ _) as [res call]. cbn [fst snd].
  destruct (truthy res); reflexivity.
Qed.

(** [process_item] with its tuple bindings read through projections *)
Lemma process_item_run cfg rt w c (cd : gmap string Q) :
  YouTube.process_item cfg rt w c cd =
    let a := YouTube.author_name c in
    let is_mod := default false (YouTube.isChatModerator c) in
    if String.eqb (YouTube.type c) "superChat" then
      let amount_str := default "Unknown" (YouTube.amountString c) in
      let heading :=
        [Print (LogSuperChat a amount_str
                  (default EmptyString (YouTube.currency c)));
         Print (LogMessage (YouTube.message c))] in
      let f := YouTube.filter_urls cfg rt (YouTube.message c) a is_mod in
      let notice :=
        if snd f then [Print LogUrlsRemoved; Print (LogFiltered (fst f))]
        else [] in
      let s := YouTube.send_to_brain w (fst f) a (Some amount_str) in
      if YouTube.amount_suffices cfg (YouTube.parse_amount rt amount_str) then
        if YouTube.is_on_cooldown cfg (now_check w) a cd then
          (cd, (heading ++ notice ++ [Print LogOnCooldown])%list)
        else if truthy (fst s) then
          (<[a := now_set w]> cd,
           (heading ++ notice ++ snd s
            ++ [Print LogActivated; Print LogBlank])%list)
        else
          (cd,
           (heading ++ notice ++ snd s ++ [Print LogFailed; Print LogBlank])
           %list)
      else
        (cd,
         (heading
          ++ [Print (LogAmountTooLow (YouTube.MIN_SUPER_CHAT_AMOUNT cfg));
              Print LogBlank])%list)
    else if YouTube.ALLOW_REGULAR_CHAT cfg
            && Py.startswith (YouTube.CHAT_COMMAND cfg) (YouTube.message c)
    then
      let prompt :=
        Py.strip rt (Py.drop (String.length (YouTube.CHAT_COMMAND cfg))
                       (YouTube.message c)) in
      let heading := [Print (LogRegularChat a prompt)] in
      let f := YouTube.filter_urls cfg rt prompt a is_mod in
      let notice :=
        if snd f then [Print LogUrlsRemoved; Print (LogFiltered (fst f))]
        else [] in
      let s := YouTube.send_to_brain w (fst f) a None in
      if String.eqb prompt EmptyString then (cd, [])
      else if YouTube.is_on_cooldown cfg (now_check w) a cd then
        (cd, (heading ++ notice ++ [Print LogOnCooldown])%list)
      else if truthy (fst s) then
        (<[a := now_set w]> cd,
         (heading ++ notice ++ snd s
          ++ [Print LogActivated; Print LogBlank])%list)
      else
        (cd,
         (heading ++ notice ++ snd s ++ [Print LogFailed; Print LogBlank])
         %list)
    else (cd, []).
Proof.
  unfold YouTube.process_item, YouTube.format_super_chat_message. cbv zeta.
  destruct (String.eqb (YouTube.type c) "superChat").
  - destruct (YouTube.amount_suffices _ _); [|reflexivity].
    destruct (YouTube.filter_urls _ _ _ _ _) as [fp wf]. cbn [fst snd].
    destruct (YouTube.is_on_cooldown _ _ _ _); [reflexivity |].
    destruct (YouTube.send_to_brain _ _ _ _) as [res call]. cbn [fst snd].
    destruct (truthy res); reflexivity.
  - destruct (_ && _); [|reflexivity].
    destruct (Py.strip _ _) as [|ch rest] eqn:Hp; [reflexivity |].
    cbn [String.eqb].
    destruct (YouTube.filter_urls _ _ _ _ _) as [fp wf]. cbn [fst snd].
    destruct (YouTube.is_on_cooldown _ _ _ _); [reflexivity |].
    destruct (YouTube.send_to_brain _ _ _ _) as [res call]. cbn [fst snd].
    destruct (truthy res); reflexivity.
Qed.

Lemma failed_not_queued (r : Reply) : failed r -> ~ queued r.
Proof.
  intros [[d [-> Hi]] | [-> | [code [d [-> Hc]]]]] [d' [Hr Hq]].
  - injection Hr as <-. congruence.
  - discriminate.
  - injection Hr as -> _. now destruct Hc.
Qed.

Lemma send_to_brain_falsy (w : World) (prompt : string) (info : PaidInfo) :
  ~ queued (brain w prompt) ->
  truthy (fst (Listener.send_to_brain w prompt info)) = false.
Proof.
  intros H. destruct (truthy _) eqn:Ht; [|reflexivity].
  apply send_to_brain_truthy in Ht. contradiction.
Qed.

(** ** The cooldown map *)

Lemma Qlt_bool_iff (x y : Q) : Qlt_bool x y = true <-> (x < y)%Q.
Proof.
  unfold Qlt_bool. rewrite negb_true_iff. split.
  - intros H. apply Qnot_le_lt. intros Hle.
    apply Qle_bool_iff in Hle. congruence.
  - intros H. destruct (Qle_bool y x) eqn:Hle; [|reflexivity].
    apply Qle_bool_iff in Hle. apply Qlt_not_le in H. contradiction.
Qed.

(** An author is on cooldown exactly when the map holds a time for them
    and less than the window has passed since. *)
Lemma is_on_cooldown_spec (window now : Q) (author : string)
    (cd : gmap string Q) :
  Listener.is_on_cooldown window now author cd = true
  <-> exists last, cd !! author = Some last /\ (now - last < window)%Q.
Proof.
  unfold Listener.is_on_cooldown. destruct (cd !! author) as [last|].
  - cbv zeta. destruct (Qlt_bool (now - last) window) eqn:H.
    + split; [intros _ | reflexivity].
      exists last. split; [reflexivity | now apply Qlt_bool_iff].
    + split; [discriminate |]. intros [l [[= <-] Hl]].
      apply Qlt_bool_iff in Hl. congruence.
  - split; [discriminate | intros [l [Hl _]]; discriminate].
Qed.

(** Two commands of one author two seconds apart, the window being five:
    the first is posted and sets the cooldown, the second is answered
    with the request to wait and posts nothing. *)
Example second_command_on_cooldown :
  let first :=
    Twitch.chaos Twitch.shipped lenient (world queued_reply 100 100)
      (viewer "X") (Some "spawn zombies") ∅ in
  let second :=
    Twitch.chaos Twitch.shipped lenient (world queued_reply 102 102)
      (viewer "X") (Some "spawn more") (fst first) in
  posted (snd first) = ["spawn zombies"]
  /\ fst first !! "X" = Some 100%Q
  /\ posted (snd second) = []
  /\ sent (snd second) = [("X", MsgWait 5)]
  /\ fst second = fst first.
Proof. vm_compute. repeat split; reflexivity. Qed.

(** C2: [user_cooldowns] changes only when the command passed every
    check and the brain answered HTTP 200 with status [queued]; then the
    author's entry is set to the clock reading.  Below the threshold, on
    cooldown, and on every reply that is not a success (declined by the
    safety check, brain unreachable, error status) the map is returned
    as it was, so the author is not put on cooldown by a failure.  In
    both listeners. *)
Theorem cooldown_set_only_on_success (rt : PyRuntime) (w : World)
    (cd : gmap string Q) :
  (forall cfg ctx prompt,
      let run := Twitch.chaos cfg rt w ctx prompt cd in
      let a := Twitch.name (Twitch.author ctx) in
      let p := twitch_prompt cfg rt ctx prompt in
      (Twitch.no_prompt prompt = true
       \/ Twitch.insufficient_bits cfg (Twitch.bits_of ctx) = true
       \/ Twitch.is_on_cooldown cfg (now_check w) a cd = true
       \/ ~ queued (brain w p) ->
       fst run = cd
       /\ Twitch.is_on_cooldown cfg (now_check w) a (fst run)
          = Twitch.is_on_cooldown cfg (now_check w) a cd)
      /\ (fst run <> cd ->
          Twitch.no_prompt prompt = false
          /\ Twitch.insufficient_bits cfg (Twitch.bits_of ctx) = false
          /\ Twitch.is_on_cooldown cfg (now_check w) a cd = false
          /\ queued (brain w p)
          /\ fst run = <[a := now_set w]> cd))
  /\ (forall cfg c,
      let run := YouTube.process_item cfg rt w c cd in
      let a := YouTube.author_name c in
      let amount :=
        YouTube.parse_amount rt (fst (YouTube.format_super_chat_message c)) in
      ((YouTube.type c = "superChat"
        /\ YouTube.amount_suffices cfg amount = false)
       \/ YouTube.is_on_cooldown cfg (now_check w) a cd = true
       \/ (forall p, ~ queued (brain w p)) ->
       fst run = cd
       /\ YouTube.is_on_cooldown cfg (now_check w) a (fst run)
          = YouTube.is_on_cooldown cfg (now_check w) a cd)
      /\ (fst run <> cd ->
          (YouTube.type c = "superChat" ->
           YouTube.amount_suffices cfg amount = true)
          /\ YouTube.is_on_cooldown cfg (now_check w) a cd = false
          /\ (exists p, posted (snd run) = [p] /\ queued (brain w p))
          /\ fst run = <[a := now_set w]> cd)).
Proof.
  split.
  - intros cfg ctx prompt. cbv zeta. rewrite chaos_run. cbv zeta.
    unfold twitch_prompt, Twitch.send_to_brain.
    set (f := Twitch.filter_urls cfg rt (default EmptyString prompt) ctx).
    set (info := match _ with Some _ => _ | None => _ end).
    pose proof (send_to_brain_truthy w (fst f) info) as Hq.
    destruct (Twitch.no_prompt prompt);
      [split; [intros _; split; reflexivity | intros H; now destruct H] |].
    destruct (Twitch.insufficient_bits _ _);
      [split; [intros _; split; reflexivity | intros H; now destruct H] |].
    destruct (Twitch.is_on_cooldown _ _ _ _) eqn:Hcd;
      [split; [intros _; split; [reflexivity | exact Hcd]
              | intros H; now destruct H] |].
    destruct (truthy _); cbn [fst].
    + split.
      * intros [H | [H | [H | H]]]; try discriminate.
        destruct H. now apply Hq.
      * intros _. repeat split; try reflexivity. now apply Hq.
    + split; [intros _; split; [reflexivity | exact Hcd]
             | intros H; now destruct H].
  - intros cfg c. cbv zeta. rewrite process_item_run. cbv zeta.
    unfold YouTube.format_super_chat_message, YouTube.send_to_brain.
    cbn [fst snd].
    destruct (String.eqb (YouTube.type c) "superChat") eqn:Ht.
    + set (f := YouTube.filter_urls _ _ _ _ _).
      match goal with
      | |- context [Listener.send_to_brain w (fst f) ?i] => set (info := i)
      end.
      pose proof (send_to_brain_truthy w (fst f) info) as Hq.
      pose proof (send_to_brain_trace w (fst f) info) as [Hp _].
      destruct (YouTube.amount_suffices _ _);
        [|split; [intros _; split; reflexivity | intros H; now destruct H]].
      destruct (YouTube.is_on_cooldown _ _ _ _) eqn:Hcd;
        [split; [intros _; split; [reflexivity | exact Hcd]
                | intros H; now destruct H] |].
      destruct (truthy _); cbn [fst snd].
      * split.
        -- intros [[_ H] | [H | H]]; try discriminate.
           destruct (H (fst f)). now apply Hq.
        -- intros _. repeat split; try reflexivity.
           exists (fst f). split; [|now apply Hq].
           rewrite !posted_app, Hp. now destruct (snd f).
      * split; [intros _; split; [reflexivity | exact Hcd]
               | intros H; now destruct H].
    + assert (Hne : YouTube.type c = "superChat" -> False).
      { intros H. apply String.eqb_eq in H. congruence. }
      destruct (_ && _);
        [|split; [intros _; split; reflexivity | intros H; now destruct H]].
      set (f := YouTube.filter_urls _ _ _ _ _).
      pose proof (send_to_brain_truthy w (fst f) NoInfo) as Hq.
      pose proof (send_to_brain_trace w (fst f) NoInfo) as [Hp _].
      destruct (String.eqb _ EmptyString);
        [split; [intros _; split; reflexivity | intros H; now destruct H] |].
      destruct (YouTube.is_on_cooldown _ _ _ _) eqn:Hcd;
        [split; [intros _; split; [reflexivity | exact Hcd]
                | intros H; now destruct H] |].
      destruct (truthy _); cbn [fst snd].
      * split.
        -- intros [[H _] | [H | H]]; try discriminate; [now destruct Hne |].
           destruct (H (fst f)). now apply Hq.
        -- intros _. split; [intros H; now destruct Hne |].
           split; [reflexivity |]. split; [|reflexivity].
           exists (fst f). split; [|now apply Hq].
           rewrite !posted_app, Hp. now destruct (snd f).
      * split; [intros _; split; [reflexivity | exact Hcd]
               | intros H; now destruct H].
Qed.

Lemma cooldown_set_only_on_success_witness :
  Twitch.is_on_cooldown Twitch.shipped 12 "X" {["X" := 10%Q]} = true
  /\ fst (Twitch.chaos Twitch.shipped lenient (world queued_reply 12 13)
            (viewer "X") (Some "spawn zombies") {["X" := 10%Q]})
     = {["X" := 10%Q]}.
Proof.
  split; [reflexivity |].
  apply (proj1 (proj1 (cooldown_set_only_on_success lenient
                         (world queued_reply 12 13) {["X" := 10%Q]})
                  Twitch.shipped (viewer "X") (Some "spawn zombies"))).
  right; right; left. reflexivity.
Defined.

(** A reply that is not a success leaves the map alone, whatever the
    reason. *)
Lemma chaos_failure_keeps_cooldown cfg rt w ctx prompt (cd : gmap string Q) :
  ~ queued (brain w (twitch_prompt cfg rt ctx prompt)) ->
  fst (Twitch.chaos cfg rt w ctx prompt cd) = cd.
Proof.
  intros H. rewrite chaos_run. cbv zeta. unfold Twitch.send_to_brain.
  fold (twitch_prompt cfg rt ctx prompt).
  rewrite (send_to_brain_falsy _ _ _ H).
  destruct (Twitch.no_prompt prompt); [reflexivity |].
  destruct (Twitch.insufficient_bits _ _); [reflexivity |].
  destruct (Twitch.is_on_cooldown _ _ _ _); reflexivity.
Qed.

Lemma process_item_failure_keeps_cooldown cfg rt w c (cd : gmap string Q) :
  (forall p, ~ queued (brain w p)) ->
  fst (YouTube.process_item cfg rt w c cd) = cd.
Proof.
  intros H. rewrite process_item_run. cbv zeta. unfold YouTube.send_to_brain.
  rewrite !(send_to_brain_falsy _ _ _ (H _)).
  destruct (String.eqb (YouTube.type c) "superChat").
  - destruct (YouTube.amount_suffices _ _); [|reflexivity].
    destruct (YouTube.is_on_cooldown _ _ _ _); reflexivity.
  - destruct (_ && _); [|reflexivity].
    destruct (String.eqb _ EmptyString); [reflexivity |].
    destruct (YouTube.is_on_cooldown _ _ _ _); reflexivity.
Qed.

Lemma unrecognised_not_queued (r : Reply) : unrecognised r -> ~ queued r.
Proof.
  intros [d [-> [Hq _]]] [d' [Hr Hq']]. injection Hr as <-. contradiction.
Qed.

(** C10: on HTTP 200 with a status that is neither [queued] nor
    [ignored] (a missing status included), [send_to_brain] runs off its
    end and returns [None], a value other than [False] yet false in an
    [if]; both handlers take their failure branch and leave the
    author's cooldown as it was. *)
Theorem unrecognised_status_returns_none (rt : PyRuntime) (w : World)
    (cd : gmap string Q) :
  (forall prompt author bits,
      unrecognised (brain w prompt) ->
      Twitch.send_to_brain w prompt author bits = (PyNone, [Post prompt]))
  /\ (forall prompt author amount,
      unrecognised (brain w prompt) ->
      YouTube.send_to_brain w prompt author amount = (PyNone, [Post prompt]))
  /\ PyNone <> PyFalse
  /\ truthy PyNone = false
  /\ (forall cfg ctx prompt,
      unrecognised (brain w (twitch_prompt cfg rt ctx prompt)) ->
      fst (Twitch.chaos cfg rt w ctx prompt cd) = cd)
  /\ (forall cfg c,
      (forall p, unrecognised (brain w p)) ->
      fst (YouTube.process_item cfg rt w c cd) = cd).
Proof.
  assert (Hnone : forall prompt info, unrecognised (brain w prompt) ->
            Listener.send_to_brain w prompt info = (PyNone, [Post prompt])).
  { intros prompt info [d [Hr [Hq Hi]]]. unfold Listener.send_to_brain.
    rewrite Hr. cbn [Z.eqb Pos.eqb].
    destruct (Listener.json_is (d !! "status") "queued") eqn:H1;
      [apply json_is_spec in H1; contradiction |].
    destruct (Listener.json_is (d !! "status") "ignored") eqn:H2;
      [apply json_is_spec in H2; contradiction |].
    reflexivity. }
  repeat split.
  - intros prompt author bits H. now apply Hnone.
  - intros prompt author amount H. now apply Hnone.
  - discriminate.
  - intros cfg ctx prompt H. apply chaos_failure_keeps_cooldown.
    now apply unrecognised_not_queued.
  - intros cfg c H. apply process_item_failure_keeps_cooldown.
    intros p. now apply unrecognised_not_queued.
Qed.

Lemma unrecognised_status_returns_none_witness :
  unrecognised (brain (world (Response 200 ∅) 0 0) "spawn zombies")
  /\ Twitch.send_to_brain (world (Response 200 ∅) 0 0) "spawn zombies" "X"
       None = (PyNone, [Post "spawn zombies"]).
Proof.
  assert (H : unrecognised (brain (world (Response 200 ∅) 0 0) "spawn zombies")).
  { exists ∅. split; [reflexivity |].
    split; rewrite lookup_empty; discriminate. }
  split; [exact H |].
  exact (proj1 (unrecognised_status_returns_none lenient
                  (world (Response 200 ∅) 0 0) ∅)
           "spawn zombies" "X" None H).
Defined.

(** ** The threshold *)

(** The posts of one run of [chaos]: none when a check stops the
    command, else the filtered prompt, once *)
Lemma chaos_posted cfg rt w ctx prompt (cd : gmap string Q) :
  posted (snd (Twitch.chaos cfg rt w ctx prompt cd)) =
    if Twitch.no_prompt prompt
       || Twitch.insufficient_bits cfg (Twitch.bits_of ctx)
       || Twitch.is_on_cooldown cfg (now_check w)
            (Twitch.name (Twitch.author ctx)) cd
    then [] else [twitch_prompt cfg rt ctx prompt].
Proof.
  rewrite chaos_run. cbv zeta. unfold Twitch.send_to_brain, twitch_prompt.
  set (f := Twitch.filter_urls cfg rt (default EmptyString prompt) ctx).
  match goal with
  | |- context [Listener.send_to_brain w (fst f) ?i] =>
      pose proof (send_to_brain_trace w (fst f) i) as [Hp _]
  end.
  destruct (Twitch.no_prompt prompt); [reflexivity |].
  destruct (Twitch.insufficient_bits _ _); [reflexivity |].
  destruct (Twitch.is_on_cooldown _ _ _ _); [reflexivity |].
  destruct (truthy _); cbn [snd orb]; rewrite !posted_app, Hp;
    destruct (snd f); reflexivity.
Qed.

(** C5: the bits check of [chaos] lets a command through exactly when
    bits are not required or the bits reach [MIN_BITS_AMOUNT], and the
    amount check of the polling loop lets a super chat through exactly
    when the amount that [float] read reaches [MIN_SUPER_CHAT_AMOUNT]
    (an infinite amount does); an amount equal to the minimum passes,
    and an amount below it is turned away with nothing posted to the
    brain and the cooldown map untouched.  A command that passes and is
    not on cooldown is posted, once. *)
Theorem threshold_gate (rt : PyRuntime) (w : World) (cd : gmap string Q) :
  (forall cfg bits,
      Twitch.insufficient_bits cfg bits = false
      <-> Twitch.REQUIRE_BITS cfg = false
          \/ (Twitch.MIN_BITS_AMOUNT cfg <= bits)%Z)
  /\ (forall cfg,
      Twitch.insufficient_bits cfg (Twitch.MIN_BITS_AMOUNT cfg) = false)
  /\ (forall cfg ctx prompt,
      Twitch.no_prompt prompt = false ->
      Twitch.REQUIRE_BITS cfg = true ->
      (Twitch.bits_of ctx < Twitch.MIN_BITS_AMOUNT cfg)%Z ->
      posted (snd (Twitch.chaos cfg rt w ctx prompt cd)) = []
      /\ fst (Twitch.chaos cfg rt w ctx prompt cd) = cd)
  /\ (forall cfg,
      (forall amount_value,
          YouTube.amount_suffices cfg (Finite amount_value) = true
          <-> (YouTube.MIN_SUPER_CHAT_AMOUNT cfg <= amount_value)%Q)
      /\ YouTube.amount_suffices cfg Infinity = true)
  /\ (forall cfg,
      YouTube.amount_suffices cfg (Finite (YouTube.MIN_SUPER_CHAT_AMOUNT cfg))
      = true)
  /\ (forall cfg c amount_value,
      YouTube.type c = "superChat" ->
      YouTube.parse_amount rt (fst (YouTube.format_super_chat_message c))
      = Finite amount_value ->
      (amount_value < YouTube.MIN_SUPER_CHAT_AMOUNT cfg)%Q ->
      posted (snd (YouTube.process_item cfg rt w c cd)) = []
      /\ fst (YouTube.process_item cfg rt w c cd) = cd)
  /\ (forall cfg ctx prompt,
      Twitch.no_prompt prompt = false ->
      Twitch.insufficient_bits cfg (Twitch.bits_of ctx) = false ->
      Twitch.is_on_cooldown cfg (now_check w)
        (Twitch.name (Twitch.author ctx)) cd = false ->
      posted (snd (Twitch.chaos cfg rt w ctx prompt cd))
      = [twitch_prompt cfg rt ctx prompt])
  /\ (forall cfg c,
      YouTube.type c = "superChat" ->
      YouTube.amount_suffices cfg
        (YouTube.parse_amount rt (fst (YouTube.format_super_chat_message c)))
      = true ->
      YouTube.is_on_cooldown cfg (now_check w) (YouTube.author_name c) cd
      = false ->
      posted (snd (YouTube.process_item cfg rt w c cd))
      = [fst (YouTube.filter_urls cfg rt (YouTube.message c)
                (YouTube.author_name c)
                (default false (YouTube.isChatModerator c)))]).
Proof.
  assert (Hgate : forall cfg bits,
            Twitch.insufficient_bits cfg bits = false
            <-> Twitch.REQUIRE_BITS cfg = false
                \/ (Twitch.MIN_BITS_AMOUNT cfg <= bits)%Z).
  { intros cfg bits. unfold Twitch.insufficient_bits.
    rewrite andb_false_iff, Z.ltb_ge. reflexivity. }
  split; [exact Hgate |].
  split; [|split; [|split; [|split; [|split; [|split]]]]].
  - intros cfg. apply Hgate. right. apply Z.le_refl.
  - intros cfg ctx prompt Hp Hr Hlt. rewrite chaos_run. cbv zeta.
    rewrite Hp. unfold Twitch.insufficient_bits. rewrite Hr.
    apply Z.ltb_lt in Hlt. rewrite Hlt. split; reflexivity.
  - intros cfg. split; [|reflexivity]. intros v. apply Qle_bool_iff.
  - intros cfg. apply Qle_bool_iff. apply Qle_refl.
  - intros cfg c v Ht Hv Hlt. rewrite process_item_run. cbv zeta.
    apply String.eqb_eq in Ht. rewrite Ht.
    unfold YouTube.format_super_chat_message in Hv. cbn [fst] in Hv.
    rewrite Hv. cbn [YouTube.amount_suffices].
    destruct (Qle_bool _ _) eqn:Hs; [|split; reflexivity].
    apply Qle_bool_iff in Hs. apply Qlt_not_le in Hlt. contradiction.
  - intros cfg ctx prompt Hp Hb Hcd. rewrite chaos_posted.
    now rewrite Hp, Hb, Hcd.
  - intros cfg c Ht Hs Hcd. rewrite process_item_run. cbv zeta.
    apply String.eqb_eq in Ht. rewrite Ht.
    unfold YouTube.format_super_chat_message in Hs. cbn [fst] in Hs.
    rewrite Hs, Hcd. unfold YouTube.send_to_brain.
    set (f := YouTube.filter_urls _ _ _ _ _).
    match goal with
    | |- context [Listener.send_to_brain w (fst f) ?i] =>
        pose proof (send_to_brain_trace w (fst f) i) as [Hp _]
    end.
    destruct (truthy _); cbn [snd]; rewrite !posted_app, Hp;
      destruct (snd f); reflexivity.
Qed.

Lemma threshold_gate_witness :
  (Twitch.bits_of (cheer "X" 99) < Twitch.MIN_BITS_AMOUNT bits_required)%Z
  /\ posted (snd (Twitch.chaos bits_required lenient (world queued_reply 0 0)
                    (cheer "X" 99) (Some "spawn zombies") ∅)) = []
  /\ fst (Twitch.chaos bits_required lenient (world queued_reply 0 0)
            (cheer "X" 99) (Some "spawn zombies") ∅) = ∅.
Proof.
  assert (H : (Twitch.bits_of (cheer "X" 99)
               < Twitch.MIN_BITS_AMOUNT bits_required)%Z)
    by (vm_compute; reflexivity).
  split; [exact H |].
  exact (proj1 (proj2 (proj2 (threshold_gate lenient (world queued_reply 0 0) ∅)))
           bits_required (cheer "X" 99) (Some "spawn zombies")
           eq_refl eq_refl H).
Defined.

Example cheer_at_minimum_passes :
  posted (snd (Twitch.chaos bits_required lenient (world queued_reply 0 0)
                 (cheer "X" 100) (Some "spawn zombies") ∅))
  = ["spawn zombies"].
Proof. vm_compute. reflexivity. Qed.

(** ** Characters of a text *)

Lemma chars_head (s u : string) (us : list string) :
  Py.chars s = u :: us ->
  Py.starts_with_continuation u = Py.starts_with_continuation s.
Proof.
  destruct s as [|b s]; [discriminate |]. cbn [Py.chars].
  destruct (Py.chars s) as [|v vs].
  - intros H. injection H as <- _. reflexivity.
  - destruct (negb (Py.is_ascii b) && Py.starts_with_continuation v);
      intros H; injection H as <- _; reflexivity.
Qed.

(** A text that begins at a character boundary keeps its characters
    whatever stands before it. *)
Lemma chars_app (a b : string) :
  Py.starts_with_continuation b = false ->
  Py.chars (a ++ b) = (Py.chars a ++ Py.chars b)%list.
Proof.
  intros Hb. induction a as [|x a IH]; [reflexivity |].
  change (String x a ++ b) with (String x (a ++ b)).
  cbn [Py.chars]. rewrite IH.
  destruct (Py.chars a) as [|u us] eqn:Ha.
  - cbn [app]. destruct (Py.chars b) as [|v vs] eqn:Hv; [reflexivity |].
    rewrite (chars_head _ _ _ Hv), Hb, andb_false_r. reflexivity.
  - cbn [app]. destruct (_ && _); reflexivity.
Qed.

Lemma ascii_not_continuation (c : ascii) :
  Py.is_ascii c = true -> Py.is_continuation c = false.
Proof.
  unfold Py.is_ascii, Py.is_continuation, Py.in_range.
  change (Py.code "128") with 128%nat. change (Py.code "191") with 191%nat.
  intros H. apply Nat.ltb_lt in H.
  destruct (Nat.leb_spec 128 (Py.code c)); [lia | reflexivity].
Qed.

Lemma continuation_not_ascii (c : ascii) :
  Py.is_continuation c = true -> Py.is_ascii c = false.
Proof.
  intros H. destruct (Py.is_ascii c) eqn:E; [|reflexivity].
  apply ascii_not_continuation in E. congruence.
Qed.

(** An ASCII character is a character of every text it stands in. *)
Lemma chars_ascii (c : ascii) (s : string) :
  Py.is_ascii c = true ->
  Py.chars (String c s) = String c EmptyString :: Py.chars s.
Proof.
  intros Hc. cbn [Py.chars]. rewrite Hc. cbn [negb andb].
  destruct (Py.chars s); reflexivity.
Qed.

Lemma chars_app_ascii (a : string) (c : ascii) (b : string) :
  Py.is_ascii c = true ->
  Py.chars (a ++ String c b)
  = (Py.chars a ++ String c EmptyString :: Py.chars b)%list.
Proof.
  intros Hc. rewrite chars_app, (chars_ascii _ _ Hc); [reflexivity |].
  cbn [Py.starts_with_continuation]. now apply ascii_not_continuation.
Qed.

(** A run of continuation bytes before a character boundary is one
    character. *)
Lemma chars_continuations (r t : string) :
  r <> EmptyString ->
  Url.all_chars Py.is_continuation r = true ->
  Py.starts_with_continuation t = false ->
  Py.chars (r ++ t) = r :: Py.chars t.
Proof.
  intros Hr Hall Ht. induction r as [|c r IH]; [now destruct Hr |].
  cbn [Url.all_chars] in Hall. apply andb_true_iff in Hall as [Hc Hall].
  change (String c r ++ t) with (String c (r ++ t)). cbn [Py.chars].
  rewrite (continuation_not_ascii _ Hc). cbn [negb andb].
  destruct r as [|d r].
  - change ("" ++ t) with t.
    destruct (Py.chars t) as [|v vs] eqn:Hv; [reflexivity |].
    now rewrite (chars_head _ _ _ Hv), Ht.
  - assert (Hne : String d r <> EmptyString) by discriminate.
    rewrite (IH Hne Hall).
    cbn [Url.all_chars] in Hall. apply andb_true_iff in Hall as [Hd _].
    cbn [Py.starts_with_continuation]. now rewrite Hd.
Qed.

Lemma chars_utf8_char (u t : string) :
  utf8_char u = true ->
  Py.starts_with_continuation t = false ->
  Py.chars (u ++ t) = u :: Py.chars t.
Proof.
  destruct u as [|b r]; [discriminate |]. cbn [utf8_char].
  intros H Ht. apply andb_true_iff in H as [H Hb].
  apply andb_true_iff in H as [_ Hr].
  change (String b r ++ t) with (String b (r ++ t)). cbn [Py.chars].
  destruct r as [|c r].
  - change ("" ++ t) with t.
    destruct (Py.chars t) as [|v vs] eqn:Hv; [reflexivity |].
    now rewrite (chars_head _ _ _ Hv), Ht, andb_false_r.
  - assert (Hne : String c r <> EmptyString) by discriminate.
    rewrite (chars_continuations _ _ Hne Hr Ht).
    cbn [String.eqb] in Hb. rewrite orb_false_r in Hb. rewrite Hb.
    cbn [Url.all_chars] in Hr. apply andb_true_iff in Hr as [Hc _].
    cbn [Py.starts_with_continuation andb]. now rewrite Hc.
Qed.

Lemma utf8_char_start (u t : string) :
  utf8_char u = true -> Py.starts_with_continuation (u ++ t) = false.
Proof.
  destruct u as [|b r]; [discriminate |]. cbn [utf8_char].
  intros H. apply andb_true_iff in H as [H _].
  apply andb_true_iff in H as [H _]. apply negb_true_iff in H. exact H.
Qed.

(** Joining characters and taking the characters of the result gives
    them back. *)
Lemma chars_join (l : list string) :
  forallb utf8_char l = true -> Py.chars (Py.join l) = l.
Proof.
  induction l as [|u l IH]; [reflexivity |].
  cbn [forallb]. intros H. apply andb_true_iff in H as [Hu Hl].
  unfold Py.join. cbn [fold_right]. fold (Py.join l).
  rewrite (chars_utf8_char _ _ Hu), (IH Hl); [reflexivity |].
  destruct l as [|v l]; [reflexivity |].
  cbn [forallb] in Hl. apply andb_true_iff in Hl as [Hv _].
  unfold Py.join. cbn [fold_right]. now apply utf8_char_start.
Qed.

Ltac byte_ranges :=
  unfold Py.is_ascii, Py.is_continuation, Py.in_range in *;
  repeat match goal with
         | H : andb _ _ = true |- _ => apply andb_true_iff in H as [? ?]
         | H : Nat.leb _ _ = true |- _ => apply Nat.leb_le in H
         | H : Nat.ltb _ _ = true |- _ => apply Nat.ltb_lt in H
         end;
  change (Py.code "128") with 128%nat in *;
  change (Py.code "191") with 191%nat in *;
  change (Py.code "194") with 194%nat in *;
  change (Py.code "223") with 223%nat in *;
  change (Py.code "224") with 224%nat in *;
  change (Py.code "239") with 239%nat in *;
  change (Py.code "240") with 240%nat in *;
  change (Py.code "244") with 244%nat in *;
  repeat match goal with
         | |- context [Nat.leb ?a ?b] => destruct (Nat.leb_spec a b)
         | |- context [Nat.ltb ?a ?b] => destruct (Nat.ltb_spec a b)
         end;
  cbn; try reflexivity; try lia.

Lemma continuation_some (c : ascii) (x : N) :
  Py.continuation c = Some x -> Py.is_continuation c = true.
Proof.
  unfold Py.continuation. destruct (Py.is_continuation c); [reflexivity | discriminate].
Qed.

(** A sequence that [ord] reads is a character. *)
Lemma ord_utf8_char (u : string) (cp : N) :
  Py.ord u = Some cp -> utf8_char u = true.
Proof.
  destruct u as [|a [|b [|c [|d [|e u]]]]]; cbn [Py.ord]; try discriminate.
  - destruct (Py.is_ascii a) eqn:Ha; [|discriminate]. intros _.
    cbn [utf8_char Url.all_chars String.eqb].
    rewrite (ascii_not_continuation _ Ha). now rewrite orb_true_r.
  - destruct (Py.in_range "194" "223" a) eqn:Ha; [|discriminate].
    destruct (Py.continuation b) as [x|] eqn:Hb; [|discriminate]. intros _.
    cbn [utf8_char Url.all_chars]. rewrite (continuation_some _ _ Hb).
    clear Hb. byte_ranges.
  - destruct (Py.in_range "224" "239" a) eqn:Ha; [|discriminate].
    destruct (Py.continuation b) as [x|] eqn:Hb; [|discriminate].
    destruct (Py.continuation c) as [y|] eqn:Hc; [|discriminate]. intros _.
    cbn [utf8_char Url.all_chars].
    rewrite (continuation_some _ _ Hb), (continuation_some _ _ Hc).
    clear Hb Hc. byte_ranges.
  - destruct (Py.in_range "240" "244" a) eqn:Ha; [|discriminate].
    destruct (Py.continuation b) as [x|] eqn:Hb; [|discriminate].
    destruct (Py.continuation c) as [y|] eqn:Hc; [|discriminate].
    destruct (Py.continuation d) as [z|] eqn:Hd; [|discriminate]. intros _.
    cbn [utf8_char Url.all_chars].
    rewrite (continuation_some _ _ Hb), (continuation_some _ _ Hc),
      (continuation_some _ _ Hd).
    clear Hb Hc Hd. byte_ranges.
Qed.

Lemma amount_char_utf8 (rt : PyRuntime) (x : string) :
  YouTube.amount_char rt x = true -> utf8_char x = true.
Proof.
  unfold YouTube.amount_char, Py.isdigit. intros H.
  apply orb_true_iff in H as [H | H].
  - destruct (Py.ord x) as [cp|] eqn:Ho; [|discriminate].
    exact (ord_utf8_char _ _ Ho).
  - apply String.eqb_eq in H. subst x. reflexivity.
Qed.

(** The characters of the text handed to [float] are the characters of
    the amount string that the filter keeps, in their order. *)
Lemma amount_text_chars (rt : PyRuntime) (amount_str : string) :
  Py.chars (YouTube.amount_text rt amount_str)
  = List.filter (YouTube.amount_char rt) (Py.chars amount_str).
Proof.
  unfold YouTube.amount_text. apply chars_join.
  apply forallb_forall. intros x Hx. apply filter_In in Hx as [_ Hx].
  exact (amount_char_utf8 _ _ Hx).
Qed.

Lemma digits_value_point (rt : PyRuntime) (l : list string) (acc : N) :
  In "." l -> YouTube.digits_value rt acc l = None.
Proof.
  revert acc. induction l as [|x l IH]; intros acc; [intros [] |].
  cbn [YouTube.digits_value]. intros [-> | H]; [reflexivity |].
  destruct (String.eqb x "."); [reflexivity |].
  destruct (Py.todecimal rt x); [now apply IH | reflexivity].
Qed.

Lemma split_point_parts (l : list string) :
  match YouTube.split_point l with
  | (whole, Some frac) => l = (whole ++ "." :: frac)%list
  | (whole, None) => l = whole /\ ~ In "." l
  end.
Proof.
  induction l as [|x l IH]; cbn [YouTube.split_point].
  - split; [reflexivity | intros []].
  - destruct (String.eqb x ".") eqn:Hx.
    + apply String.eqb_eq in Hx. now subst x.
    + destruct (YouTube.split_point l) as [a [b|]].
      * cbn [app]. now rewrite IH at 1.
      * destruct IH as [<- Hn]. split; [reflexivity |].
        intros [H | H]; [|now apply Hn].
        subst x. discriminate.
Qed.

(** [float] refuses a text with two points. *)
Lemma float_of_chars_two_points (rt : PyRuntime) (x y z : list string) :
  YouTube.float_of_chars rt (x ++ "." :: y ++ "." :: z) = None.
Proof.
  unfold YouTube.float_of_chars.
  pose proof (split_point_parts (x ++ "." :: y ++ "." :: z)) as H.
  destruct (YouTube.split_point _) as [whole [frac|]].
  - cbn [default from_option id].
    assert (Hin : In "." (whole ++ frac)).
    { assert (Hc : (count_occ string_dec (x ++ "." :: y ++ "." :: z) "." >= 2)%nat).
      { rewrite count_occ_app. cbn [count_occ].
        destruct (string_dec "." "."); [|congruence].
        rewrite count_occ_app. cbn [count_occ].
        destruct (string_dec "." "."); [|congruence]. lia. }
      rewrite H in Hc. rewrite count_occ_app in Hc. cbn [count_occ] in Hc.
      destruct (string_dec "." "."); [|congruence].
      apply (count_occ_In string_dec). rewrite count_occ_app. lia. }
    rewrite (digits_value_point rt _ 0%N Hin).
    destruct (_ + _)%nat; reflexivity.
  - destruct H as [_ Hn]. destruct Hn. apply in_or_app. right. now left.
Qed.

(** [float] refuses a text made of points only. *)
Lemma float_of_chars_points (rt : PyRuntime) (l : list string) :
  (forall x, In x l -> x = ".") -> YouTube.float_of_chars rt l = None.
Proof.
  intros H. destruct l as [|a [|b l]].
  - reflexivity.
  - rewrite (H a) by now left. reflexivity.
  - rewrite (H a) by now left. rewrite (H b) by (right; now left).
    exact (float_of_chars_two_points rt [] [] l).
Qed.

Lemma float_of_amount_text (rt : PyRuntime) (amount_str : string) :
  YouTube.float_of rt (YouTube.amount_text rt amount_str)
  = YouTube.float_of_chars rt
      (List.filter (YouTube.amount_char rt) (Py.chars amount_str)).
Proof. unfold YouTube.float_of. now rewrite amount_text_chars. Qed.

(** A text none of whose characters is a digit gives [float] nothing
    to read. *)
Lemma float_of_no_digit (rt : PyRuntime) (amount_str : string) :
  (forall x, In x (Py.chars amount_str) -> Py.isdigit rt x = false) ->
  YouTube.float_of rt (YouTube.amount_text rt amount_str) = None.
Proof.
  intros H. rewrite float_of_amount_text. apply float_of_chars_points.
  intros x Hx. apply filter_In in Hx as [Hin Hk].
  unfold YouTube.amount_char in Hk. rewrite (H _ Hin) in Hk.
  now apply String.eqb_eq in Hk.
Qed.

Lemma round_half_even_nonneg (a b : Z) :
  (0 <= a)%Z -> (0 < b)%Z -> (0 <= Py.round_half_even a b)%Z.
Proof.
  intros Ha Hb. unfold Py.round_half_even.
  assert (0 <= a / b)%Z by (apply Z.div_pos; lia).
  destruct (_ ?= _)%Z; [destruct (Z.even _) | |]; lia.
Qed.

Lemma nearest_double_nonneg (num den : Z) :
  (0 <= num)%Z -> (0 < den)%Z -> not_negative (Py.nearest_double num den).
Proof.
  intros Hn Hd. unfold Py.nearest_double.
  destruct (num =? 0)%Z; [apply Qle_refl |].
  set (p := Z.max _ _). clearbody p.
  destruct (0 <=? p)%Z eqn:Hp.
  - apply Z.leb_le in Hp.
    destruct (_ <=? _)%Z; [exact I |]. cbn [not_negative].
    unfold Qle. cbn [Qnum Qden inject_Z].
    assert (0 <= Py.round_half_even num (den * 2 ^ p))%Z.
    { apply round_half_even_nonneg; [lia |].
      apply Z.mul_pos_pos; [lia |]. apply Z.pow_pos_nonneg; lia. }
    assert (0 <= 2 ^ p)%Z by (apply Z.pow_nonneg; lia). nia.
  - apply Z.leb_gt in Hp. cbn [not_negative]. rewrite Qred_correct.
    unfold Qle. cbn [Qnum Qden].
    assert (0 <= Py.round_half_even (num * 2 ^ (- p)) den)%Z.
    { apply round_half_even_nonneg; [|lia].
      apply Z.mul_nonneg_nonneg; [lia |]. apply Z.pow_nonneg; lia. }
    lia.
Qed.

Lemma parse_amount_nonneg (rt : PyRuntime) (amount_str : string) :
  not_negative (YouTube.parse_amount rt amount_str).
Proof.
  unfold YouTube.parse_amount, YouTube.float_of, YouTube.float_of_chars.
  destruct (YouTube.split_point _) as [whole frac].
  destruct (_ + _)%nat; [apply Qle_refl |].
  destruct (YouTube.digits_value _ _ _) as [v|]; [|apply Qle_refl].
  apply nearest_double_nonneg; [lia |]. apply Z.pow_pos_nonneg; lia.
Qed.

(** ** Reading a super chat's amount *)

Example parse_amount_half :
  YouTube.parse_amount lenient "$0.50" = Finite (1 # 2).
Proof. vm_compute. reflexivity. Qed.

Example parse_amount_unknown :
  YouTube.parse_amount lenient "Unknown" = Finite 0.
Proof. vm_compute. reflexivity. Qed.

Example parse_amount_two_points :
  YouTube.parse_amount lenient "1.000.000" = Finite 0.
Proof. vm_compute. reflexivity. Qed.

(** The decimal is rounded to the nearest float: seventeen nines after
    the point read as one. *)
Example parse_amount_rounds :
  YouTube.parse_amount lenient "$0.99999999999999999" = Finite 1.
Proof. vm_compute. reflexivity. Qed.

(** ARABIC-INDIC DIGIT FIVE is a digit and [float] reads it. *)
Example parse_amount_arabic_indic :
  YouTube.parse_amount lenient "٥" = Finite 5.
Proof. vm_compute. reflexivity. Qed.

(** SUPERSCRIPT TWO is a digit for [isdigit], so the filter keeps it,
    but no decimal digit: [float] fails on the text. *)
Example parse_amount_superscript :
  Py.chars (YouTube.amount_text lenient "1²") = ["1"; "²"]
  /\ YouTube.parse_amount lenient "1²" = Finite 0.
Proof. vm_compute. split; reflexivity. Qed.

(** C8: the text handed to [float] is made of the characters of the
    amount string that are digits or points, in their order, and of
    nothing else; when [float] fails on it, as it does when the string
    holds no digit, the amount is [0] and no exception leaves the
    [try], so for a positive minimum the amount check fails and the
    turn of the loop ends with the line [Amount too low], nothing
    posted and the cooldown map untouched. *)
Theorem amount_parse_failure_is_zero (rt : PyRuntime) (w : World)
    (cd : gmap string Q) :
  (forall amount_str,
      Py.chars (YouTube.amount_text rt amount_str)
      = List.filter (fun x => Py.isdigit rt x || String.eqb x ".")
          (Py.chars amount_str))
  /\ (forall amount_str x,
      In x (Py.chars (YouTube.amount_text rt amount_str)) ->
      In x (Py.chars amount_str) /\ (Py.isdigit rt x = true \/ x = "."))
  /\ (forall amount_str,
      YouTube.float_of rt (YouTube.amount_text rt amount_str) = None ->
      YouTube.parse_amount rt amount_str = Finite 0)
  /\ (forall amount_str,
      (forall x, In x (Py.chars amount_str) -> Py.isdigit rt x = false) ->
      YouTube.float_of rt (YouTube.amount_text rt amount_str) = None)
  /\ (forall cfg c,
      YouTube.type c = "superChat" ->
      YouTube.float_of rt
        (YouTube.amount_text rt (fst (YouTube.format_super_chat_message c)))
      = None ->
      (0 < YouTube.MIN_SUPER_CHAT_AMOUNT cfg)%Q ->
      YouTube.amount_suffices cfg
        (YouTube.parse_amount rt (fst (YouTube.format_super_chat_message c)))
      = false
      /\ YouTube.process_item cfg rt w c cd =
         (cd,
          [Print (LogSuperChat (YouTube.author_name c)
                    (fst (YouTube.format_super_chat_message c))
                    (snd (YouTube.format_super_chat_message c)));
           Print (LogMessage (YouTube.message c));
           Print (LogAmountTooLow (YouTube.MIN_SUPER_CHAT_AMOUNT cfg));
           Print LogBlank])).
Proof.
  assert (Hzero : forall amount_str,
            YouTube.float_of rt (YouTube.amount_text rt amount_str) = None ->
            YouTube.parse_amount rt amount_str = Finite 0).
  { intros s H. unfold YouTube.parse_amount. now rewrite H. }
  split; [exact (amount_text_chars rt) |].
  split; [|split; [exact Hzero |split; [exact (float_of_no_digit rt) |]]].
  - intros s x H. rewrite amount_text_chars in H.
    apply filter_In in H as [Hin H]. split; [exact Hin |].
    unfold YouTube.amount_char in H. apply orb_true_iff in H as [H | H].
    + now left.
    + right. now apply String.eqb_eq in H.
  - intros cfg c Ht Hf Hmin.
    assert (Hs : YouTube.amount_suffices cfg
                   (YouTube.parse_amount rt
                      (fst (YouTube.format_super_chat_message c))) = false).
    { rewrite (Hzero _ Hf). cbn [YouTube.amount_suffices].
      destruct (Qle_bool _ _) eqn:Hle; [|reflexivity].
      apply Qle_bool_iff in Hle. apply Qlt_not_le in Hmin. contradiction. }
    split; [exact Hs |].
    rewrite process_item_run. cbv zeta.
    apply String.eqb_eq in Ht. rewrite Ht.
    unfold YouTube.format_super_chat_message in *. cbn [fst snd] in *.
    rewrite Hs. reflexivity.
Qed.

Lemma amount_parse_failure_is_zero_witness :
  YouTube.float_of lenient
    (YouTube.amount_text lenient
       (fst (YouTube.format_super_chat_message
               (super_chat "Y" "spawn zombies" None)))) = None
  /\ (0 < YouTube.MIN_SUPER_CHAT_AMOUNT YouTube.shipped)%Q
  /\ YouTube.process_item YouTube.shipped lenient (world queued_reply 0 0)
       (super_chat "Y" "spawn zombies" None) ∅ =
     (∅,
      [Print (LogSuperChat "Y" "Unknown" "USD");
       Print (LogMessage "spawn zombies");
       Print (LogAmountTooLow 1);
       Print LogBlank]).
Proof.
  assert (Hf : YouTube.float_of lenient
                 (YouTube.amount_text lenient
                    (fst (YouTube.format_super_chat_message
                            (super_chat "Y" "spawn zombies" None)))) = None)
    by (vm_compute; reflexivity).
  split; [exact Hf |]. split; [reflexivity |].
  exact (proj2 (proj2 (proj2 (proj2 (proj2 (amount_parse_failure_is_zero lenient
                                (world queued_reply 0 0) ∅))))
                  YouTube.shipped (super_chat "Y" "spawn zombies" None)
                  eq_refl Hf eq_refl)).
Defined.

(** A super chat of half a dollar against the shipped minimum of one *)
Example super_chat_below_minimum :
  YouTube.process_item YouTube.shipped lenient (world queued_reply 0 0)
    (super_chat "Y" "spawn zombies" (Some "$0.50")) ∅ =
  (∅,
   [Print (LogSuperChat "Y" "$0.50" "USD");
    Print (LogMessage "spawn zombies");
    Print (LogAmountTooLow 1);
    Print LogBlank]).
Proof. vm_compute. reflexivity. Qed.

(** A super chat whose amount text [float] rounds up to the minimum is
    let through. *)
Example super_chat_rounded_to_minimum :
  posted (snd (YouTube.process_item YouTube.shipped lenient
                 (world queued_reply 0 0)
                 (super_chat "Y" "spawn zombies"
                    (Some "$0.99999999999999999")) ∅))
  = ["spawn zombies"].
Proof. vm_compute. reflexivity. Qed.

(** ** What the sender is told *)

(** The value [send_to_brain] returns does not depend on the payment it
    is told of. *)
Lemma send_to_brain_result_info (w : World) (prompt : string)
    (i i' : PaidInfo) :
  fst (Listener.send_to_brain w prompt i)
  = fst (Listener.send_to_brain w prompt i').
Proof.
  unfold Listener.send_to_brain.
  destruct (brain w prompt) as [|code data]; [reflexivity |].
  destruct (code =? 200)%Z; [|reflexivity].
  destruct (Listener.json_is (data !! "status") "queued"); [reflexivity |].
  destruct (Listener.json_is (data !! "status") "ignored"); reflexivity.
Qed.

(** The chat replies of one run of [chaos], in order *)
Lemma chaos_sent cfg rt w ctx prompt (cd : gmap string Q) :
  sent (snd (Twitch.chaos cfg rt w ctx prompt cd)) =
    let a := Twitch.name (Twitch.author ctx) in
    let f := Twitch.filter_urls cfg rt (default EmptyString prompt) ctx in
    if Twitch.no_prompt prompt then
      [(a, MsgUsage (Twitch.CHAT_COMMAND cfg))]
    else if Twitch.insufficient_bits cfg (Twitch.bits_of ctx) then
      [(a, MsgNeedBits (Twitch.MIN_BITS_AMOUNT cfg))]
    else if Twitch.is_on_cooldown cfg (now_check w) a cd then
      [(a, MsgWait (Twitch.COOLDOWN_SECONDS cfg))]
    else
      ((if snd f then [(a, MsgUrlsFiltered)] else [])
       ++ [(a, MsgProcessing);
           (a, if truthy (fst (Listener.send_to_brain w (fst f) NoInfo))
               then MsgUnleashed else MsgFailedOffline)])%list.
Proof.
  rewrite chaos_run. cbv zeta. unfold Twitch.send_to_brain.
  set (f := Twitch.filter_urls cfg rt (default EmptyString prompt) ctx).
  match goal with
  | |- context [Listener.send_to_brain w (fst f) ?i] => set (info := i)
  end.
  rewrite (send_to_brain_result_info w (fst f) NoInfo info).
  pose proof (send_to_brain_trace w (fst f) info) as [_ Hs].
  destruct (Twitch.no_prompt prompt); [reflexivity |].
  destruct (Twitch.insufficient_bits _ _); [reflexivity |].
  destruct (Twitch.is_on_cooldown _ _ _ _); [reflexivity |].
  destruct (truthy _); cbn [snd]; rewrite !sent_app, Hs;
    destruct (snd f); reflexivity.
Qed.

(** The polling loop never writes to the chat. *)
Lemma process_item_sent cfg rt w c (cd : gmap string Q) :
  sent (snd (YouTube.process_item cfg rt w c cd)) = [].
Proof.
  rewrite process_item_run. cbv zeta. unfold YouTube.send_to_brain.
  destruct (String.eqb (YouTube.type c) "superChat").
  - set (f := YouTube.filter_urls _ _ _ _ _).
    match goal with
    | |- context [Listener.send_to_brain w ?p ?i] =>
        pose proof (send_to_brain_trace w p i) as [_ Hs]
    end.
    destruct (YouTube.amount_suffices _ _); [|reflexivity].
    destruct (YouTube.is_on_cooldown _ _ _ _);
      [cbn [snd]; destruct (snd f); reflexivity |].
    destruct (truthy _); cbn [snd]; rewrite !sent_app, Hs;
      destruct (snd f); reflexivity.
  - destruct (_ && _); [|reflexivity].
    set (f := YouTube.filter_urls _ _ _ _ _).
    match goal with
    | |- context [Listener.send_to_brain w ?p ?i] =>
        pose proof (send_to_brain_trace w p i) as [_ Hs]
    end.
    destruct (String.eqb _ EmptyString); [reflexivity |].
    destruct (YouTube.is_on_cooldown _ _ _ _);
      [cbn [snd]; destruct (snd f); reflexivity |].
    destruct (truthy _); cbn [snd]; rewrite !sent_app, Hs;
      destruct (snd f); reflexivity.
Qed.

Lemma run_items_sent cfg rt items (cd : gmap string Q) :
  sent (snd (YouTube.run_items cfg rt items cd)) = [].
Proof.
  revert cd. induction items as [|[w c] items IH]; intros cd; [reflexivity |].
  cbn [YouTube.run_items].
  pose proof (process_item_sent cfg rt w c cd) as H.
  destruct (YouTube.process_item cfg rt w c cd) as [cd1 tr1].
  specialize (IH cd1).
  destruct (YouTube.run_items cfg rt items cd1) as [cd2 tr2].
  cbn [snd] in *. now rewrite sent_app, H, IH.
Qed.

(** C3, refuted as stated: for the reply [ignored] with the message
    [too violent] and for a connection failure, [send_to_brain] returns
    the same [False], the handler of the callback-driven listener sends
    the sender the same two chat replies, and the polling listener sends
    none; the message of the brain reaches the console only. *)
Lemma safety_rejection_not_told_apart :
  fst (Twitch.send_to_brain (world ignored_reply 0 0) "spawn zombies" "X" None)
  = PyFalse
  /\ fst (Twitch.send_to_brain (world RequestException 0 0) "spawn zombies"
            "X" None) = PyFalse
  /\ sent (snd (Twitch.chaos Twitch.shipped lenient (world ignored_reply 0 0)
                  (viewer "X") (Some "spawn zombies") ∅))
     = [("X", MsgProcessing); ("X", MsgFailedOffline)]
  /\ sent (snd (Twitch.chaos Twitch.shipped lenient
                  (world RequestException 0 0)
                  (viewer "X") (Some "spawn zombies") ∅))
     = [("X", MsgProcessing); ("X", MsgFailedOffline)]
  /\ sent (snd (YouTube.process_item YouTube.shipped lenient
                  (world ignored_reply 0 0)
                  (super_chat "Y" "spawn zombies" (Some "$5.00")) ∅))
     = [].
Proof. vm_compute. repeat split; reflexivity. Qed.

(** C3, as the code has it: on HTTP 200 with status [ignored],
    [send_to_brain] posts once, prints the brain's message on the
    console and returns [False]; on a connection failure it posts once,
    prints the failure and returns [False] as well.  The handlers leave
    the cooldown map as it was in both cases.  The callback-driven one
    sends the sender the same replies in both: for a command that
    reaches the dispatch these are the notice of redaction where URLs
    were removed, [Processing] and the one failure reply, [Failed to
    process your request.  The AI Brain might be offline!].  The
    polling one sends no reply at all, in either case. *)
Theorem safety_rejection_logged_only (rt : PyRuntime) (cd : gmap string Q) :
  (forall w prompt info data,
      brain w prompt = Response 200 data ->
      data !! "status" = Some (JStr "ignored") ->
      Listener.send_to_brain w prompt info =
        (PyFalse,
         [Post prompt; Print (LogBlockedBySafety (data !! "message"))]))
  /\ (forall w prompt info,
      brain w prompt = RequestException ->
      Listener.send_to_brain w prompt info =
        (PyFalse, [Post prompt; Print LogConnectFailed]))
  /\ (forall cfg ctx prompt w w',
      ignored (brain w (twitch_prompt cfg rt ctx prompt)) ->
      brain w' (twitch_prompt cfg rt ctx prompt) = RequestException ->
      now_check w = now_check w' ->
      sent (snd (Twitch.chaos cfg rt w ctx prompt cd))
      = sent (snd (Twitch.chaos cfg rt w' ctx prompt cd))
      /\ fst (Twitch.chaos cfg rt w ctx prompt cd) = cd
      /\ fst (Twitch.chaos cfg rt w' ctx prompt cd) = cd)
  /\ (forall cfg ctx prompt w,
      let a := Twitch.name (Twitch.author ctx) in
      let notice :=
        if snd (Twitch.filter_urls cfg rt (default EmptyString prompt) ctx)
        then [(a, MsgUrlsFiltered)] else [] in
      Twitch.no_prompt prompt = false ->
      Twitch.insufficient_bits cfg (Twitch.bits_of ctx) = false ->
      Twitch.is_on_cooldown cfg (now_check w) a cd = false ->
      ignored (brain w (twitch_prompt cfg rt ctx prompt))
      \/ brain w (twitch_prompt cfg rt ctx prompt) = RequestException ->
      sent (snd (Twitch.chaos cfg rt w ctx prompt cd))
      = (notice ++ [(a, MsgProcessing); (a, MsgFailedOffline)])%list
      /\ posted (snd (Twitch.chaos cfg rt w ctx prompt cd))
         = [twitch_prompt cfg rt ctx prompt]
      /\ fst (Twitch.chaos cfg rt w ctx prompt cd) = cd)
  /\ (forall cfg c w,
      (forall p, ignored (brain w p) \/ brain w p = RequestException) ->
      sent (snd (YouTube.process_item cfg rt w c cd)) = []
      /\ fst (YouTube.process_item cfg rt w c cd) = cd).
Proof.
  split; [|split; [|split; [|split]]].
  - intros w prompt info data Hr Hs. unfold Listener.send_to_brain.
    rewrite Hr, Hs. reflexivity.
  - intros w prompt info Hr. unfold Listener.send_to_brain.
    now rewrite Hr.
  - intros cfg ctx prompt w w' Hi Hx Hclock.
    assert (Hw : ~ queued (brain w (twitch_prompt cfg rt ctx prompt))).
    { apply failed_not_queued. now left. }
    assert (Hw' : ~ queued (brain w' (twitch_prompt cfg rt ctx prompt))).
    { apply failed_not_queued. right. now left. }
    split; [|split; now apply chaos_failure_keeps_cooldown].
    rewrite !chaos_sent. cbv zeta. fold (twitch_prompt cfg rt ctx prompt).
    rewrite (send_to_brain_falsy _ _ _ Hw), (send_to_brain_falsy _ _ _ Hw').
    now rewrite Hclock.
  - intros cfg ctx prompt w. cbv zeta. intros Hp Hb Hcd Hr.
    assert (Hw : ~ queued (brain w (twitch_prompt cfg rt ctx prompt))).
    { apply failed_not_queued. destruct Hr as [Hr | Hr];
        [now left | right; now left]. }
    split; [|split; [|now apply chaos_failure_keeps_cooldown]].
    + rewrite chaos_sent. cbv zeta. fold (twitch_prompt cfg rt ctx prompt).
      now rewrite Hp, Hb, Hcd, (send_to_brain_falsy _ _ _ Hw).
    + rewrite chaos_posted. now rewrite Hp, Hb, Hcd.
  - intros cfg c w Hi. split; [apply process_item_sent |].
    apply process_item_failure_keeps_cooldown.
    intros p. apply failed_not_queued. destruct (Hi p) as [Hr | Hr];
      [now left | right; now left].
Qed.

Lemma safety_rejection_logged_only_witness :
  brain (world ignored_reply 0 0) "spawn zombies" = ignored_reply
  /\ Listener.send_to_brain (world ignored_reply 0 0) "spawn zombies" NoInfo =
     (PyFalse,
      [Post "spawn zombies";
       Print (LogBlockedBySafety (Some (JStr "too violent")))]).
Proof.
  split; [reflexivity |].
  exact (proj1 (safety_rejection_logged_only lenient ∅)
           (world ignored_reply 0 0) "spawn zombies" NoInfo
           {["status" := JStr "ignored"; "message" := JStr "too violent"]}
           eq_refl eq_refl).
Defined.

(** C4, refuted as stated: a super chat below the minimum is turned
    away by the polling listener without any message to its author, and
    a command whose dispatch fails draws two chat replies from the
    callback-driven listener, not one. *)
Lemma rejection_replies_not_one :
  sent (snd (YouTube.process_item YouTube.shipped lenient
               (world queued_reply 0 0)
               (super_chat "Y" "spawn zombies" (Some "$0.50")) ∅)) = []
  /\ sent (snd (YouTube.process_item YouTube.shipped lenient
                  (world RequestException 0 0)
                  (super_chat "Y" "spawn zombies" (Some "$5.00")) ∅)) = []
  /\ sent (snd (Twitch.chaos Twitch.shipped lenient
                  (world RequestException 0 0)
                  (viewer "X") (Some "spawn zombies") ∅))
     = [("X", MsgProcessing); ("X", MsgFailedOffline)].
Proof. vm_compute. repeat split; reflexivity. Qed.

(** C4, as the code has it.  In the callback-driven listener a command
    below the bits threshold, or on cooldown, draws one chat reply that
    names the reason, and nothing else; a command whose dispatch fails
    draws the one failure reply, and a command that is queued the one
    acknowledgement, each after the notice [Processing] and, where URLs
    were redacted, the notice of that.  The polling listener sends no
    chat reply on any path, for one item or for a run of them. *)
Theorem replies_per_path (rt : PyRuntime) (w : World) (cd : gmap string Q) :
  (forall cfg ctx prompt,
      let a := Twitch.name (Twitch.author ctx) in
      let run := Twitch.chaos cfg rt w ctx prompt cd in
      let p := twitch_prompt cfg rt ctx prompt in
      let notice :=
        if snd (Twitch.filter_urls cfg rt (default EmptyString prompt) ctx)
        then [(a, MsgUrlsFiltered)] else [] in
      Twitch.no_prompt prompt = false ->
      (Twitch.insufficient_bits cfg (Twitch.bits_of ctx) = true ->
       sent (snd run) = [(a, MsgNeedBits (Twitch.MIN_BITS_AMOUNT cfg))])
      /\ (Twitch.insufficient_bits cfg (Twitch.bits_of ctx) = false ->
          Twitch.is_on_cooldown cfg (now_check w) a cd = true ->
          sent (snd run) = [(a, MsgWait (Twitch.COOLDOWN_SECONDS cfg))])
      /\ (Twitch.insufficient_bits cfg (Twitch.bits_of ctx) = false ->
          Twitch.is_on_cooldown cfg (now_check w) a cd = false ->
          ~ queued (brain w p) ->
          sent (snd run)
          = (notice ++ [(a, MsgProcessing); (a, MsgFailedOffline)])%list)
      /\ (Twitch.insufficient_bits cfg (Twitch.bits_of ctx) = false ->
          Twitch.is_on_cooldown cfg (now_check w) a cd = false ->
          queued (brain w p) ->
          sent (snd run)
          = (notice ++ [(a, MsgProcessing); (a, MsgUnleashed)])%list))
  /\ (forall cfg c, sent (snd (YouTube.process_item cfg rt w c cd)) = [])
  /\ (forall cfg items, sent (snd (YouTube.run_items cfg rt items cd)) = []).
Proof.
  split; [|split; [intros; apply process_item_sent
                  | intros; apply run_items_sent]].
  intros cfg ctx prompt. cbv zeta. intros Hp. rewrite chaos_sent. cbv zeta.
  fold (twitch_prompt cfg rt ctx prompt). rewrite Hp.
  repeat split.
  - intros ->. reflexivity.
  - intros -> ->. reflexivity.
  - intros -> -> Hq. now rewrite (send_to_brain_falsy _ _ _ Hq).
  - intros -> -> Hq. apply (send_to_brain_truthy w _ NoInfo) in Hq.
    now rewrite Hq.
Qed.

Lemma replies_per_path_witness :
  Twitch.no_prompt (Some "spawn zombies") = false
  /\ Twitch.insufficient_bits bits_required (Twitch.bits_of (cheer "X" 99))
     = true
  /\ sent (snd (Twitch.chaos bits_required lenient (world queued_reply 0 0)
                  (cheer "X" 99) (Some "spawn zombies") ∅))
     = [("X", MsgNeedBits 100)].
Proof.
  assert (H : Twitch.insufficient_bits bits_required
                (Twitch.bits_of (cheer "X" 99)) = true)
    by (vm_compute; reflexivity).
  split; [reflexivity |]. split; [exact H |].
  exact (proj1 (proj1 (replies_per_path lenient (world queued_reply 0 0) ∅)
                  bits_required (cheer "X" 99) (Some "spawn zombies")
                  eq_refl) H).
Defined.

(** * Further properties of the listeners *)

(** ** Summaries of one run *)

(** The cooldown map after one run of [chaos] *)
Lemma chaos_cooldown cfg rt w ctx prompt (cd : gmap string Q) :
  fst (Twitch.chaos cfg rt w ctx prompt cd) =
    let a := Twitch.name (Twitch.author ctx) in
    if negb (Twitch.no_prompt prompt)
       && negb (Twitch.insufficient_bits cfg (Twitch.bits_of ctx))
       && negb (Twitch.is_on_cooldown cfg (now_check w) a cd)
       && truthy (fst (Listener.send_to_brain w
                         (twitch_prompt cfg rt ctx prompt) NoInfo))
    then <[a := now_set w]> cd else cd.
Proof.
  rewrite chaos_run. cbv zeta. unfold Twitch.send_to_brain, twitch_prompt.
  set (f := Twitch.filter_urls cfg rt (default EmptyString prompt) ctx).
  match goal with
  | |- context [Listener.send_to_brain w (fst f) ?i] =>
      rewrite (send_to_brain_result_info w (fst f) i NoInfo)
  end.
  destruct (Twitch.no_prompt prompt); [reflexivity |].
  destruct (Twitch.insufficient_bits _ _); [reflexivity |].
  destruct (Twitch.is_on_cooldown _ _ _ _); [reflexivity |].
  destruct (truthy _); reflexivity.
Qed.

(** The cooldown map and the posts of one turn of the polling loop *)
Lemma process_item_summary cfg rt w c (cd : gmap string Q) :
  let run := YouTube.process_item cfg rt w c cd in
  let a := YouTube.author_name c in
  let p := youtube_prompt cfg rt c in
  if youtube_admits cfg rt c
     && negb (YouTube.is_on_cooldown cfg (now_check w) a cd)
  then posted (snd run) = [p]
       /\ fst run = if truthy (fst (Listener.send_to_brain w p NoInfo))
                    then <[a := now_set w]> cd else cd
  else posted (snd run) = [] /\ fst run = cd.
Proof.
  cbv zeta. rewrite process_item_run. cbv zeta.
  unfold youtube_admits, youtube_prompt, youtube_text,
    YouTube.format_super_chat_message, YouTube.send_to_brain.
  cbn [fst snd].
  destruct (String.eqb (YouTube.type c) "superChat").
  - set (f := YouTube.filter_urls _ _ _ _ _).
    match goal with
    | |- context [Listener.send_to_brain w (fst f) ?i] =>
        rewrite (send_to_brain_result_info w (fst f) i NoInfo);
        pose proof (send_to_brain_trace w (fst f) i) as [Hp _]
    end.
    destruct (YouTube.amount_suffices _ _); [|split; reflexivity].
    destruct (YouTube.is_on_cooldown _ _ _ _); cbn [andb negb].
    + split; [|reflexivity]. cbn [snd]. rewrite !posted_app.
      now destruct (snd f).
    + destruct (truthy _); cbn [fst snd]; (split; [|reflexivity]);
        rewrite !posted_app, Hp; now destruct (snd f).
  - destruct (YouTube.ALLOW_REGULAR_CHAT cfg && Py.startswith _ _);
      [|split; reflexivity]. cbn [andb].
    set (f := YouTube.filter_urls _ _ _ _ _).
    pose proof (send_to_brain_trace w (fst f) NoInfo) as [Hp _].
    destruct (String.eqb _ EmptyString); [split; reflexivity |].
    destruct (YouTube.is_on_cooldown _ _ _ _); cbn [andb negb].
    + split; [|reflexivity]. cbn [snd]. rewrite !posted_app.
      now destruct (snd f).
    + destruct (truthy _); cbn [fst snd]; (split; [|reflexivity]);
        rewrite !posted_app, Hp; now destruct (snd f).
Qed.

(** ** The rate limiter *)

(** Once [set_cooldown] has recorded the time [t] for an author, that
    author is on cooldown at a later reading [now] exactly while
    [now - t] is below the window; when the whole window has passed the
    author is free again; and the standing of every other author is what
    it was. *)
Theorem cooldown_after_set (window t now : Q) (author : string)
    (cd : gmap string Q) :
  (Listener.is_on_cooldown window now author
     (Listener.set_cooldown t author cd) = true
   <-> (now - t < window)%Q)
  /\ Listener.is_on_cooldown window (t + window) author
       (Listener.set_cooldown t author cd) = false
  /\ (forall other,
      other <> author ->
      Listener.is_on_cooldown window now other
        (Listener.set_cooldown t author cd)
      = Listener.is_on_cooldown window now other cd).
Proof.
  assert (Hset : forall n,
            Listener.is_on_cooldown window n author
              (Listener.set_cooldown t author cd) = true
            <-> (n - t < window)%Q).
  { intros n. rewrite is_on_cooldown_spec. unfold Listener.set_cooldown.
    rewrite lookup_insert_eq. split.
    - intros [last [[= <-] H]]. exact H.
    - intros H. eauto. }
  split; [apply Hset |]. split.
  - destruct (Listener.is_on_cooldown _ _ _ _) eqn:H; [|reflexivity].
    apply Hset in H. lra.
  - intros other Hne. unfold Listener.is_on_cooldown, Listener.set_cooldown.
    rewrite lookup_insert_ne by congruence. reflexivity.
Qed.

Lemma cooldown_after_set_witness :
  "Y" <> "X"
  /\ Listener.is_on_cooldown 5 12 "Y" (Listener.set_cooldown 10 "X" ∅)
     = Listener.is_on_cooldown 5 12 "Y" ∅.
Proof.
  assert (H : "Y" <> "X") by discriminate.
  split; [exact H |].
  exact (proj2 (proj2 (cooldown_after_set 5 10 12 "X" ∅)) "Y" H).
Defined.

(** A command of an author whose previous command was queued is turned
    away with the request to wait, and nothing is posted, when it comes
    before the window has passed since the cooldown was set; from then
    on it is posted again. *)
Theorem second_command_within_window cfg rt w1 w2 ctx1 ctx2 p1 p2
    (cd : gmap string Q) :
  let a := Twitch.name (Twitch.author ctx1) in
  let run1 := Twitch.chaos cfg rt w1 ctx1 p1 cd in
  let run2 := Twitch.chaos cfg rt w2 ctx2 p2 (fst run1) in
  Twitch.no_prompt p1 = false ->
  Twitch.insufficient_bits cfg (Twitch.bits_of ctx1) = false ->
  Twitch.is_on_cooldown cfg (now_check w1) a cd = false ->
  queued (brain w1 (twitch_prompt cfg rt ctx1 p1)) ->
  Twitch.name (Twitch.author ctx2) = a ->
  Twitch.no_prompt p2 = false ->
  Twitch.insufficient_bits cfg (Twitch.bits_of ctx2) = false ->
  ((now_check w2 - now_set w1 < Twitch.COOLDOWN_SECONDS cfg)%Q ->
   posted (snd run2) = []
   /\ sent (snd run2) = [(a, MsgWait (Twitch.COOLDOWN_SECONDS cfg))]
   /\ fst run2 = fst run1)
  /\ (~ (now_check w2 - now_set w1 < Twitch.COOLDOWN_SECONDS cfg)%Q ->
      posted (snd run2) = [twitch_prompt cfg rt ctx2 p2]).
Proof.
  cbv zeta. intros Hp1 Hb1 Hc1 Hq Hname Hp2 Hb2.
  assert (H1 : fst (Twitch.chaos cfg rt w1 ctx1 p1 cd)
               = Listener.set_cooldown (now_set w1)
                   (Twitch.name (Twitch.author ctx1)) cd).
  { rewrite chaos_cooldown. cbv zeta. rewrite Hp1, Hb1, Hc1.
    apply (send_to_brain_truthy w1 _ NoInfo) in Hq. now rewrite Hq. }
  pose proof (proj1 (cooldown_after_set (Twitch.COOLDOWN_SECONDS cfg)
                       (now_set w1) (now_check w2)
                       (Twitch.name (Twitch.author ctx1)) cd)) as Hon.
  rewrite H1, chaos_posted, chaos_sent, chaos_cooldown. cbv zeta.
  rewrite Hp2, Hb2, Hname. unfold Twitch.is_on_cooldown.
  destruct (Listener.is_on_cooldown _ _ _ _) eqn:Hc2.
  - split; [intros _; repeat split; reflexivity |].
    intros Hn. destruct Hn. now apply Hon.
  - split; [|intros _; reflexivity].
    intros Hlt. apply Hon in Hlt. discriminate.
Qed.

Lemma second_command_within_window_witness :
  (102 - 100 < Twitch.COOLDOWN_SECONDS Twitch.shipped)%Q
  /\ posted (snd (Twitch.chaos Twitch.shipped lenient
                    (world queued_reply 102 102) (viewer "X")
                    (Some "spawn more")
                    (fst (Twitch.chaos Twitch.shipped lenient
                            (world queued_reply 100 100) (viewer "X")
                            (Some "spawn zombies") ∅)))) = [].
Proof.
  assert (H : (102 - 100 < Twitch.COOLDOWN_SECONDS Twitch.shipped)%Q)
    by reflexivity.
  assert (Hq : queued (brain (world queued_reply 100 100)
                         (twitch_prompt Twitch.shipped lenient (viewer "X")
                            (Some "spawn zombies")))).
  { exists {["status" := JStr "queued"]}. split; reflexivity. }
  split; [exact H |].
  exact (proj1 (proj1 (second_command_within_window Twitch.shipped lenient
                         (world queued_reply 100 100)
                         (world queued_reply 102 102)
                         (viewer "X") (viewer "X")
                         (Some "spawn zombies") (Some "spawn more") ∅
                         eq_refl eq_refl eq_refl Hq eq_refl eq_refl eq_refl)
                  H)).
Defined.

(** [run_items] on a first item and the rest, read through projections *)
Lemma run_items_cons cfg rt w c rest (cd : gmap string Q) :
  YouTube.run_items cfg rt ((w, c) :: rest) cd =
    (fst (YouTube.run_items cfg rt rest
            (fst (YouTube.process_item cfg rt w c cd))),
     (snd (YouTube.process_item cfg rt w c cd)
      ++ snd (YouTube.run_items cfg rt rest
                (fst (YouTube.process_item cfg rt w c cd))))%list).
Proof.
  cbn [YouTube.run_items].
  destruct (YouTube.process_item cfg rt w c cd) as [cd1 tr1]. cbn [fst snd].
  destruct (YouTube.run_items cfg rt rest cd1) as [cd2 tr2]. reflexivity.
Qed.

(** Two items of one author met one after the other by the polling loop,
    the first of them queued: when the second comes before the window
    has passed, the brain is called once in all and the cooldown stays
    that of the first; otherwise both are posted, in order. *)
Theorem repeated_item_in_run cfg rt w1 w2 c1 c2 (cd : gmap string Q) :
  let a := YouTube.author_name c1 in
  let run := YouTube.run_items cfg rt [(w1, c1); (w2, c2)] cd in
  youtube_admits cfg rt c1 = true ->
  YouTube.is_on_cooldown cfg (now_check w1) a cd = false ->
  queued (brain w1 (youtube_prompt cfg rt c1)) ->
  YouTube.author_name c2 = a ->
  youtube_admits cfg rt c2 = true ->
  ((now_check w2 - now_set w1 < YouTube.COOLDOWN_SECONDS cfg)%Q ->
   posted (snd run) = [youtube_prompt cfg rt c1]
   /\ fst run = <[a := now_set w1]> cd)
  /\ (~ (now_check w2 - now_set w1 < YouTube.COOLDOWN_SECONDS cfg)%Q ->
      posted (snd run)
      = [youtube_prompt cfg rt c1; youtube_prompt cfg rt c2]).
Proof.
  cbv zeta. intros Ha1 Hc1 Hq Hname Ha2.
  pose proof (process_item_summary cfg rt w1 c1 cd) as S1. cbv zeta in S1.
  rewrite Ha1, Hc1 in S1. cbn [andb negb] in S1. destruct S1 as [P1 F1].
  apply (send_to_brain_truthy w1 _ NoInfo) in Hq. rewrite Hq in F1.
  rewrite !run_items_cons. cbn [YouTube.run_items fst snd].
  rewrite app_nil_r, posted_app, P1, F1.
  pose proof (process_item_summary cfg rt w2 c2
                (<[YouTube.author_name c1 := now_set w1]> cd)) as S2.
  cbv zeta in S2. rewrite Ha2, Hname in S2.
  pose proof (proj1 (cooldown_after_set (YouTube.COOLDOWN_SECONDS cfg)
                       (now_set w1) (now_check w2)
                       (YouTube.author_name c1) cd)) as Hon.
  unfold YouTube.is_on_cooldown, Listener.set_cooldown in *.
  destruct (Listener.is_on_cooldown _ _ _ (<[_ := _]> cd)) eqn:Hc2;
    cbn [andb negb] in S2; destruct S2 as [P2 F2].
  - split; [intros _; rewrite P2, F2; split; reflexivity |].
    intros Hn. destruct Hn. now apply Hon.
  - split; [|intros _; now rewrite P2].
    intros Hlt. apply Hon in Hlt. discriminate.
Qed.

Lemma repeated_item_in_run_witness :
  (102 - 100 < YouTube.COOLDOWN_SECONDS YouTube.shipped)%Q
  /\ posted (snd (YouTube.run_items YouTube.shipped lenient
                    [(world queued_reply 100 100,
                      super_chat "Y" "spawn zombies" (Some "$5.00"));
                     (world queued_reply 102 102,
                      super_chat "Y" "spawn more" (Some "$5.00"))] ∅))
     = ["spawn zombies"].
Proof.
  assert (H : (102 - 100 < YouTube.COOLDOWN_SECONDS YouTube.shipped)%Q)
    by reflexivity.
  assert (Hq : queued (brain (world queued_reply 100 100)
                         (youtube_prompt YouTube.shipped lenient
                            (super_chat "Y" "spawn zombies" (Some "$5.00"))))).
  { exists {["status" := JStr "queued"]}. split; reflexivity. }
  split; [exact H |].
  exact (proj1 (proj1 (repeated_item_in_run YouTube.shipped lenient
                         (world queued_reply 100 100)
                         (world queued_reply 102 102)
                         (super_chat "Y" "spawn zombies" (Some "$5.00"))
                         (super_chat "Y" "spawn more" (Some "$5.00")) ∅
                         eq_refl eq_refl Hq eq_refl eq_refl) H)).
Defined.

(** After one run the map is the old one, or the old one with the
    author's entry set. *)
Lemma chaos_cooldown_cases cfg rt w ctx prompt (cd : gmap string Q) :
  fst (Twitch.chaos cfg rt w ctx prompt cd) = cd
  \/ fst (Twitch.chaos cfg rt w ctx prompt cd)
     = <[Twitch.name (Twitch.author ctx) := now_set w]> cd.
Proof.
  rewrite chaos_cooldown. cbv zeta. destruct (_ && _); [now right | now left].
Qed.

Lemma process_item_cooldown_cases cfg rt w c (cd : gmap string Q) :
  fst (YouTube.process_item cfg rt w c cd) = cd
  \/ fst (YouTube.process_item cfg rt w c cd)
     = <[YouTube.author_name c := now_set w]> cd.
Proof.
  pose proof (process_item_summary cfg rt w c cd) as S. cbv zeta in S.
  destruct (_ && _); destruct S as [_ F]; [|now left].
  rewrite F. destruct (truthy _); [now right | now left].
Qed.

(** The cooldown map is never pruned and an event touches no entry but
    its author's: an author with an entry keeps one through every run of
    [chaos] and every run of the polling loop, and an entry is what it
    was after events of other authors only. *)
Theorem cooldown_entries_kept (rt : PyRuntime) (a : string) :
  (forall cfg w ctx prompt (cd : gmap string Q),
      is_Some (cd !! a) ->
      is_Some (fst (Twitch.chaos cfg rt w ctx prompt cd) !! a))
  /\ (forall cfg w ctx prompt (cd : gmap string Q),
      Twitch.name (Twitch.author ctx) <> a ->
      fst (Twitch.chaos cfg rt w ctx prompt cd) !! a = cd !! a)
  /\ (forall cfg items (cd : gmap string Q),
      is_Some (cd !! a) ->
      is_Some (fst (YouTube.run_items cfg rt items cd) !! a))
  /\ (forall cfg items (cd : gmap string Q),
      (forall w c, In (w, c) items -> YouTube.author_name c <> a) ->
      fst (YouTube.run_items cfg rt items cd) !! a = cd !! a).
Proof.
  split; [|split; [|split]].
  - intros cfg w ctx prompt cd H.
    destruct (chaos_cooldown_cases cfg rt w ctx prompt cd) as [-> | ->];
      [exact H |].
    rewrite lookup_insert. case_decide; [eauto | exact H].
  - intros cfg w ctx prompt cd Hne.
    destruct (chaos_cooldown_cases cfg rt w ctx prompt cd) as [-> | ->];
      [reflexivity |].
    now rewrite lookup_insert_ne.
  - intros cfg items. induction items as [|[w c] items IH]; intros cd H;
      [exact H |].
    rewrite run_items_cons. cbn [fst]. apply IH.
    destruct (process_item_cooldown_cases cfg rt w c cd) as [-> | ->];
      [exact H |].
    rewrite lookup_insert. case_decide; [eauto | exact H].
  - intros cfg items. induction items as [|[w c] items IH]; intros cd H;
      [reflexivity |].
    rewrite run_items_cons. cbn [fst]. rewrite IH.
    + destruct (process_item_cooldown_cases cfg rt w c cd) as [-> | ->];
        [reflexivity |].
      rewrite lookup_insert_ne; [reflexivity |].
      apply (H w c). now left.
    + intros w' c' Hin. apply (H w' c'). now right.
Qed.

Lemma cooldown_entries_kept_witness :
  is_Some (({["X" := 10%Q]} : gmap string Q) !! "X")
  /\ is_Some (fst (Twitch.chaos Twitch.shipped lenient
                     (world queued_reply 100 100) (viewer "Z")
                     (Some "spawn zombies") {["X" := 10%Q]}) !! "X").
Proof.
  assert (H : is_Some (({["X" := 10%Q]} : gmap string Q) !! "X"))
    by (exists 10%Q; reflexivity).
  split; [exact H |].
  exact (proj1 (cooldown_entries_kept lenient "X") Twitch.shipped
           (world queued_reply 100 100) (viewer "Z") (Some "spawn zombies")
           {["X" := 10%Q]} H).
Defined.

(** ** One attempt per event *)

(** No event is posted twice and nothing is posted but the filtered
    text: a run of [chaos] and a turn of the polling loop call the brain
    at most once, with the text [filter_urls] returned, and a run of the
    loop over a list of items makes at most as many calls as there are
    items. *)
Theorem at_most_one_post (rt : PyRuntime) :
  (forall cfg w ctx prompt (cd : gmap string Q),
      posted (snd (Twitch.chaos cfg rt w ctx prompt cd)) = []
      \/ posted (snd (Twitch.chaos cfg rt w ctx prompt cd))
         = [twitch_prompt cfg rt ctx prompt])
  /\ (forall cfg w c (cd : gmap string Q),
      posted (snd (YouTube.process_item cfg rt w c cd)) = []
      \/ posted (snd (YouTube.process_item cfg rt w c cd))
         = [youtube_prompt cfg rt c])
  /\ (forall cfg items (cd : gmap string Q),
      (length (posted (snd (YouTube.run_items cfg rt items cd)))
       <= length items)%nat).
Proof.
  assert (Hitem : forall cfg w c (cd : gmap string Q),
            posted (snd (YouTube.process_item cfg rt w c cd)) = []
            \/ posted (snd (YouTube.process_item cfg rt w c cd))
               = [youtube_prompt cfg rt c]).
  { intros cfg w c cd.
    pose proof (process_item_summary cfg rt w c cd) as S. cbv zeta in S.
    destruct (_ && _); destruct S as [P _]; [now right | now left]. }
  split; [|split; [exact Hitem |]].
  - intros cfg w ctx prompt cd. rewrite chaos_posted.
    destruct (_ || _); [now left | now right].
  - intros cfg items. induction items as [|[w c] items IH]; intros cd;
      [apply Nat.le_refl |].
    rewrite run_items_cons. cbn [snd]. rewrite posted_app, length_app.
    specialize (IH (fst (YouTube.process_item cfg rt w c cd))).
    destruct (Hitem cfg w c cd) as [-> | ->]; cbn [length]; lia.
Qed.

(** ** The URL pattern *)

(** The percent alternative of the pattern never fires: a [%] is taken
    by the class before it, so an iteration takes one character of the
    classes or none. *)
Lemma body_cons punct (c : ascii) (s : string) :
  Url.body punct (String c s) =
    if Url.single punct c then String c (Url.body punct s) else EmptyString.
Proof.
  cbn [Url.body]. destruct (Url.single punct c) eqn:H; [reflexivity |].
  destruct c as [[] [] [] [] [] [] [] []]; try reflexivity;
    cbv in H; discriminate.
Qed.

Lemma body_prefix punct (s : string) :
  exists rest, s = Url.body punct s ++ rest.
Proof.
  induction s as [|c s [rest IH]]; [exists EmptyString; reflexivity |].
  rewrite body_cons. destruct (Url.single punct c).
  - exists rest. change (String c s = String c (Url.body punct s ++ rest)).
    now rewrite <- IH.
  - exists (String c s). reflexivity.
Qed.

Lemma body_chars punct (s : string) :
  Url.all_chars (Url.single punct) (Url.body punct s) = true.
Proof.
  induction s as [|c s IH]; [reflexivity |].
  rewrite body_cons. destruct (Url.single punct c) eqn:H; [|reflexivity].
  cbn [Url.all_chars]. now rewrite H, IH.
Qed.

Lemma body_ext p1 p2 (s : string) :
  (forall c, Url.single p1 c = Url.single p2 c) ->
  Url.body p1 s = Url.body p2 s.
Proof.
  intros H. induction s as [|c s IH]; [reflexivity |].
  now rewrite !body_cons, H, IH.
Qed.

Lemma append_assoc (a b c : string) : (a ++ b) ++ c = a ++ (b ++ c).
Proof.
  induction a as [|x a IH]; [reflexivity |].
  change (String x ((a ++ b) ++ c) = String x (a ++ (b ++ c))).
  now rewrite IH.
Qed.

(** What a match of the pattern at the head of a text looks like *)
Lemma match_at_shape punct (s u : string) :
  Url.match_at punct s = Some u ->
  (exists rest, s = u ++ rest)
  /\ (Py.startswith "http://" u = true \/ Py.startswith "https://" u = true)
  /\ Url.all_chars (Url.single punct) u = true.
Proof.
  assert (Hafter : forall scheme r v,
            Url.after_scheme punct scheme r = Some v ->
            exists b rest,
              r = "://" ++ b ++ rest /\ v = scheme ++ "://" ++ b
              /\ Url.all_chars (Url.single punct) b = true).
  { intros scheme r v. unfold Url.after_scheme.
    destruct (Py.startswith "://" r) eqn:Hs; [|discriminate].
    apply startswith_spec in Hs as [t ->].
    change (Py.drop 3 ("://" ++ t)) with t.
    destruct (body_prefix punct t) as [rest Ht].
    pose proof (body_chars punct t) as Hc.
    destruct (Url.body punct t) as [|c b]; [discriminate |].
    intros [= <-]. exists (String c b), rest. now rewrite <- Ht. }
  unfold Url.match_at.
  destruct (Py.startswith "http" s) eqn:Hh; [|discriminate].
  apply startswith_spec in Hh as [r ->].
  change (Py.drop 4 ("http" ++ r)) with r.
  destruct (Py.startswith "s" r) eqn:Hs.
  - apply startswith_spec in Hs as [r' ->].
    change (Py.drop 1 ("s" ++ r')) with r'.
    destruct (Url.after_scheme punct "https" r') as [v|] eqn:Ha.
    + intros [= <-]. apply Hafter in Ha as [b [rest [-> [-> Hc]]]].
      split; [exists rest; reflexivity |].
      split; [right; reflexivity |].
      change ("https" ++ "://" ++ b) with ("https://" ++ b).
      rewrite all_chars_app, Hc. reflexivity.
    + intros Hv. apply Hafter in Hv as [b [rest [Hr _]]]. discriminate.
  - intros Hv. apply Hafter in Hv as [b [rest [-> [-> Hc]]]].
    split; [exists rest; reflexivity |].
    split; [left; reflexivity |].
    change ("http" ++ "://" ++ b) with ("http://" ++ b).
    rewrite all_chars_app, Hc. reflexivity.
Qed.

Lemma str_in_tail (u : string) (c : ascii) (s : string) :
  Py.str_in u s = true -> Py.str_in u (String c s) = true.
Proof. intros H. cbn [Py.str_in]. rewrite H. apply orb_true_r. Qed.

(** Every URL the scan returns occurs in the text, begins with a scheme
    and is made of characters of the pattern. *)
Lemma findall_from_shape punct (skip : nat) (s u : string) :
  In u (Url.findall_from punct skip s) ->
  Py.str_in u s = true
  /\ (Py.startswith "http://" u = true \/ Py.startswith "https://" u = true)
  /\ Url.all_chars (Url.single punct) u = true.
Proof.
  revert skip. induction s as [|c s IH]; intros skip Hin; [destruct Hin |].
  cbn [Url.findall_from] in Hin. destruct skip as [|k].
  - destruct (Url.match_at punct (String c s)) as [v|] eqn:Hm.
    + destruct Hin as [<- | Hin].
      * apply match_at_shape in Hm as [[rest Hr] [Hs Hc]].
        split; [|now split].
        apply str_in_spec. exists EmptyString, rest. exact Hr.
      * apply IH in Hin as [H1 H2]. split; [now apply str_in_tail | exact H2].
    + apply IH in Hin as [H1 H2]. split; [now apply str_in_tail | exact H2].
  - apply IH in Hin as [H1 H2]. split; [now apply str_in_tail | exact H2].
Qed.

(** The characters of the pattern, for either spelling of its fourth
    class *)
Lemma single_url_char (c : ascii) :
  Url.single Twitch.punct c = url_char c
  /\ Url.single YouTube.punct c = url_char c.
Proof. destruct c as [[] [] [] [] [] [] [] []]; split; reflexivity. Qed.

Lemma all_chars_ext (p q : ascii -> bool) (s : string) :
  (forall c, p c = q c) -> Url.all_chars p s = Url.all_chars q s.
Proof.
  intros H. induction s as [|c s IH]; [reflexivity |].
  cbn [Url.all_chars]. now rewrite H, IH.
Qed.

Lemma findall_from_ext p1 p2 (skip : nat) (s : string) :
  (forall c, Url.single p1 c = Url.single p2 c) ->
  Url.findall_from p1 skip s = Url.findall_from p2 skip s.
Proof.
  intros H.
  assert (Hm : forall t, Url.match_at p1 t = Url.match_at p2 t).
  { intros t. unfold Url.match_at, Url.after_scheme.
    now rewrite !(body_ext p1 p2 _ H). }
  revert skip. induction s as [|c s IH]; intros skip; [reflexivity |].
  cbn [Url.findall_from]. destruct skip; [|apply IH].
  rewrite Hm. destruct (Url.match_at p2 (String c s)); now rewrite IH.
Qed.

(** Every URL that [contains_url] returns is a piece of the text, begins
    with [http://] or [https://] (in small letters) and consists of the
    characters [!], [$] to [_] and [a] to [z] only: it holds no blank, no
    quote, no [#], and nothing outside ASCII.  In both listeners. *)
Theorem found_urls_shape (text u : string) :
  In u (Twitch.contains_url text) \/ In u (YouTube.contains_url text) ->
  Py.str_in u text = true
  /\ (Py.startswith "http://" u = true \/ Py.startswith "https://" u = true)
  /\ Url.all_chars url_char u = true.
Proof.
  intros [H | H]; apply findall_from_shape in H as [H1 [H2 H3]];
    (split; [exact H1 |]; split; [exact H2 |]);
    rewrite <- H3; apply all_chars_ext; intros c; symmetry;
    apply single_url_char.
Qed.

Lemma found_urls_shape_witness :
  In "http://evil.com/a?b=1" (Twitch.contains_url "go http://evil.com/a?b=1 now")
  /\ Py.str_in "http://evil.com/a?b=1" "go http://evil.com/a?b=1 now" = true.
Proof.
  assert (H : In "http://evil.com/a?b=1"
                (Twitch.contains_url "go http://evil.com/a?b=1 now"))
    by (left; reflexivity).
  split; [exact H |].
  exact (proj1 (found_urls_shape "go http://evil.com/a?b=1 now"
                  "http://evil.com/a?b=1" (or_introl H))).
Defined.

(** The two listeners spell the pattern differently and find the same
    URLs; with the same settings and a sender who is a moderator for
    both or for neither, their filters return the same. *)
Theorem listeners_filter_alike (rt : PyRuntime) (text : string) :
  Twitch.contains_url text = YouTube.contains_url text
  /\ (forall tcfg ycfg ctx author is_mod,
      Twitch.BLOCK_URLS tcfg = YouTube.BLOCK_URLS ycfg ->
      Twitch.ALLOWED_DOMAINS tcfg = YouTube.ALLOWED_DOMAINS ycfg ->
      Twitch.is_moderator tcfg ctx = YouTube.is_moderator ycfg author is_mod ->
      Twitch.filter_urls tcfg rt text ctx
      = YouTube.filter_urls ycfg rt text author is_mod).
Proof.
  assert (H : Twitch.contains_url text = YouTube.contains_url text).
  { apply findall_from_ext. intros c.
    destruct (single_url_char c) as [-> ->]. reflexivity. }
  split; [exact H |].
  intros tcfg ycfg ctx author is_mod Hb Ha Hm.
  unfold Twitch.filter_urls, YouTube.filter_urls. now rewrite Hb, Ha, Hm, H.
Qed.

Lemma listeners_filter_alike_witness :
  Twitch.BLOCK_URLS Twitch.shipped = YouTube.BLOCK_URLS YouTube.shipped
  /\ Twitch.filter_urls Twitch.shipped lenient "a\b http://x\y" (viewer "X")
     = YouTube.filter_urls YouTube.shipped lenient "a\b http://x\y" "X" false.
Proof.
  split; [reflexivity |].
  exact (proj2 (listeners_filter_alike lenient "a\b http://x\y")
           Twitch.shipped YouTube.shipped (viewer "X") "X" false
           eq_refl eq_refl eq_refl).
Defined.

Lemma findall_from_none punct (skip : nat) (s : string) :
  Py.str_in "http://" s = false ->
  Py.str_in "https://" s = false ->
  Url.findall_from punct skip s = [].
Proof.
  revert skip. induction s as [|c s IH]; intros skip H1 H2; [reflexivity |].
  cbn [Py.str_in] in H1, H2.
  apply orb_false_iff in H1 as [H1 H1'], H2 as [H2 H2'].
  cbn [Url.findall_from]. destruct skip; [|now apply IH].
  destruct (Url.match_at punct (String c s)) as [u|] eqn:Hm; [|now apply IH].
  apply match_at_shape in Hm as [[rest Hr] [[Hs | Hs] _]];
    apply startswith_spec in Hs as [t ->]; rewrite append_assoc in Hr.
  - assert (Py.startswith "http://" (String c s) = true)
      by (apply startswith_spec; eauto). congruence.
  - assert (Py.startswith "https://" (String c s) = true)
      by (apply startswith_spec; eauto). congruence.
Qed.

(** A text in which neither [http://] nor [https://] occurs, in small
    letters, is never altered: the scan finds nothing in it and
    [filter_urls] returns it with the flag [False].  A URL whose scheme
    is written in capitals is such a text.  In both listeners. *)
Theorem text_without_scheme_untouched (rt : PyRuntime) (text : string) :
  Py.str_in "http://" text = false ->
  Py.str_in "https://" text = false ->
  Twitch.contains_url text = []
  /\ YouTube.contains_url text = []
  /\ (forall cfg ctx, Twitch.filter_urls cfg rt text ctx = (text, false))
  /\ (forall cfg author is_mod,
      YouTube.filter_urls cfg rt text author is_mod = (text, false)).
Proof.
  intros H1 H2.
  assert (Ht : Twitch.contains_url text = [])
    by now apply findall_from_none.
  assert (Hy : YouTube.contains_url text = [])
    by now apply findall_from_none.
  split; [exact Ht |]. split; [exact Hy |]. split.
  - intros cfg ctx. unfold Twitch.filter_urls. rewrite Ht.
    destruct (negb _); [reflexivity |]. now destruct (Twitch.is_moderator _ _).
  - intros cfg author is_mod. unfold YouTube.filter_urls. rewrite Hy.
    destruct (negb _); [reflexivity |].
    now destruct (YouTube.is_moderator _ _ _).
Qed.

Lemma text_without_scheme_untouched_witness :
  Py.str_in "http://" "see HTTP://evil.com and Https://evil.com" = false
  /\ Py.str_in "https://" "see HTTP://evil.com and Https://evil.com" = false
  /\ Twitch.filter_urls Twitch.shipped lenient
       "see HTTP://evil.com and Https://evil.com" (viewer "X")
     = ("see HTTP://evil.com and Https://evil.com", false).
Proof.
  split; [reflexivity |]. split; [reflexivity |].
  exact (proj1 (proj2 (proj2 (text_without_scheme_untouched lenient
                                "see HTTP://evil.com and Https://evil.com"
                                eq_refl eq_refl)))
           Twitch.shipped (viewer "X")).
Defined.

(** ** The flag and the allow list *)

(** The flag [filter_urls] returns says exactly that blocking is on, the
    sender is no moderator and the loop redacted some URL the scan
    found; and whenever the flag is [False] the text returned is the
    text given.  In both listeners. *)
Theorem filter_flag_meaning (rt : PyRuntime) (message : string) :
  (forall cfg ctx,
      snd (Twitch.filter_urls cfg rt message ctx)
      = Twitch.BLOCK_URLS cfg && negb (Twitch.is_moderator cfg ctx)
        && existsb (Listener.redacts rt (Twitch.ALLOWED_DOMAINS cfg))
             (Twitch.contains_url message))
  /\ (forall cfg ctx,
      snd (Twitch.filter_urls cfg rt message ctx) = false ->
      fst (Twitch.filter_urls cfg rt message ctx) = message)
  /\ (forall cfg author is_mod,
      snd (YouTube.filter_urls cfg rt message author is_mod)
      = YouTube.BLOCK_URLS cfg && negb (YouTube.is_moderator cfg author is_mod)
        && existsb (Listener.redacts rt (YouTube.ALLOWED_DOMAINS cfg))
             (YouTube.contains_url message))
  /\ (forall cfg author is_mod,
      snd (YouTube.filter_urls cfg rt message author is_mod) = false ->
      fst (YouTube.filter_urls cfg rt message author is_mod) = message).
Proof.
  assert (Ht : forall cfg ctx,
            snd (Twitch.filter_urls cfg rt message ctx)
            = Twitch.BLOCK_URLS cfg && negb (Twitch.is_moderator cfg ctx)
              && existsb (Listener.redacts rt (Twitch.ALLOWED_DOMAINS cfg))
                   (Twitch.contains_url message)).
  { intros cfg ctx. unfold Twitch.filter_urls.
    destruct (Twitch.BLOCK_URLS cfg); [|reflexivity].
    destruct (Twitch.is_moderator cfg ctx); [reflexivity |].
    apply filter_found_flag. }
  assert (Hy : forall cfg author is_mod,
            snd (YouTube.filter_urls cfg rt message author is_mod)
            = YouTube.BLOCK_URLS cfg
              && negb (YouTube.is_moderator cfg author is_mod)
              && existsb (Listener.redacts rt (YouTube.ALLOWED_DOMAINS cfg))
                   (YouTube.contains_url message)).
  { intros cfg author is_mod. unfold YouTube.filter_urls.
    destruct (YouTube.BLOCK_URLS cfg); [|reflexivity].
    destruct (YouTube.is_moderator cfg author is_mod); [reflexivity |].
    apply filter_found_flag. }
  split; [exact Ht |]. split; [|split; [exact Hy |]].
  - intros cfg ctx H. rewrite Ht in H. unfold Twitch.filter_urls.
    destruct (Twitch.BLOCK_URLS cfg); [|reflexivity].
    destruct (Twitch.is_moderator cfg ctx); [reflexivity |].
    now rewrite filter_found_clean.
  - intros cfg author is_mod H. rewrite Hy in H. unfold YouTube.filter_urls.
    destruct (YouTube.BLOCK_URLS cfg); [|reflexivity].
    destruct (YouTube.is_moderator cfg author is_mod); [reflexivity |].
    now rewrite filter_found_clean.
Qed.

Lemma filter_flag_meaning_witness :
  snd (Twitch.filter_urls Twitch.shipped lenient
         "pic https://i.imgur.com/a.png" (viewer "X")) = false
  /\ fst (Twitch.filter_urls Twitch.shipped lenient
            "pic https://i.imgur.com/a.png" (viewer "X"))
     = "pic https://i.imgur.com/a.png".
Proof.
  split; [reflexivity |].
  exact (proj1 (proj2 (filter_flag_meaning lenient
                         "pic https://i.imgur.com/a.png"))
           Twitch.shipped (viewer "X") eq_refl).
Defined.

(** Edges of the allow list.  With an empty list every URL found is
    redacted.  An entry that is the empty string allows every host, so
    only URLs that do not parse are redacted.  A longer list never
    redacts more.  And since the host is put in small letters and the
    entries are not, a list whose entries all hold a capital letter
    allows nothing. *)
Theorem allow_list_edges (rt : PyRuntime) (url : string) :
  Listener.redacts rt [] url = true
  /\ (forall allowed netloc,
      In EmptyString allowed ->
      Url.urlparse_netloc rt url = Some netloc ->
      Listener.redacts rt allowed url = false)
  /\ (forall allowed more,
      Listener.redacts rt (allowed ++ more) url = true ->
      Listener.redacts rt allowed url = true)
  /\ (forall allowed,
      (forall entry, In entry allowed ->
         Url.all_chars (fun c => negb (Py.is_upper c)) entry = false) ->
      Listener.redacts rt allowed url = true).
Proof.
  unfold Listener.redacts. split; [|split; [|split]].
  - now destruct (Url.urlparse_netloc rt url).
  - intros allowed netloc Hin ->. apply negb_false_iff.
    apply is_allowed_spec. exists EmptyString, EmptyString, (Py.lower netloc).
    split; [exact Hin | reflexivity].
  - intros allowed more. destruct (Url.urlparse_netloc rt url); [|reflexivity].
    unfold Listener.is_allowed. rewrite existsb_app, negb_true_iff.
    intros H. apply orb_false_iff in H as [H _]. now rewrite H.
  - intros allowed H. destruct (Url.urlparse_netloc rt url) as [netloc|];
      [|reflexivity].
    apply negb_true_iff. destruct (Listener.is_allowed _ _) eqn:Ha;
      [|reflexivity].
    apply is_allowed_spec in Ha as [entry [pre [post [Hin Hd]]]].
    pose proof (lower_no_upper netloc) as Hl.
    rewrite Hd, !all_chars_app, (H entry Hin) in Hl.
    now rewrite andb_false_r in Hl.
Qed.

Lemma allow_list_edges_witness :
  (forall entry, In entry ["Imgur.com"] ->
     Url.all_chars (fun c => negb (Py.is_upper c)) entry = false)
  /\ Listener.redacts lenient ["Imgur.com"] "http://imgur.com/a.png" = true.
Proof.
  assert (H : forall entry, In entry ["Imgur.com"] ->
            Url.all_chars (fun c => negb (Py.is_upper c)) entry = false).
  { intros entry [<- | []]. reflexivity. }
  split; [exact H |].
  exact (proj2 (proj2 (proj2 (allow_list_edges lenient
                                "http://imgur.com/a.png")))
           ["Imgur.com"] H).
Defined.

(** ** When a redacted URL is gone for good *)

(** A text that does not hold the first character of [new] and that
    heads the result of a replacement heads the text replaced in. *)
Lemma startswith_replace_from (old new_tail : string) (n0 : ascii)
    (y s : string) :
  y <> EmptyString ->
  Py.str_in (String n0 EmptyString) y = false ->
  Py.startswith y (Py.replace_from 0 old (String n0 new_tail) s) = true ->
  Py.startswith y s = true.
Proof.
  revert y. induction s as [|c s IH]; intros y Hne Hn0 H.
  - destruct y; [contradiction | discriminate].
  - destruct y as [|y0 y]; [contradiction |].
    rewrite str_in_char_cons in Hn0. apply orb_false_iff in Hn0 as [Hy0 Hy].
    cbn [Py.replace_from] in H.
    destruct (Py.startswith old (String c s)).
    + change (String n0 new_tail ++ ?t) with (String n0 (new_tail ++ t)) in H.
      cbn [Py.startswith] in H. apply andb_true_iff in H as [H _].
      rewrite Ascii.eqb_sym in Hy0. congruence.
    + cbn [Py.startswith] in H |- *. apply andb_true_iff in H as [H0 H].
      rewrite H0. cbn [andb].
      destruct y as [|y1 y]; [reflexivity |].
      apply IH; [discriminate | exact Hy | exact H].
Qed.

(** No occurrence begins inside a text that lacks its first character. *)
Lemma str_in_skip (x0 : ascii) (x new t : string) :
  Py.str_in (String x0 EmptyString) new = false ->
  Py.str_in (String x0 x) (new ++ t) = Py.str_in (String x0 x) t.
Proof.
  induction new as [|n new IH]; intros H; [reflexivity |].
  rewrite str_in_char_cons in H. apply orb_false_iff in H as [Hn H].
  change (String n new ++ t) with (String n (new ++ t)).
  cbn [Py.str_in Py.startswith]. rewrite Hn. cbn [andb orb]. now apply IH.
Qed.

(** A replacement creates no occurrence of a text whose first character
    the marker lacks and which lacks the marker's first character. *)
Lemma str_in_replace_from (old new_tail : string) (n0 x0 : ascii)
    (x : string) (k : nat) (s : string) :
  Py.str_in (String x0 EmptyString) (String n0 new_tail) = false ->
  Py.str_in (String n0 EmptyString) (String x0 x) = false ->
  Py.str_in (String x0 x)
    (Py.replace_from k old (String n0 new_tail) s) = true ->
  Py.str_in (String x0 x) s = true.
Proof.
  intros Hx Hn. revert k. induction s as [|c s IH]; intros k H.
  - exact H.
  - cbn [Py.replace_from] in H. destruct k as [|k].
    + assert (E : Py.startswith old (String c s) = false ->
                  Py.replace_from 0 old (String n0 new_tail) (String c s)
                  = String c (Py.replace_from 0 old (String n0 new_tail) s)).
      { intros Hm. cbn [Py.replace_from]. now rewrite Hm. }
      destruct (Py.startswith old (String c s)) eqn:Hm.
      * rewrite str_in_skip in H by exact Hx.
        apply str_in_tail. now apply IH in H.
      * specialize (E eq_refl). cbn [Py.str_in] in H.
        apply orb_true_iff in H as [H | H].
        -- rewrite <- E in H.
           apply startswith_replace_from in H; [|discriminate | exact Hn].
           cbn [Py.str_in]. now rewrite H.
        -- apply str_in_tail. now apply IH in H.
    + apply str_in_tail. now apply IH in H.
Qed.

(** Replacing a text by a marker leaves no occurrence of it, when the
    marker lacks its first character and it lacks the marker's. *)
Lemma replace_from_removes (new_tail : string) (n0 x0 : ascii) (x : string)
    (k : nat) (s : string) :
  Py.str_in (String x0 EmptyString) (String n0 new_tail) = false ->
  Py.str_in (String n0 EmptyString) (String x0 x) = false ->
  Py.str_in (String x0 x)
    (Py.replace_from k (String x0 x) (String n0 new_tail) s) = false.
Proof.
  intros Hx Hn. revert k. induction s as [|c s IH]; intros k.
  - reflexivity.
  - destruct k as [|k]; [|apply IH].
    destruct (Py.startswith (String x0 x) (String c s)) eqn:Hm.
    + cbn [Py.replace_from]. rewrite Hm.
      rewrite str_in_skip by exact Hx. apply IH.
    + assert (E : Py.replace_from 0 (String x0 x) (String n0 new_tail)
                    (String c s)
                  = String c (Py.replace_from 0 (String x0 x)
                                (String n0 new_tail) s))
        by (cbn [Py.replace_from]; now rewrite Hm).
      destruct (Py.startswith (String x0 x)
                  (Py.replace_from 0 (String x0 x) (String n0 new_tail)
                     (String c s))) eqn:Hs.
      * apply startswith_replace_from in Hs; [|discriminate | exact Hn].
        congruence.
      * rewrite E in Hs |- *. cbn [Py.str_in]. rewrite Hs. apply IH.
Qed.

Lemma plain_url_absent_step rt allowed (m : string) (f : bool) (v x : string) :
  plain_url v -> plain_url x ->
  Py.str_in x m = false ->
  Py.str_in x (fst (Listener.filter_step rt allowed (m, f) v)) = false.
Proof.
  intros [Hv _] [Hx Hb] Hm. rewrite filter_step_redacts.
  destruct (Listener.redacts rt allowed v); [|exact Hm]. cbn [fst].
  destruct v as [|v0 v]; [discriminate |].
  destruct x as [|x0 x]; [discriminate |].
  cbn [Py.startswith] in Hx. rewrite andb_true_r in Hx.
  apply Ascii.eqb_eq in Hx. subst x0.
  destruct (Py.str_in _ (Py.replace _ _ _)) eqn:H; [|reflexivity].
  apply str_in_replace_from in H; [congruence | reflexivity | exact Hb].
Qed.

Lemma plain_url_removed_step rt allowed (m : string) (f : bool) (u : string) :
  plain_url u ->
  Listener.redacts rt allowed u = true ->
  Py.str_in u (fst (Listener.filter_step rt allowed (m, f) u)) = false.
Proof.
  intros [Hu Hb] Hr. rewrite filter_step_redacts, Hr. cbn [fst].
  destruct u as [|u0 u]; [discriminate |].
  cbn [Py.startswith] in Hu. rewrite andb_true_r in Hu.
  apply Ascii.eqb_eq in Hu. subst u0.
  apply replace_from_removes; [reflexivity | exact Hb].
Qed.

Lemma fold_keeps_absent rt allowed (urls : list string) (m : string)
    (f : bool) (x : string) :
  (forall v, In v urls -> plain_url v) ->
  plain_url x ->
  Py.str_in x m = false ->
  Py.str_in x (fst (fold_left (Listener.filter_step rt allowed) urls (m, f)))
  = false.
Proof.
  revert m f. induction urls as [|v urls IH]; intros m f Hall Hx Hm;
    [exact Hm |].
  cbn [fold_left].
  destruct (Listener.filter_step rt allowed (m, f) v) as [m' f'] eqn:Hs.
  apply IH; [intros w Hw; apply Hall; now right | exact Hx |].
  change m' with (fst (m', f')). rewrite <- Hs.
  apply plain_url_absent_step; [apply Hall; now left | exact Hx | exact Hm].
Qed.

Lemma fold_removes rt allowed (urls : list string) (m : string) (f : bool)
    (u : string) :
  (forall v, In v urls -> plain_url v) ->
  In u urls ->
  Listener.redacts rt allowed u = true ->
  Py.str_in u (fst (fold_left (Listener.filter_step rt allowed) urls (m, f)))
  = false.
Proof.
  revert m f. induction urls as [|v urls IH]; intros m f Hall Hin Hr;
    [destruct Hin |].
  cbn [fold_left].
  destruct (Listener.filter_step rt allowed (m, f) v) as [m' f'] eqn:Hs.
  destruct (string_dec v u) as [-> | Hne].
  - apply fold_keeps_absent;
      [intros w Hw; apply Hall; now right | apply Hall; now left |].
    change m' with (fst (m', f')). rewrite <- Hs.
    apply plain_url_removed_step; [apply Hall; now left | exact Hr].
  - destruct Hin as [-> | Hin]; [contradiction |].
    apply IH; [intros w Hw; apply Hall; now right | exact Hin | exact Hr].
Qed.

(** When no URL found in the text holds an opening bracket, every URL
    the loop redacts is gone from the text returned: no occurrence of it
    is left, whatever the other URLs are and however they overlap.  In
    both listeners. *)
Theorem redacted_urls_gone (rt : PyRuntime) (text u : string) :
  (forall cfg ctx,
      (forall v, In v (Twitch.contains_url text) -> Py.str_in "[" v = false) ->
      Twitch.BLOCK_URLS cfg = true ->
      Twitch.is_moderator cfg ctx = false ->
      In u (Twitch.contains_url text) ->
      Listener.redacts rt (Twitch.ALLOWED_DOMAINS cfg) u = true ->
      Py.str_in u (fst (Twitch.filter_urls cfg rt text ctx)) = false)
  /\ (forall cfg author is_mod,
      (forall v, In v (YouTube.contains_url text) -> Py.str_in "[" v = false) ->
      YouTube.BLOCK_URLS cfg = true ->
      YouTube.is_moderator cfg author is_mod = false ->
      In u (YouTube.contains_url text) ->
      Listener.redacts rt (YouTube.ALLOWED_DOMAINS cfg) u = true ->
      Py.str_in u (fst (YouTube.filter_urls cfg rt text author is_mod))
      = false).
Proof.
  assert (Hplain : forall punct v,
            In v (Url.findall punct text) -> Py.str_in "[" v = false ->
            plain_url v).
  { intros punct v Hv Hb. split; [|exact Hb].
    apply findall_from_shape in Hv as [_ [[Hs | Hs] _]];
      apply startswith_spec in Hs as [t ->]; reflexivity. }
  assert (Hfound : forall punct allowed,
            (forall v, In v (Url.findall punct text) ->
                       Py.str_in "[" v = false) ->
            In u (Url.findall punct text) ->
            Listener.redacts rt allowed u = true ->
            Py.str_in u
              (fst (Listener.filter_found rt allowed
                      (Url.findall punct text) text)) = false).
  { intros punct allowed Hall Hin Hr. unfold Listener.filter_found.
    destruct (Url.findall punct text) as [|v urls] eqn:Hf; [destruct Hin |].
    apply fold_removes; [|exact Hin | exact Hr].
    intros w Hw. apply (Hplain punct); [now rewrite Hf | now apply Hall]. }
  split.
  - intros cfg ctx Hall Hb Hm Hin Hr. unfold Twitch.filter_urls.
    rewrite Hb, Hm. cbn [negb]. now apply Hfound.
  - intros cfg author is_mod Hall Hb Hm Hin Hr. unfold YouTube.filter_urls.
    rewrite Hb, Hm. cbn [negb]. now apply Hfound.
Qed.

Lemma redacted_urls_gone_witness :
  (forall v, In v (Twitch.contains_url nested_text) ->
             Py.str_in "[" v = false)
  /\ Py.str_in "http://c.d/http://a.b"
       (fst (Twitch.filter_urls Twitch.shipped lenient nested_text
               (viewer "X"))) = false.
Proof.
  assert (E : Twitch.contains_url nested_text
              = ["http://a.b"; "http://c.d/http://a.b"])
    by (vm_compute; reflexivity).
  assert (H : forall v, In v (Twitch.contains_url nested_text) ->
                        Py.str_in "[" v = false).
  { rewrite E. intros v [<- | [<- | []]]; vm_compute; reflexivity. }
  assert (Hin : In "http://c.d/http://a.b" (Twitch.contains_url nested_text)).
  { rewrite E. right. left. reflexivity. }
  assert (Hr : Listener.redacts lenient
                 (Twitch.ALLOWED_DOMAINS Twitch.shipped)
                 "http://c.d/http://a.b" = true)
    by (vm_compute; reflexivity).
  split; [exact H |].
  exact (proj1 (redacted_urls_gone lenient nested_text "http://c.d/http://a.b")
           Twitch.shipped (viewer "X") H eq_refl eq_refl Hin Hr).
Defined.

(** ** The host of a URL *)

(** For a URL of the form scheme, [://], host and a rest that is empty
    or begins with [/], [?] or [#], the loop decides on the host alone:
    the URL is redacted exactly when no allowed entry occurs in the
    lower-cased host.  The host is everything up to the first delimiter,
    user name and port included; what follows the delimiter does not
    count. *)
Theorem redaction_decided_by_host (rt : PyRuntime) (allowed : list string)
    (host rest : string) :
  Url.all_chars host_char host = true ->
  Url.netloc_of rest = EmptyString ->
  Url.urlparse_netloc rt ("http://" ++ host ++ rest) = Some host
  /\ Url.urlparse_netloc rt ("https://" ++ host ++ rest) = Some host
  /\ Listener.redacts rt allowed ("http://" ++ host ++ rest)
     = negb (Listener.is_allowed allowed (Py.lower host))
  /\ Listener.redacts rt allowed ("https://" ++ host ++ rest)
     = negb (Listener.is_allowed allowed (Py.lower host)).
Proof.
  intros Hh Hr.
  destruct (host_no_bracket host Hh) as [Hl Hb].
  assert (Hn : Url.all_chars netloc_char host = true).
  { revert Hh. apply all_chars_impl. intros c Hc.
    now destruct (host_char_facts c Hc). }
  pose proof (urlparse_netloc_built rt "http" host rest
                (or_introl eq_refl) Hn Hr) as H1.
  pose proof (urlparse_netloc_built rt "https" host rest
                (or_intror eq_refl) Hn Hr) as H2.
  cbv zeta in H1, H2. rewrite Hl, Hb in H1, H2. cbn [andb orb negb] in H1, H2.
  change ("http" ++ "://" ++ host ++ rest) with ("http://" ++ host ++ rest)
    in H1.
  change ("https" ++ "://" ++ host ++ rest) with ("https://" ++ host ++ rest)
    in H2.
  unfold Listener.redacts. rewrite H1, H2. repeat split; reflexivity.
Qed.

Lemma redaction_decided_by_host_witness :
  Url.all_chars host_char "imgur.com@evil.com:80" = true
  /\ Url.netloc_of "/imgur.com" = EmptyString
  /\ Listener.redacts lenient ["imgur.com"]
       "http://imgur.com@evil.com:80/imgur.com" = false.
Proof.
  split; [reflexivity |]. split; [reflexivity |].
  exact (proj1 (proj2 (proj2 (redaction_decided_by_host lenient ["imgur.com"]
                                "imgur.com@evil.com:80" "/imgur.com"
                                eq_refl eq_refl)))).
Defined.

(** The loop fails closed: a URL whose network location holds one kind
    of bracket without the other makes [urlparse] raise, and is redacted
    whatever the allow list says, even when an allowed name stands in
    it. *)
Theorem unbalanced_bracket_redacted (rt : PyRuntime) (allowed : list string)
    (netloc rest : string) :
  Url.all_chars netloc_char netloc = true ->
  Url.netloc_of rest = EmptyString ->
  Py.str_in "[" netloc <> Py.str_in "]" netloc ->
  Listener.redacts rt allowed ("http://" ++ netloc ++ rest) = true
  /\ Listener.redacts rt allowed ("https://" ++ netloc ++ rest) = true
  /\ (forall m f,
      Listener.filter_step rt allowed (m, f) ("http://" ++ netloc ++ rest)
      = (Py.replace ("http://" ++ netloc ++ rest) "[URL REMOVED]" m, true)).
Proof.
  intros Hn Hr Hb.
  pose proof (urlparse_netloc_built rt "http" netloc rest
                (or_introl eq_refl) Hn Hr) as H1.
  pose proof (urlparse_netloc_built rt "https" netloc rest
                (or_intror eq_refl) Hn Hr) as H2.
  cbv zeta in H1, H2.
  change ("http" ++ "://" ++ netloc ++ rest)
    with ("http://" ++ netloc ++ rest) in H1.
  change ("https" ++ "://" ++ netloc ++ rest)
    with ("https://" ++ netloc ++ rest) in H2.
  assert (E : (Py.str_in "[" netloc && negb (Py.str_in "]" netloc))
              || (Py.str_in "]" netloc && negb (Py.str_in "[" netloc)) = true).
  { destruct (Py.str_in "[" netloc), (Py.str_in "]" netloc);
      try reflexivity; now destruct Hb. }
  rewrite E in H1, H2.
  assert (R1 : Listener.redacts rt allowed ("http://" ++ netloc ++ rest)
               = true)
    by (unfold Listener.redacts; now rewrite H1).
  split; [exact R1 |]. split.
  - unfold Listener.redacts. now rewrite H2.
  - intros m f. now rewrite filter_step_redacts, R1.
Qed.

Lemma unbalanced_bracket_redacted_witness :
  Url.all_chars netloc_char "imgur.com[" = true
  /\ Py.str_in "[" "imgur.com[" <> Py.str_in "]" "imgur.com["
  /\ Listener.redacts lenient ["imgur.com"] "http://imgur.com[/a.png" = true.
Proof.
  assert (H : Py.str_in "[" "imgur.com[" <> Py.str_in "]" "imgur.com[")
    by discriminate.
  split; [reflexivity |]. split; [exact H |].
  exact (proj1 (unbalanced_bracket_redacted lenient ["imgur.com"]
                  "imgur.com[" "/a.png" eq_refl eq_refl H)).
Defined.

(** ** Reading amounts: the edges *)

Lemma amount_char_point (rt : PyRuntime) : YouTube.amount_char rt "." = true.
Proof. unfold YouTube.amount_char. now rewrite orb_true_r. Qed.

(** Edges of the reading of a super chat's amount.  The amount is never
    negative.  A character that is neither a digit nor a point is passed
    over wherever it stands, so currency signs, blanks and commas do not
    count.  A text without any digit character reads as zero, and so
    does every text with two or more points. *)
Theorem amount_reading_edges (rt : PyRuntime) :
  (forall amount_str, not_negative (YouTube.parse_amount rt amount_str))
  /\ (forall a c b,
      utf8_char c = true ->
      YouTube.amount_char rt c = false ->
      Py.starts_with_continuation b = false ->
      YouTube.parse_amount rt (a ++ c ++ b) = YouTube.parse_amount rt (a ++ b))
  /\ (forall amount_str,
      (forall x, In x (Py.chars amount_str) -> Py.isdigit rt x = false) ->
      YouTube.parse_amount rt amount_str = Finite 0)
  /\ (forall a b c,
      YouTube.parse_amount rt (a ++ "." ++ b ++ "." ++ c) = Finite 0).
Proof.
  split; [exact (parse_amount_nonneg rt) |]. split; [|split].
  - intros a c b Hc Hk Hb. unfold YouTube.parse_amount, YouTube.amount_text.
    rewrite (chars_app a (c ++ b)) by now apply utf8_char_start.
    rewrite (chars_utf8_char _ _ Hc Hb), (chars_app a b Hb).
    rewrite !List.filter_app. cbn [List.filter]. now rewrite Hk.
  - intros s H. unfold YouTube.parse_amount.
    now rewrite (float_of_no_digit rt s H).
  - intros a b c. unfold YouTube.parse_amount.
    rewrite float_of_amount_text.
    change (a ++ "." ++ b ++ "." ++ c)
      with (a ++ String "." (b ++ String "." c)).
    rewrite !chars_app_ascii by reflexivity.
    rewrite List.filter_app. cbn [List.filter]. rewrite amount_char_point.
    rewrite List.filter_app. cbn [List.filter]. rewrite amount_char_point.
    now rewrite float_of_chars_two_points.
Qed.

Lemma amount_reading_edges_witness :
  utf8_char "€" = true
  /\ YouTube.amount_char lenient "€" = false
  /\ Py.starts_with_continuation "50" = false
  /\ YouTube.parse_amount lenient ("2" ++ "€" ++ "50")
     = YouTube.parse_amount lenient ("2" ++ "50").
Proof.
  split; [reflexivity |]. split; [reflexivity |]. split; [reflexivity |].
  exact (proj1 (proj2 (amount_reading_edges lenient)) "2" "€" "50"
           eq_refl eq_refl eq_refl).
Defined.

(** ** Commands without bits, and the command setting *)

(** A command whose message has no tags, or whose tags hold no bits,
    counts as a command of zero bits; where bits are required and the
    minimum is positive it is turned away with the request to cheer,
    before the cooldown is looked at and without any call to the
    brain. *)
Theorem command_without_bits cfg rt w ctx prompt (cd : gmap string Q) :
  Twitch.tags ctx = None
  \/ (exists t, Twitch.tags ctx = Some t /\ t !! "bits" = None) ->
  Twitch.bits_of ctx = 0%Z
  /\ (Twitch.REQUIRE_BITS cfg = true ->
      (0 < Twitch.MIN_BITS_AMOUNT cfg)%Z ->
      Twitch.no_prompt prompt = false ->
      Twitch.chaos cfg rt w ctx prompt cd =
        (cd,
         [Print (LogChat (Twitch.name (Twitch.author ctx)));
          Print (LogMessage (default EmptyString prompt));
          Print (LogInsufficientBits (Twitch.MIN_BITS_AMOUNT cfg));
          Send (Twitch.name (Twitch.author ctx))
            (MsgNeedBits (Twitch.MIN_BITS_AMOUNT cfg))])).
Proof.
  intros H.
  assert (Hb : Twitch.bits_of ctx = 0%Z).
  { unfold Twitch.bits_of. destruct H as [-> | [t [-> Ht]]]; [reflexivity |].
    case_decide; [reflexivity |]. now rewrite Ht. }
  split; [exact Hb |].
  intros Hr Hmin Hp. rewrite chaos_run. cbv zeta.
  rewrite Hp, Hb. unfold Twitch.insufficient_bits. rewrite Hr.
  apply Z.ltb_lt in Hmin. now rewrite Hmin.
Qed.

Lemma command_without_bits_witness :
  Twitch.tags (viewer "X") = None
  /\ Twitch.bits_of (viewer "X") = 0%Z.
Proof.
  split; [reflexivity |].
  exact (proj1 (command_without_bits Twitch.shipped lenient
                  (world queued_reply 0 0) (viewer "X") (Some "spawn") ∅
                  (or_introl eq_refl))).
Defined.

(** In the callback-driven listener the setting [CHAT_COMMAND] reaches
    the usage hint and nothing else: the handler treats a command that
    carries a prompt the same whatever the setting says. *)
Theorem chat_command_only_in_hint cfg rt w ctx prompt (cd : gmap string Q)
    (command : string) :
  (Twitch.no_prompt prompt = false ->
   Twitch.chaos (with_command cfg command) rt w ctx prompt cd
   = Twitch.chaos cfg rt w ctx prompt cd)
  /\ (Twitch.no_prompt prompt = true ->
      Twitch.chaos (with_command cfg command) rt w ctx prompt cd
      = (cd, [Send (Twitch.name (Twitch.author ctx)) (MsgUsage command)])).
Proof.
  split; intros Hp; unfold Twitch.chaos; rewrite Hp; reflexivity.
Qed.

Lemma chat_command_only_in_hint_witness :
  Twitch.no_prompt (Some "spawn zombies") = false
  /\ Twitch.chaos (with_command Twitch.shipped "!mayhem") lenient
       (world queued_reply 0 0) (viewer "X") (Some "spawn zombies") ∅
     = Twitch.chaos Twitch.shipped lenient
         (world queued_reply 0 0) (viewer "X") (Some "spawn zombies") ∅.
Proof.
  split; [reflexivity |].
  exact (proj1 (chat_command_only_in_hint Twitch.shipped lenient
                  (world queued_reply 0 0) (viewer "X")
                  (Some "spawn zombies") ∅ "!mayhem") eq_refl).
Defined.

(** ** Plain chat in the polling loop *)

(** While plain chat is disabled the polling loop sees super chats only:
    every other item is passed over without a line on the console, a
    call to the brain or a change of the cooldown map, so a run over a
    list of items is the run over its super chats. *)
Theorem plain_chat_disabled cfg rt items (cd : gmap string Q) :
  YouTube.ALLOW_REGULAR_CHAT cfg = false ->
  YouTube.run_items cfg rt items cd
  = YouTube.run_items cfg rt (List.filter is_super_chat items) cd.
Proof.
  intros Ha. revert cd. induction items as [|[w c] items IH]; intros cd;
    [reflexivity |].
  cbn [List.filter]. unfold is_super_chat at 1. cbn [snd].
  destruct (String.eqb (YouTube.type c) "superChat") eqn:Ht.
  - rewrite !run_items_cons. now rewrite !IH.
  - rewrite run_items_cons.
    assert (E : YouTube.process_item cfg rt w c cd = (cd, [])).
    { rewrite process_item_run. cbv zeta. now rewrite Ht, Ha. }
    rewrite E. cbn [fst snd app]. rewrite <- IH.
    now destruct (YouTube.run_items cfg rt items cd).
Qed.

Lemma plain_chat_disabled_witness :
  YouTube.ALLOW_REGULAR_CHAT YouTube.shipped = false
  /\ YouTube.run_items YouTube.shipped lenient
       [(world queued_reply 0 0,
         {| YouTube.author_name := "Y"; YouTube.isChatModerator := None;
            YouTube.message := "!chaos spawn zombies";
            YouTube.type := "textMessage";
            YouTube.amountString := None; YouTube.currency := None |})] ∅
     = YouTube.run_items YouTube.shipped lenient [] ∅.
Proof.
  split; [reflexivity |].
  exact (plain_chat_disabled YouTube.shipped lenient
           [(world queued_reply 0 0,
             {| YouTube.author_name := "Y"; YouTube.isChatModerator := None;
                YouTube.message := "!chaos spawn zombies";
                YouTube.type := "textMessage";
                YouTube.amountString := None; YouTube.currency := None |})]
           ∅ eq_refl).
Defined.

Lemma startswith_app (p rest : string) : Py.startswith p (p ++ rest) = true.
Proof. apply startswith_spec. eauto. Qed.

Lemma drop_app (p rest : string) : Py.drop (String.length p) (p ++ rest) = rest.
Proof. induction p as [|c p IH]; [reflexivity | exact IH]. Qed.

(** A text made of white space only is stripped to nothing. *)
Lemma strip_all_space (rt : PyRuntime) (s : string) :
  (forall x, In x (Py.chars s) -> Py.isspace rt x = true) ->
  Py.strip rt s = EmptyString.
Proof.
  unfold Py.strip. intros H.
  assert (E : Py.lstrip rt (Py.chars s) = []).
  { induction (Py.chars s) as [|x l IH]; [reflexivity |].
    cbn [Py.lstrip]. rewrite (H x) by now left.
    apply IH. intros y Hy. apply H. now right. }
  now rewrite E.
Qed.

(** IDEOGRAPHIC SPACE and NO-BREAK SPACE are white space for [strip]. *)
Example strip_ideographic_space :
  Py.strip lenient "　spawn zombies " = "spawn zombies".
Proof. vm_compute. reflexivity. Qed.

(** A command followed by a NO-BREAK SPACE and nothing else is
    dropped. *)
Example plain_chat_no_break_space :
  YouTube.process_item plain_chat_enabled lenient (world queued_reply 0 0)
    (chat_message "Y" "!chaos ") ∅ = (∅, []).
Proof. vm_compute. reflexivity. Qed.

(** Where plain chat is enabled, every message that is no super chat and
    begins with the characters of the command is taken as a command, no
    blank being asked for after them: the prompt is the rest of the
    message with the white space at its ends stripped.  When nothing is
    left, as when the rest is white space only, the item is dropped
    without a trace; otherwise, the author not being on cooldown, the
    filtered prompt is posted. *)
Theorem plain_chat_command cfg rt w c rest (cd : gmap string Q) :
  YouTube.ALLOW_REGULAR_CHAT cfg = true ->
  YouTube.type c <> "superChat" ->
  YouTube.message c = YouTube.CHAT_COMMAND cfg ++ rest ->
  (Py.strip rt rest = EmptyString ->
   YouTube.process_item cfg rt w c cd = (cd, []))
  /\ ((forall x, In x (Py.chars rest) -> Py.isspace rt x = true) ->
      YouTube.process_item cfg rt w c cd = (cd, []))
  /\ (Py.strip rt rest <> EmptyString ->
      YouTube.is_on_cooldown cfg (now_check w) (YouTube.author_name c) cd
      = false ->
      posted (snd (YouTube.process_item cfg rt w c cd))
      = [fst (YouTube.filter_urls cfg rt (Py.strip rt rest)
                (YouTube.author_name c)
                (default false (YouTube.isChatModerator c)))]).
Proof.
  intros Ha Ht Hm. apply String.eqb_neq in Ht.
  rewrite process_item_run. cbv zeta.
  rewrite Ht, Ha, Hm, startswith_app, drop_app. cbn [andb].
  split; [|split].
  - intros ->. reflexivity.
  - intros H. rewrite (strip_all_space rt rest H). reflexivity.
  - intros Hne Hcd. apply String.eqb_neq in Hne. rewrite Hne, Hcd.
    unfold YouTube.send_to_brain.
    set (f := YouTube.filter_urls _ _ _ _ _).
    pose proof (send_to_brain_trace w (fst f) NoInfo) as [Hp _].
    destruct (truthy _); cbn [snd]; rewrite !posted_app, Hp;
      now destruct (snd f).
Qed.

Lemma plain_chat_command_witness :
  YouTube.message (chat_message "Y" "!chaostic  ")
  = YouTube.CHAT_COMMAND plain_chat_enabled ++ "tic  "
  /\ posted (snd (YouTube.process_item plain_chat_enabled lenient
                    (world queued_reply 0 0)
                    (chat_message "Y" "!chaostic  ") ∅))
     = ["tic"].
Proof.
  assert (Ht : YouTube.type (chat_message "Y" "!chaostic  ") <> "superChat")
    by discriminate.
  assert (Hn : Py.strip lenient "tic  " <> EmptyString)
    by (vm_compute; discriminate).
  split; [reflexivity |].
  exact (proj2 (proj2 (plain_chat_command plain_chat_enabled lenient
                         (world queued_reply 0 0)
                         (chat_message "Y" "!chaostic  ")
                         "tic  " ∅ eq_refl Ht eq_refl)) Hn eq_refl).
Defined.
